(** * tailor-assessment-bot: a shallow embedding of the webhook relay

    The development follows the repository file by file:

    - [PyStr]        the Python string operations the code relies on
                     ([startswith], [replace], [lower], [upper], [title],
                     [join], [strip], [int], slicing);
    - the effect layer: external calls (Twilio, HTTP, Gemini, the master
      agent, the session service) answer through an oracle and are recorded
      in a chronological trace; Python exceptions are values;
    - [Agent]             src/agent.py
    - [StitchingAssessor] src/agents/sub_agents/stitching_assessor_agent.py
    - [Main]              src/main.py
    - [WhatsappApp]       src/whatsapp_app.py
    - [AdkWebhook]        src/agents/master_agent.py
    - [Cli]               src/main.py, the media reference of the command line
    - [AgentRest]         src/agent.py, the long feedback
    - [AdkAgent]          src/agents/multimodal_adk_agent.py

    A Python [str] is modelled as a [string].  Letters, digits, whitespace
    and case mapping are the ASCII ones; a character outside ASCII belongs
    to no class and has no case.  The emoji of the source's message
    literals are kept as the bytes the source files hold. *)

From Stdlib Require Import ZArith NArith Ascii String DecimalString Bool Lia.
From stdpp Require Import base option list strings gmap.

Local Open Scope Z_scope.

(* ===================================================================== *)
(** * Python strings *)
(* ===================================================================== *)

Module PyStr.

Definition code (c : ascii) : N := N_of_ascii c.

Definition in_range (lo hi : N) (c : ascii) : bool :=
  ((lo <=? code c) && (code c <=? hi))%N.

Definition is_upper (c : ascii) : bool := in_range 65 90 c.
Definition is_lower (c : ascii) : bool := in_range 97 122 c.
Definition is_cased (c : ascii) : bool := is_upper c || is_lower c.
Definition is_digit (c : ascii) : bool := in_range 48 57 c.

(** [\s] of the [re] module and [str.isspace]: the controls 9-13 and
    28-31, and the space. *)
Definition is_space (c : ascii) : bool :=
  in_range 9 13 c || in_range 28 32 c.

Definition lower_char (c : ascii) : ascii :=
  if is_upper c then ascii_of_N (code c + 32) else c.
Definition upper_char (c : ascii) : ascii :=
  if is_lower c then ascii_of_N (code c - 32) else c.

Fixpoint map_chars (f : ascii -> ascii) (s : string) : string :=
  match s with
  | EmptyString => EmptyString
  | String c r => String (f c) (map_chars f r)
  end.

(** [s.lower()], [s.upper()] *)
Definition lower : string -> string := map_chars lower_char.
Definition upper : string -> string := map_chars upper_char.

(** [s.title()]: a cased character is upper-cased when the character
    before it is not cased, and lower-cased otherwise. *)
Fixpoint title_from (previous_is_cased : bool) (s : string) : string :=
  match s with
  | EmptyString => EmptyString
  | String c r =>
      String (if previous_is_cased then lower_char c else upper_char c)
             (title_from (is_cased c) r)
  end.
Definition title : string -> string := title_from false.

(** [s.startswith(p)] *)
Definition startswith (s p : string) : bool := String.prefix p s.

(** [s[n:]] and [s[:n]] for a non-negative [n] *)
Fixpoint slice_from (n : nat) (s : string) : string :=
  match n, s with
  | O, _ => s
  | S _, EmptyString => EmptyString
  | S k, String _ r => slice_from k r
  end.
Fixpoint slice_to (n : nat) (s : string) : string :=
  match n, s with
  | O, _ => EmptyString
  | S _, EmptyString => EmptyString
  | S k, String c r => String c (slice_to k r)
  end.

(** [s.replace(old, new)] for a non-empty [old]: occurrences are found
    left to right and do not overlap.  [skip] counts the characters of
    the occurrence just replaced that are still to be passed over. *)
Fixpoint replace_from (skip : nat) (old new s : string) : string :=
  match s with
  | EmptyString => EmptyString
  | String c r =>
      match skip with
      | S k => replace_from k old new r
      | O =>
          if String.prefix old s
          then new +:+ replace_from (Nat.pred (String.length old)) old new r
          else String c (replace_from O old new r)
      end
  end.
Definition replace (s old new : string) : string := replace_from O old new s.

(** [old in s] *)
Fixpoint contains (s old : string) : bool :=
  String.prefix old s ||
  match s with
  | EmptyString => false
  | String _ r => contains r old
  end.

(** [sep.join(items)] *)
Fixpoint join (sep : string) (items : list string) : string :=
  match items with
  | [] => EmptyString
  | [x] => x
  | x :: rest => x +:+ sep +:+ join sep rest
  end.

(** [s.strip()] on both ends *)
Fixpoint lstrip (s : string) : string :=
  match s with
  | String c r => if is_space c then lstrip r else s
  | EmptyString => EmptyString
  end.
Fixpoint rstrip (s : string) : string :=
  match s with
  | EmptyString => EmptyString
  | String c r =>
      match rstrip r with
      | EmptyString => if is_space c then EmptyString else String c EmptyString
      | r' => String c r'
      end
  end.
Definition strip (s : string) : string := rstrip (lstrip s).

(** [str(n)] and the [{n}] of an f-string for an integer *)
Definition of_Z (z : Z) : string := NilZero.string_of_int (Z.to_int z).

Definition digit_value (c : ascii) : Z := Z.of_N (code c) - 48.

(** The value of a run of decimal digits, most significant first;
    [None] on any other character and on the empty string.  A single
    underscore is allowed between two digits, as in Python literals. *)
Fixpoint digits_value (acc : Z) (after_digit : bool) (s : string) : option Z :=
  match s with
  | EmptyString => if after_digit then Some acc else None
  | String c r =>
      if is_digit c then digits_value (10 * acc + digit_value c) true r
      else if (code c =? 95)%N && after_digit
           then match r with
                | String d _ => if is_digit d then digits_value acc false r else None
                | EmptyString => None
                end
           else None
  end.

(** [int(s)]: surrounding whitespace, an optional sign, decimal digits.
    [None] stands for the [ValueError] Python raises.  (The interpreter's
    cap on the number of digits is not modelled.) *)
Definition int (s : string) : option Z :=
  match strip s with
  | String "-" r => Z.opp <$> digits_value 0 false r
  | String "+" r => digits_value 0 false r
  | r => digits_value 0 false r
  end.

(** The newline character. *)
Definition nl : string := String (ascii_of_N 10) EmptyString.

(** Truth of a string, and of an optional string or [None]. *)
Definition truthy (s : string) : bool := negb (String.eqb s "").

Definition some_text (s : option string) : option string :=
  match s with
  | Some t => if truthy t then Some t else None
  | None => None
  end.

End PyStr.

(* ===================================================================== *)
(** * Data exchanged with the outside *)
(* ===================================================================== *)

Definition bytes := string.

(** Python exceptions: the classes the code distinguishes in its [except]
    clauses, and the message [str(e)]. *)
Inductive exn_class :=
| JSONDecodeError | FileNotFoundError | OSError | ValueError | OtherError.

Record exn := Exn { exn_cls : exn_class; exn_msg : string }.

(** [isinstance(e, cls)] on those classes: [JSONDecodeError] derives from
    [ValueError], [FileNotFoundError] from [OSError]. *)
Definition is_a (c cls : exn_class) : bool :=
  match cls, c with
  | JSONDecodeError, JSONDecodeError => true
  | FileNotFoundError, FileNotFoundError => true
  | OSError, (OSError | FileNotFoundError) => true
  | ValueError, (ValueError | JSONDecodeError) => true
  | OtherError, OtherError => true
  | _, _ => false
  end.

Inductive res (A : Type) :=
| Ok (a : A)
| Raise (e : exn).
Arguments Ok {A} a.
Arguments Raise {A} e.

(** [requests.Response] *)
Record http_response := HttpResponse { status_code : Z; content : bytes }.

(** The JSON object the stitching prompt of src/agent.py asks the model
    for.  A field is [None] when its key is missing. *)
Record analysis := Analysis {
  an_quality_rating : option Z;
  an_stitch_type : option string;
  an_technical_issues : option (list string);
  an_improvement_suggestions : option (list string);
  an_professional_grade : option string;
  an_pass_fail : option string
}.

(** [task_context] of a sub-agent instruction, and the instruction. *)
Record task_context := TaskContext {
  tc_role : option string;
  tc_skill_to_assess : option string;
  tc_image_path : option string
}.

Record instruction := Instruction {
  in_agent_name : option string;
  in_task_context : option task_context
}.

(** What [MasterAgent.get_plan] returns. *)
Record plan := Plan {
  pl_response_to_user : option string;
  pl_sub_agent_instructions : option (list instruction)
}.

(** The assessment dict of the stitching sub-agent. *)
Record assessment_data := AssessmentData {
  ad_quality_rating : Z;
  ad_stitch_type : string;
  ad_technical_issues : list string;
  ad_improvement_suggestions : list string;
  ad_professional_grade : string;
  ad_pass_fail_raw : string
}.

(** [{"status": "success", "data": ...}] or
    [{"status": "error", "message": ...}] *)
Inductive sub_agent_reply :=
| Success (data : assessment_data)
| Error (message : string).

(** One entry of [sub_agent_results]. *)
Record sub_agent_result := SubAgentResult {
  sr_agent_name : option string;
  sr_skill_assessed : option string;
  sr_result : sub_agent_reply
}.

(** What [MasterAgent.get_final_verdict] returns. *)
Record verdict := Verdict {
  vd_response_to_user : option string;
  vd_decision : option string
}.

(** ADK content: the parts of a message or of an agent event. *)
Inductive part :=
| TextPart (text : string)
| BlobPart (mime_type : string) (data : string).

Record adk_content := Content { ct_role : string; ct_parts : list part }.

(** An event of the ADK runner: [content] may be absent. *)
Record adk_event := Event { ev_author : string; ev_content : option adk_content }.

(** The state dict of an ADK session. *)
Record session := Session {
  ss_conversation_history : list string;
  ss_input_content : option adk_content;
  ss_input_type : option string
}.

(* ===================================================================== *)
(** * External calls, trace and oracle *)
(* ===================================================================== *)

(** The calls the handlers make to services and libraries outside the
    repository, with their arguments, and two steps of the host
    application itself: what it prints, and each entry into
    [Application.execute_sub_agent_instruction].  A trace lists them in the
    order they happen. *)
Inductive call :=
| MessagesCreate (from_ : option string) (body to : string)
| RequestsGet (url : string)
| ImageOpen (data : bytes)
| GenerateContent (prompt : string) (image : bytes)
| GetPlan (user_query : option string) (image_data audio_data : option bytes)
| GetFinalVerdict (role : string) (results : list sub_agent_result)
| OpenRead (path : string)
| TempFileWrite (data : bytes)
| FromOgg (path : string)
| AudioExport (path : string)
| PathExists (path : string)
| Unlink (path : string)
| GetSession (user_id session_id : string)
| CreateSession (user_id session_id : string)
| RunnerRun (user_id session_id : string) (new_message : adk_content)
| Print (text : string)
| ExecuteSubAgent (instr : instruction) (image_data : option bytes).

Definition trace := list call.

(** The outside world: what each external call answers, given the calls
    made before it.  [json_loads] and [image_open] are functions of their
    argument alone.  [MasterAgent] ([get_plan], [get_final_verdict]) is
    imported by src/main.py but its class is not among the sources; it
    answers through the oracle like the services it wraps. *)
Record World := {
  messages_create : trace -> option string -> string -> string -> res string;
  requests_get : trace -> string -> res http_response;
  image_open : bytes -> res unit;
  generate_content : trace -> string -> bytes -> res string;
  json_loads : string -> res analysis;
  get_plan : trace -> option string -> option bytes -> option bytes -> res plan;
  get_final_verdict : trace -> string -> list sub_agent_result -> res verdict;
  open_read : trace -> string -> res bytes;
  tempfile_write : trace -> bytes -> res string;
  from_ogg : trace -> string -> res unit;
  audio_export : trace -> string -> res unit;
  path_exists : trace -> string -> bool;
  unlink : trace -> string -> res unit;
  b64encode : bytes -> string;
  session_fault : trace -> option exn;
  runner_run : trace -> string -> string -> adk_content -> list adk_event * option exn
}.

(** The in-memory session store of src/agents/master_agent.py, keyed by
    user id and session id. *)
Abbreviation store := (gmap (string * string) session).

(** What a computation leaves behind: its result, the calls it made in
    order, and the session store. *)
Record Out (A : Type) := MkOut {
  res_of : res A;
  calls_of : trace;
  sessions_of : store
}.
Arguments MkOut {A} _ _ _.
Arguments res_of {A} _.
Arguments calls_of {A} _.
Arguments sessions_of {A} _.

(** Computations read the world, the calls made so far in the process and
    the session store. *)
Definition M (A : Type) : Type := World -> trace -> store -> Out A.

(** [m] followed by [k]: [k] sees the calls of [m] as made. *)
Definition then_ {A B} (o : Out A) (k : trace -> store -> Out B) (past : trace) : Out B :=
  let o' := k (past ++ calls_of o) (sessions_of o) in
  MkOut (res_of o') (calls_of o ++ calls_of o') (sessions_of o').

#[global] Instance M_ret : MRet M := fun A a _ _ σ => MkOut (Ok a) [] σ.
#[global] Instance M_bind : MBind M := fun A B f m w past σ =>
  let o := m w past σ in
  match res_of o with
  | Ok a => then_ o (f a w) past
  | Raise e => MkOut (Raise e) (calls_of o) (sessions_of o)
  end.

Definition raise {A} (e : exn) : M A := fun _ _ σ => MkOut (Raise e) [] σ.

(** A call into a library that is a function of its argument alone. *)
Definition pure_call {A} (f : World -> res A) : M A := fun w _ σ => MkOut (f w) [] σ.

(** [except cls], or a bare [except Exception] for [None] *)
Definition caught (cls : option exn_class) (e : exn) : bool :=
  match cls with
  | None => true
  | Some c => is_a (exn_cls e) c
  end.

(** [try: m  except cls as e: h e] *)
Definition try_except {A} (m : M A) (cls : option exn_class) (h : exn -> M A) : M A :=
  fun w past σ =>
    let o := m w past σ in
    match res_of o with
    | Ok _ => o
    | Raise e => if caught cls e then then_ o (h e w) past else o
    end.

(** [m] with its exception, if any, handed back as a value. *)
Definition attempt {A} (m : M A) : M (res A) :=
  fun w past σ =>
    let o := m w past σ in
    MkOut (Ok (res_of o)) (calls_of o) (sessions_of o).

(** [try: m  finally: f] *)
Definition try_finally {A} (m : M A) (f : M unit) : M A :=
  fun w past σ =>
    let o := m w past σ in
    let o' := f w (past ++ calls_of o) (sessions_of o) in
    MkOut (match res_of o' with Ok _ => res_of o | Raise e => Raise e end)
          (calls_of o ++ calls_of o') (sessions_of o').

(** An external call: the world answers from the calls made before it. *)
Definition ext {A} (c : call) (answer : World -> trace -> res A) : M A :=
  fun w past σ => MkOut (answer w past) [c] σ.

(** [for x in xs: body x], collecting what the bodies return. *)
Fixpoint for_each {A B} (body : A -> M B) (xs : list A) : M (list B) :=
  match xs with
  | [] => mret []
  | x :: rest => b ← body x; bs ← for_each body rest; mret (b :: bs)
  end.

(** A handler run in a process that has made the calls [past] and holds
    the sessions [σ]. *)
Definition run {A} (m : M A) (w : World) (past : trace) (σ : store) : Out A := m w past σ.

(* ===================================================================== *)
(** * src/agent.py *)
(* ===================================================================== *)

Module Agent.
Import PyStr.

(** ** GeminiStitchingExpert *)

(** [re.search(r'rating[:\s]*(\d+)', text, re.IGNORECASE)], group 1.
    The separator class and the digit class are disjoint, so the greedy
    run of separators is the only one after which digits can follow. *)
Definition is_sep (c : ascii) : bool := (code c =? 58)%N || is_space c.

Fixpoint skip_while (p : ascii -> bool) (s : string) : string :=
  match s with
  | String c r => if p c then skip_while p r else s
  | EmptyString => EmptyString
  end.

Fixpoint take_while (p : ascii -> bool) (s : string) : string :=
  match s with
  | String c r => if p c then String c (take_while p r) else EmptyString
  | EmptyString => EmptyString
  end.

Definition rating_match_at (s : string) : option string :=
  if String.eqb (lower (slice_to 6 s)) "rating"
  then match take_while is_digit (skip_while is_sep (slice_from 6 s)) with
       | EmptyString => None
       | ds => Some ds
       end
  else None.

Fixpoint rating_search (s : string) : option string :=
  match rating_match_at s with
  | Some g => Some g
  | None =>
      match s with
      | EmptyString => None
      | String _ r => rating_search r
      end
  end.

(** The group is a run of digits, on which [int] does not fail; the
    default in [default 5 (int g)] is never used. *)
Definition _parse_fallback_response (response_text : string) : analysis :=
  let rating :=
    match rating_search response_text with
    | Some g => default 5 (int g)
    | None => 5
    end in
  {| an_quality_rating := Some rating;
     an_stitch_type := Some "general";
     an_technical_issues := Some ["Could not parse detailed issues"];
     an_improvement_suggestions := Some ["Please refer to the detailed analysis"];
     an_professional_grade := Some "intermediate";
     an_pass_fail := Some (if rating <? 7 then "fail" else "pass") |}.

(** [s.find(sub, start)]: the first index at or after [start] where
    [sub] occurs, [None] for -1. *)
Fixpoint find_here (s sub : string) (at_ : nat) : option nat :=
  if String.prefix sub s then Some at_
  else match s with
       | EmptyString => None
       | String _ r => find_here r sub (S at_)
       end.

Definition find (s sub : string) (start : nat) : option nat :=
  if (String.length s <? start)%nat then None
  else find_here (slice_from start s) sub start.

(** The text handed to [json.loads]: the inside of a json code fence when
    the response has one that is closed. *)
Definition fence : string := "```".
Definition json_fence : string := "```json".

Definition json_text (response_text : string) : string :=
  if contains response_text json_fence then
    match find response_text json_fence 0 with
    | Some i =>
        let json_start := (i + 7)%nat in
        match find response_text fence json_start with
        | Some json_end =>
            strip (slice_to (json_end - json_start) (slice_from json_start response_text))
        | None => response_text
        end
    | None => response_text
    end
  else response_text.

Definition analysis_failed : analysis :=
  {| an_quality_rating := Some 5;
     an_stitch_type := Some "unknown";
     an_technical_issues := Some ["Analysis failed"];
     an_improvement_suggestions := Some ["Please try again with a clearer image"];
     an_professional_grade := Some "unknown";
     an_pass_fail := Some "fail" |}.

Definition analyze_stitching (expert_prompt : string) (image_data : bytes) : M analysis :=
  try_except
    (_ ← ext (ImageOpen image_data) (fun w _ => image_open w image_data);
     response_text ← ext (GenerateContent expert_prompt image_data)
                       (fun w tr => generate_content w tr expert_prompt image_data);
     try_except
       (pure_call (fun w => json_loads w (json_text response_text)))
       (Some JSONDecodeError)
       (fun _ => mret (_parse_fallback_response response_text)))
    None
    (fun _ => mret analysis_failed).

(** ** TwilioWhatsAppAPI *)

Record TwilioWhatsAppAPI := {
  account_sid : string;
  auth_token : string;
  from_number : option string
}.

Definition whatsapp_prefix : string := "whatsapp:".

Definition with_prefix (to : string) : string :=
  if negb (startswith to whatsapp_prefix) then whatsapp_prefix +:+ to else to.

Definition send_message (api : TwilioWhatsAppAPI) (to message : string) : M bool :=
  try_except
    (let to := with_prefix to in
     _ ← ext (MessagesCreate (from_number api) message to)
           (fun w tr => messages_create w tr (from_number api) message to);
     mret true)
    None
    (fun _ => mret false).

(** ** MultimodalStitchingAgent *)

Record StitchingAssessment := {
  image_url : string;
  quality_rating : Z;
  improvement_suggestions : list string;
  stitch_type : string;
  technical_issues : list string;
  professional_grade : string;
  pass_fail : string;
  user_phone : string
}.

Record MultimodalStitchingAgent := {
  expert_prompt : string;
  twilio_api : TwilioWhatsAppAPI
}.

(** [x in range(lo, hi)] *)
Definition in_py_range (lo hi x : Z) : bool := (lo <=? x) && (x <? hi).

(** The first value of a dict keyed by ranges whose range holds [x]. *)
Fixpoint first_in_range {A} (table : list (Z * Z * A)) (x : Z) : option A :=
  match table with
  | [] => None
  | (lo, hi, a) :: rest => if in_py_range lo hi x then Some a else first_in_range rest x
  end.

Definition rating_emoji : list (Z * Z * string) :=
  [ (1, 3, "ðŸ”´"); (3, 5, "ðŸŸ "); (5, 7, "ðŸŸ¡");
    (7, 9, "ðŸŸ¢"); (9, 11, "ðŸ†") ].
Definition default_emoji : string := "ðŸŸ¡".

Definition pass_emoji : string := "âœ…".
Definition fail_emoji : string := "âŒ".

Definition _format_list_compact (items : list string) : string :=
  match items with
  | [] => "None"
  | _ => join " | " (firstn 2 items)
  end.

Definition _get_professional_feedback_short (rating : Z) : string :=
  default "Keep practicing!"
    (first_in_range
       [ (1, 3, "Beginner - Practice basic techniques");
         (3, 5, "Developing - Work on consistency");
         (5, 7, "Intermediate - Good foundation!");
         (7, 9, "Advanced - Professional quality emerging");
         (9, 11, "Expert - Outstanding craftsmanship!") ] rating).

Definition report_title : string := "ðŸ§µ STITCHING ASSESSMENT ðŸ§µ".
Definition type_label : string := "ðŸ“ Type: ".
Definition level_label : string := "ðŸŽ¯ Level: ".
Definition issues_label : string := "âš ï¸ Issues: ".
Definition tips_label : string := "ðŸ’¡ Tips: ".
Definition feedback_label : string := "ðŸŽ“ Feedback: ".

Definition emoji_of (rating : Z) : string :=
  default default_emoji (first_in_range rating_emoji rating).

Definition pass_fail_emoji_of (pass_fail : string) : string :=
  if String.eqb (lower pass_fail) "pass" then pass_emoji else fail_emoji.

Definition report_of (assessment : StitchingAssessment) : string :=
  report_title +:+ nl +:+ nl
  +:+ emoji_of (quality_rating assessment) +:+ " Rating: "
      +:+ of_Z (quality_rating assessment) +:+ "/10" +:+ nl
  +:+ pass_fail_emoji_of (pass_fail assessment) +:+ " Result: "
      +:+ upper (pass_fail assessment) +:+ nl
  +:+ type_label +:+ title (stitch_type assessment) +:+ nl
  +:+ level_label +:+ title (professional_grade assessment) +:+ nl +:+ nl
  +:+ issues_label +:+ _format_list_compact (technical_issues assessment) +:+ nl +:+ nl
  +:+ tips_label +:+ _format_list_compact (improvement_suggestions assessment) +:+ nl +:+ nl
  +:+ feedback_label +:+ _get_professional_feedback_short (quality_rating assessment).

Definition follow_up (rating : Z) : string :=
  if rating >=? 8 then "ðŸŒŸ Excellent professional quality work!"
  else if rating >=? 6 then "ðŸ‘ Good progress! Focus on suggestions to reach pro level."
  else "ðŸ’ª Keep practicing! Focus on fundamentals.".

Definition send_assessment_report (agent : MultimodalStitchingAgent)
    (phone_number : string) (assessment : StitchingAssessment) : M unit :=
  _ ← send_message (twilio_api agent) phone_number (report_of assessment);
  _ ← send_message (twilio_api agent) phone_number (follow_up (quality_rating assessment));
  mret tt.

Definition welcome_msg : string := "
ðŸ§µ Welcome to the Professional Stitching Quality Assessment Bot! 

I'm your AI tailor expert with 30+ years of experience. I can analyze your stitching work and provide professional feedback.

ðŸ“¸ **How to use:**
1. Send me a clear photo of your stitching work
2. I'll analyze it like a professional tailor
3. Get detailed feedback with ratings (1-10)
4. Receive improvement suggestions

**What I can assess:**
â€¢ Hand stitching quality
â€¢ Machine stitch precision
â€¢ Seam construction
â€¢ Thread tension
â€¢ Professional finishing
â€¢ Overall craftsmanship

Send me your stitching photo to get started! ðŸª¡
            ".

Definition photo_prompt : string := "ðŸ“¸ Please send me a clear photo of your stitching work for professional assessment!".

Definition greetings : list string := ["hi"; "hello"; "start"; "help"].

Definition handle_text_message (agent : MultimodalStitchingAgent)
    (phone_number text : string) : M unit :=
  let text_lower := lower text in
  if existsb (contains text_lower) greetings
  then _ ← send_message (twilio_api agent) phone_number welcome_msg; mret tt
  else _ ← send_message (twilio_api agent) phone_number photo_prompt; mret tt.

(** [d[key]]: a missing key raises [KeyError], whose [str] is the quoted
    key. *)
Definition item {A} (o : option A) (key : string) : M A :=
  match o with
  | Some a => mret a
  | None => raise (Exn OtherError ("'" +:+ key +:+ "'"))
  end.

Definition analyzing_notice : string := "ðŸ” Analyzing your stitching work with professional expertise... Please wait.".

Definition handle_twilio_image_message (agent : MultimodalStitchingAgent)
    (phone_number media_url : string) : M unit :=
  try_except
    (_ ← send_message (twilio_api agent) phone_number analyzing_notice;
     response ← ext (RequestsGet media_url) (fun w tr => requests_get w tr media_url);
     if negb (status_code response =? 200) then
       _ ← send_message (twilio_api agent) phone_number "âŒ Sorry, I couldn't download your image. Please try again.";
       mret tt
     else
       let image_bytes := content response in
       analysis ← analyze_stitching (expert_prompt agent) image_bytes;
       q ← item (an_quality_rating analysis) "quality_rating";
       tips ← item (an_improvement_suggestions analysis) "improvement_suggestions";
       ty ← item (an_stitch_type analysis) "stitch_type";
       issues ← item (an_technical_issues analysis) "technical_issues";
       grade ← item (an_professional_grade analysis) "professional_grade";
       let assessment :=
         {| image_url := media_url;
            quality_rating := q;
            improvement_suggestions := tips;
            stitch_type := ty;
            technical_issues := issues;
            professional_grade := grade;
            pass_fail := default "fail" (an_pass_fail analysis);
            user_phone := phone_number |} in
       send_assessment_report agent phone_number assessment)
    None
    (fun e =>
       _ ← send_message (twilio_api agent) phone_number
             ("âŒ Error analyzing your stitching: " +:+ exn_msg e +:+ ". Please try again.");
       mret tt).

(** The form fields of a Twilio webhook POST; [None] when a field is
    absent. *)
Record form := Form {
  f_From : option string;
  f_Body : option string;
  f_MediaUrl0 : option string;
  f_MediaContentType0 : option string;
  f_NumMedia : option string
}.

(** [MessagingResponse]: the messages of the TwiML reply. *)
Record MessagingResponse := Twiml { twiml_messages : list string }.

(** [int(x)] as a computation. *)
Definition int_of (s : string) : M Z :=
  match int s with
  | Some z => mret z
  | None => raise (Exn ValueError ("invalid literal for int() with base 10: '" +:+ s +:+ "'"))
  end.

(** The [try] block of the webhook. *)
Definition webhook_body (agent : MultimodalStitchingAgent) (request : form)
  : M MessagingResponse :=
  let from_number := default "" (f_From request) in
  let body := default "" (f_Body request) in
  let media_url := default "" (f_MediaUrl0 request) in
  num_media ← int_of (default "0" (f_NumMedia request));
  let phone_number := replace from_number whatsapp_prefix "" in
  _ ← (if (num_media >? 0) && truthy media_url
       then handle_twilio_image_message agent phone_number media_url
       else handle_text_message agent phone_number body);
  mret (Twiml []).

Definition handle_twilio_webhook (agent : MultimodalStitchingAgent) (request : form)
  : M MessagingResponse :=
  try_except (webhook_body agent request) None (fun _ => mret (Twiml [])).

End Agent.

(* ===================================================================== *)
(** * src/agents/sub_agents/stitching_assessor_agent.py *)
(* ===================================================================== *)

Module StitchingAssessor.
Import PyStr.

Definition no_context : task_context := TaskContext None None None.

(** [validate_image_data]: the error message when Pillow rejects the
    data, [None] when the image is valid. *)
Definition validate_image_data (image_data : bytes) : M (option string) :=
  try_except
    (if String.eqb image_data "" then raise (Exn ValueError "No image data provided")
     else
       _ ← ext (ImageOpen image_data) (fun w _ => image_open w image_data);
       mret None)
    None
    (fun e => mret (Some (exn_msg e))).

Definition _simulate_enhanced_assessment (ctx : task_context) (image_path : string)
  : assessment_data :=
  let role := default "Tailor" (tc_role ctx) in
  {| ad_quality_rating := 7;
     ad_stitch_type := "Running stitch with reinforcement";
     ad_technical_issues := ["Minor tension variation"; "Edge finishing could be neater"];
     ad_improvement_suggestions :=
       ["Use consistent thread tension"; "Practice edge finishing techniques"];
     ad_professional_grade := if String.eqb role "Tailor" then "Advanced" else "Intermediate";
     ad_pass_fail_raw := if String.eqb role "Tailor" then "Pass" else "Fail" |}.

Definition _simulate_basic_assessment (ctx : task_context) : assessment_data :=
  let role := default "Tailor" (tc_role ctx) in
  {| ad_quality_rating := 6;
     ad_stitch_type := "Running stitch";
     ad_technical_issues := ["Slightly uneven tension"; "Minor spacing inconsistencies"];
     ad_improvement_suggestions :=
       ["Practice maintaining consistent tension"; "Use guide lines for even spacing"];
     ad_professional_grade := "Intermediate";
     ad_pass_fail_raw := if String.eqb role "Tailor" then "Pass" else "Fail" |}.

Definition execute (image_data : bytes) (ctx : task_context) : M sub_agent_reply :=
  try_except
    (match some_text (tc_image_path ctx) with
     | Some image_path => mret (Success (_simulate_enhanced_assessment ctx image_path))
     | None =>
         if String.eqb image_data "" then raise (Exn ValueError "No image data provided")
         else
           invalid ← validate_image_data image_data;
           match invalid with
           | Some err => raise (Exn ValueError ("Invalid image: " +:+ err))
           | None => mret (Success (_simulate_basic_assessment ctx))
           end
     end)
    None
    (fun e => mret (Error (exn_msg e))).

End StitchingAssessor.

(* ===================================================================== *)
(** * src/main.py *)
(* ===================================================================== *)

Module Main.
Import PyStr.

Definition print (text : string) : M unit :=
  ext (Print text) (fun _ _ => Ok tt).

Definition context_of (instr : instruction) : task_context :=
  default StitchingAssessor.no_context (in_task_context instr).

(** [agent_name in self.sub_agent_library] *)
Definition in_library (agent_name : option string) : bool :=
  match agent_name with
  | Some n => String.eqb n "StitchingAssessorAgent"
  | None => false
  end.


Definition execute_sub_agent_instruction (instr : instruction) (image_data : option bytes)
  : M sub_agent_reply :=
  _ ← ext (ExecuteSubAgent instr image_data) (fun _ _ => Ok tt);
  let ctx := context_of instr in
  if negb (in_library (in_agent_name instr))
  then mret (Error "Sub-agent not found.")
  else
    try_except
      (match some_text image_data with
       | Some b => StitchingAssessor.execute b ctx
       | None =>
           _ ← print (nl +:+ "📸 Please provide an image for the '" +:+ default "Unknown" (tc_skill_to_assess ctx) +:+ "' assessment.");
           _ ← print "   (Using default test image...)";
           image_bytes ← ext (OpenRead "test_stitch.jpg")
                           (fun w tr => open_read w tr "test_stitch.jpg");
           StitchingAssessor.execute image_bytes ctx
       end)
      (Some FileNotFoundError)
      (fun e => mret (Error ("Image file not found: " +:+ exn_msg e))).

Definition result_entry (instr : instruction) (result : sub_agent_reply) : sub_agent_result :=
  {| sr_agent_name := in_agent_name instr;
     sr_skill_assessed := tc_skill_to_assess (context_of instr);
     sr_result := result |}.

Definition decision_emoji (decision : string) : string :=
  if String.eqb decision "PASS" then "✅"
  else if String.eqb decision "FAIL" then "❌" else "⏳".

(** The body of the loop of step 2. *)
Definition assess (image_data : option bytes) (instr : instruction) : M sub_agent_result :=
  let skill_name := default "Unknown" (tc_skill_to_assess (context_of instr)) in
  _ ← print (nl +:+ "🔍 Executing " +:+ skill_name +:+ " Assessment...");
  result ← execute_sub_agent_instruction instr image_data;
  mret (result_entry instr result).

Definition run_full_assessment (user_query : option string)
    (image_data audio_data : option bytes) : M unit :=
  plan ← ext (GetPlan user_query image_data audio_data)
           (fun w tr => get_plan w tr user_query image_data audio_data);
  _ ← print (nl +:+ "🎯 Assessment Agent: " +:+ default "..." (pl_response_to_user plan));
  match pl_sub_agent_instructions plan with
  | None | Some [] => mret tt
  | Some ((first :: _) as instructions) =>
      sub_agent_results ← for_each (assess image_data) instructions;
      match some_text (tc_role (context_of first)) with
      | None => print (nl +:+ "❌ System Error: Could not determine role from assessment plan.")
      | Some target_role =>
          _ ← print (nl +:+ "🤔 Analyzing results for " +:+ target_role +:+ " position...");
          final_verdict ← ext (GetFinalVerdict target_role sub_agent_results)
                            (fun w tr => get_final_verdict w tr target_role sub_agent_results);
          let decision := default "UNKNOWN" (vd_decision final_verdict) in
          print (nl +:+ decision_emoji decision +:+ " Final Decision: "
                 +:+ default "..." (vd_response_to_user final_verdict))
      end
  end.

End Main.

(* ===================================================================== *)
(** * src/whatsapp_app.py *)
(* ===================================================================== *)

Module WhatsappApp.
Import PyStr.

(** ** AudioProcessor *)

Definition download_audio_from_twilio (media_url : string) : M string :=
  response ← ext (RequestsGet media_url) (fun w tr => requests_get w tr media_url);
  if negb (status_code response =? 200)
  then raise (Exn OtherError ("Failed to download audio. Status: " +:+ of_Z (status_code response)))
  else ext (TempFileWrite (content response)) (fun w tr => tempfile_write w tr (content response)).

Definition convert_ogg_to_wav (ogg_file_path : string) : M string :=
  _ ← ext (FromOgg ogg_file_path) (fun w tr => from_ogg w tr ogg_file_path);
  let wav_file_path := replace ogg_file_path ".ogg" ".wav" in
  _ ← ext (AudioExport wav_file_path) (fun w tr => audio_export w tr wav_file_path);
  mret wav_file_path.

Definition cleanup_temp_file (file_path : option string) : M unit :=
  try_except
    (match some_text file_path with
     | None => mret tt
     | Some p =>
         there ← ext (PathExists p) (fun w tr => Ok (path_exists w tr p));
         if there : bool then ext (Unlink p) (fun w tr => unlink w tr p) else mret tt
     end)
    (Some OSError)
    (fun _ => mret tt).

Definition cleanup_temp_files (file_paths : list (option string)) : M unit :=
  _ ← for_each cleanup_temp_file file_paths; mret tt.

(** ** TwilioWhatsAppAPI *)

Record TwilioWhatsAppAPI := {
  account_sid : string;
  auth_token : string;
  from_number : string
}.

Definition send_message (api : TwilioWhatsAppAPI) (to message : string) : M bool :=
  try_except
    (let to := Agent.with_prefix to in
     let from_number := Agent.with_prefix (from_number api) in
     _ ← ext (MessagesCreate (Some from_number) message to)
           (fun w tr => messages_create w tr (Some from_number) message to);
     mret true)
    None
    (fun _ => mret false).

(** ** WhatsAppSkillAssessmentAgentV3 *)

Definition say (api : TwilioWhatsAppAPI) (phone_number message : string) : M unit :=
  _ ← send_message api phone_number message; mret tt.

Definition _format_list (items : list string) : string :=
  match items with
  | [] => "â€¢ None identified"
  | _ => join nl (map (fun item => "â€¢ " +:+ item) (firstn 3 items))
  end.

Definition detail_emoji (rating : Z) : string :=
  if rating <? 3 then "ğŸ”´" else if rating <? 5 then "ğŸŸ "
  else if rating <? 7 then "ğŸŸ¡" else if rating <? 9 then "ğŸŸ¢" else "ğŸ†".

Definition details_of (d : assessment_data) : string :=
  let rating := ad_quality_rating d in
  "ğŸ“Š **Detailed Analysis:**" +:+ nl +:+ nl
  +:+ detail_emoji rating +:+ " **Quality Rating:** " +:+ of_Z rating +:+ "/10" +:+ nl
  +:+ "ğŸ“ **Stitch Type:** " +:+ ad_stitch_type d +:+ nl
  +:+ "ğŸ¯ **Skill Level:** " +:+ title (ad_professional_grade d) +:+ nl +:+ nl
  +:+ "âš ï¸ **Technical Issues:**" +:+ nl
  +:+ _format_list (ad_technical_issues d) +:+ nl +:+ nl
  +:+ "ğŸ’¡ **Improvement Tips:**" +:+ nl
  +:+ _format_list (ad_improvement_suggestions d).

Definition _send_detailed_assessment (api : TwilioWhatsAppAPI) (phone_number : string)
    (d : assessment_data) : M unit :=
  try_except (say api phone_number (details_of d)) None (fun _ => mret tt).

Definition decision_emoji (decision : string) : string :=
  if String.eqb decision "PASS" then "âœ…"
  else if String.eqb decision "FAIL" then "âŒ" else "â³".

Definition _send_agent_results (api : TwilioWhatsAppAPI) (phone_number : string)
    (sub_agent_results : list sub_agent_result) (final_verdict : verdict) : M unit :=
  try_except
    (let final_response := default "Assessment completed." (vd_response_to_user final_verdict) in
     _ ← say api phone_number ("ğŸ **Final Assessment:**" +:+ nl +:+ final_response);
     _ ← match sub_agent_results with
         | {| sr_result := Success d |} :: _ => _send_detailed_assessment api phone_number d
         | _ => mret tt
         end;
     let decision := default "UNKNOWN" (vd_decision final_verdict) in
     say api phone_number (decision_emoji decision +:+ " **Final Result: " +:+ decision +:+ "**"))
    None
    (fun _ => say api phone_number "Assessment completed but there was an error formatting the results.").

(** The body of the loop over the instructions. *)
Definition assess (api : TwilioWhatsAppAPI) (phone_number : string) (instr : instruction)
  : M sub_agent_result :=
  let agent_name := default "Unknown" (in_agent_name instr) in
  let skill := default "Unknown" (tc_skill_to_assess (Main.context_of instr)) in
  _ ← say api phone_number ("ğŸ¤– " +:+ agent_name +:+ " analyzing " +:+ skill +:+ "...");
  result ← Main.execute_sub_agent_instruction instr None;
  mret {| sr_agent_name := Some agent_name;
          sr_skill_assessed := Some skill;
          sr_result := result |}.

Definition _execute_sub_agents_and_respond (api : TwilioWhatsAppAPI) (phone_number : string)
    (instructions : list instruction) : M unit :=
  try_except
    (_ ← say api phone_number "ğŸ”§ Executing specialized sub-agents...";
     sub_agent_results ← for_each (assess api phone_number) instructions;
     _ ← say api phone_number "âš–ï¸ Master Agent making final decision...";
     match instructions with
     | [] => raise (Exn OtherError "list index out of range")
     | first :: _ =>
         let target_role := default "Unknown" (tc_role (Main.context_of first)) in
         final_verdict ← ext (GetFinalVerdict target_role sub_agent_results)
                           (fun w tr => get_final_verdict w tr target_role sub_agent_results);
         _send_agent_results api phone_number sub_agent_results final_verdict
     end)
    None
    (fun e => say api phone_number ("âŒ Sub-agent execution error: " +:+ exn_msg e)).

(** The tail shared by the three message handlers: relay the master
    agent's answer, then run the plan's instructions if it has any. *)
Definition relay_plan (api : TwilioWhatsAppAPI) (phone_number : string)
    (announce default_response : string) (p : plan) : M unit :=
  let master_response := default default_response (pl_response_to_user p) in
  _ ← say api phone_number (announce +:+ master_response);
  match default [] (pl_sub_agent_instructions p) with
  | [] => mret tt
  | instructions => _execute_sub_agents_and_respond api phone_number instructions
  end.

Definition handle_text_message (api : TwilioWhatsAppAPI) (phone_number text : string) : M unit :=
  try_except
    (p ← ext (GetPlan (Some text) None None) (fun w tr => get_plan w tr (Some text) None None);
     relay_plan api phone_number "ğŸ¯ " "I can help you with skill assessment." p)
    None
    (fun _ => say api phone_number "âŒ I encountered an error. Please try again or send me an image/voice message of your work! ğŸ“¸ğŸ¤").

Definition voice_error (e : exn) : string :=
  "âŒ An error occurred with native audio analysis: " +:+ exn_msg e +:+ ". Please try again.".

(** The [try] block of the voice handler.  It hands back the temporary
    paths assigned when it ended ([ogg_file_path], [wav_file_path]; [None]
    while unassigned) and how it ended. *)
Definition voice_try (api : TwilioWhatsAppAPI) (phone_number media_url : string)
  : M (list (option string) * res unit) :=
  downloaded ← attempt (_ ← say api phone_number "ğŸ¤ Processing your voice message with native audio analysis...";
                        download_audio_from_twilio media_url);
  match downloaded with
  | Raise e => mret ([None; None], Raise e)
  | Ok ogg_file_path =>
      converted ← attempt (convert_ogg_to_wav ogg_file_path);
      match converted with
      | Raise e => mret ([Some ogg_file_path; None], Raise e)
      | Ok wav_file_path =>
          ended ← attempt
            (_ ← say api phone_number "ğŸ§  Analyzing audio with Master Agent...";
             audio_data ← ext (OpenRead wav_file_path) (fun w tr => open_read w tr wav_file_path);
             p ← ext (GetPlan (Some "voice message") None (Some audio_data))
                   (fun w tr => get_plan w tr (Some "voice message") None (Some audio_data));
             relay_plan api phone_number "ğŸ¯ " "I can help with skill assessment." p);
          mret ([Some ogg_file_path; Some wav_file_path], ended)
      end
  end.

(** [try: ...  except Exception as e: ...  finally: cleanup_temp_files(...)] *)
Definition handle_voice_message (api : TwilioWhatsAppAPI) (phone_number media_url : string)
  : M unit :=
  tried ← voice_try api phone_number media_url;
  try_finally
    (match snd tried with
     | Ok _ => mret tt
     | Raise e => say api phone_number (voice_error e)
     end)
    (cleanup_temp_files (fst tried)).

Definition handle_image_message (api : TwilioWhatsAppAPI)
    (phone_number media_url caption : string) : M unit :=
  try_except
    (_ ← say api phone_number "ğŸ“¥ Downloading your image...";
     response ← ext (RequestsGet media_url) (fun w tr => requests_get w tr media_url);
     if negb (status_code response =? 200)
     then say api phone_number "âŒ Sorry, I couldn't download your image. Please try again."
     else
       let image_bytes := content response in
       let user_query :=
         if truthy (strip caption) then caption
         else "Here is my work sample for job skill assessment" in
       _ ← say api phone_number "ğŸ§  Master Agent analyzing your request...";
       p ← ext (GetPlan (Some user_query) (Some image_bytes) None)
             (fun w tr => get_plan w tr (Some user_query) (Some image_bytes) None);
       relay_plan api phone_number "ğŸ¯ Master Agent: " "Processing your skill assessment..." p)
    None
    (fun e => say api phone_number ("âŒ Master Agent error: " +:+ exn_msg e +:+ ". Please try again.")).

(** Where the webhook sends a request once [NumMedia] is read. *)
Inductive route :=
| ToImage | ToVoice | Unsupported | ToText.

Definition route_of (num_media : Z) (media_url media_content_type : string) : route :=
  if (num_media >? 0) && truthy media_url then
    if startswith media_content_type "image/" then ToImage
    else if startswith media_content_type "audio/" then ToVoice
    else Unsupported
  else ToText.

Definition unsupported_notice : string := "ğŸ“± I can process text messages, images, and voice messages for skill assessments.".

Definition dispatch (api : TwilioWhatsAppAPI) (r : route)
    (phone_number media_url body : string) : M unit :=
  match r with
  | ToImage => handle_image_message api phone_number media_url body
  | ToVoice => handle_voice_message api phone_number media_url
  | Unsupported => say api phone_number unsupported_notice
  | ToText => handle_text_message api phone_number body
  end.

(** The [try] block of the webhook. *)
Definition webhook_body (api : TwilioWhatsAppAPI) (request : Agent.form)
  : M Agent.MessagingResponse :=
  let from_number := default "" (Agent.f_From request) in
  let body := default "" (Agent.f_Body request) in
  let media_url := default "" (Agent.f_MediaUrl0 request) in
  let media_content_type := default "" (Agent.f_MediaContentType0 request) in
  num_media ← Agent.int_of (default "0" (Agent.f_NumMedia request));
  let phone_number := replace from_number Agent.whatsapp_prefix "" in
  _ ← dispatch api (route_of num_media media_url media_content_type)
        phone_number media_url body;
  mret (Agent.Twiml []).

Definition handle_twilio_webhook (api : TwilioWhatsAppAPI) (request : Agent.form)
  : M Agent.MessagingResponse :=
  try_except (webhook_body api request) None (fun _ => mret (Agent.Twiml [])).

End WhatsappApp.

(* ===================================================================== *)
(** * src/agents/master_agent.py *)
(* ===================================================================== *)

Module AdkWebhook.
Import PyStr.

(** [InMemorySessionService]: [create_session] stores the session under
    its key and [get_session] finds it there.  Both hand out a copy, so
    what the handler writes into [session.state] stays in that copy.  The
    oracle may make either call fail. *)
Definition get_session (user_id session_id : string) : M (option session) :=
  fun w past σ =>
    MkOut (match session_fault w past with
           | Some e => Raise e
           | None => Ok (σ !! (user_id, session_id))
           end)
          [GetSession user_id session_id] σ.

Definition create_session (user_id session_id : string) (state : session) : M session :=
  fun w past σ =>
    match session_fault w past with
    | Some e => MkOut (Raise e) [CreateSession user_id session_id] σ
    | None => MkOut (Ok state) [CreateSession user_id session_id]
                    (<[(user_id, session_id) := state]> σ)
    end.

Definition new_state : session := Session [] None None.

Definition session_id_of (sender_number : string) : string :=
  "twilio_" +:+ replace (replace sender_number ":" "_") "+" "".

Definition get_or_create_session (user_id session_id : string) : M session :=
  try_except
    (found ← get_session user_id session_id;
     match found with
     | Some s => mret s
     | None => create_session user_id session_id new_state
     end)
    None
    (fun _ => create_session user_id session_id new_state).

(** [audio_response.raise_for_status()] *)
Definition raise_for_status (response : http_response) : M unit :=
  if (400 <=? status_code response) && (status_code response <? 600)
  then raise (Exn OtherError (of_Z (status_code response) +:+ " Error"))
  else mret tt.

(** The loop over the runner's events: the text of the first part of the
    first event that has content with parts.  A first part without text
    makes the logging line fail on [None[:100]]. *)
Fixpoint first_response (events : list adk_event) (ended_by : option exn) : M string :=
  match events with
  | [] =>
      match ended_by with
      | Some e => raise e
      | None => mret "Processing complete."
      end
  | ev :: rest =>
      match ev_content ev with
      | Some {| ct_parts := TextPart text :: _ |} => mret text
      | Some {| ct_parts := BlobPart _ _ :: _ |} =>
          raise (Exn OtherError "'NoneType' object is not subscriptable")
      | _ => first_response rest ended_by
      end
  end.

Definition run_agent_and_collect_response (user_id session_id : string)
    (new_message : adk_content) : M string :=
  out ← ext (RunnerRun user_id session_id new_message)
          (fun w tr => Ok (runner_run w tr user_id session_id new_message));
  first_response (fst out) (snd out).

(** Truncation to the WhatsApp limit. *)
Definition truncate (result : string) : string :=
  if (1600 <? String.length result)%nat then slice_to 1597 result +:+ "..." else result.

Definition default_message : string :=
  "Hello! I'm your Google Ask Agent. Send me a voice note for audio assessment or text message for general assistance.".

Definition apology : string :=
  "I encountered an error processing your request. Please try again later.".

(** Lines 142-167: run the agent on the message, truncate its response
    and put it in the reply. *)
Definition reply_with (user_id session_id : string) (new_message : adk_content)
  : M Agent.MessagingResponse :=
  result ← run_agent_and_collect_response user_id session_id new_message;
  mret (Agent.Twiml [truncate result]).

(** Lines 89-167: what the [try] block does with the message once it
    holds the session. *)
Definition process_message (request : Agent.form) (user_id session_id : string)
  : M Agent.MessagingResponse :=
  let media_url := Agent.f_MediaUrl0 request in
  let media_type := Agent.f_MediaContentType0 request in
  let text_message := strip (default "" (Agent.f_Body request)) in
  match some_text media_url, some_text media_type with
  | Some url, Some ty =>
      audio_response ← ext (RequestsGet url) (fun w tr => requests_get w tr url);
      _ ← raise_for_status audio_response;
      audio_data_b64 ← pure_call (fun w => Ok (b64encode w (content audio_response)));
      reply_with user_id session_id (Content "user" [BlobPart ty audio_data_b64])
  | _, _ =>
      if truthy text_message
      then reply_with user_id session_id (Content "user" [TextPart text_message])
      else mret (Agent.Twiml [default_message])
  end.

(** The [try] block of the webhook, on the fields [MediaUrl0],
    [MediaContentType0], [Body] and [From] of [request.values]. *)
Definition webhook_body (request : Agent.form) : M Agent.MessagingResponse :=
  let sender_number := default "Unknown" (Agent.f_From request) in
  let session_id := session_id_of sender_number in
  let user_id := sender_number in
  session ← get_or_create_session user_id session_id;
  process_message request user_id session_id.

(** The reply is empty until the [try] block adds its one message as its
    last step, so the handler's message is the only one after a failure. *)
Definition twilio_webhook (request : Agent.form) : M Agent.MessagingResponse :=
  try_except (webhook_body request) None (fun _ => mret (Agent.Twiml [apology])).

End AdkWebhook.

(* ===================================================================== *)
(** * src/main.py: the command line of [main] *)
(* ===================================================================== *)

Module Cli.
Import PyStr.

(** [s.endswith(suffix)] and [s.endswith((a, b, ...))] *)
Definition endswith (s suffix : string) : bool :=
  (String.length suffix <=? String.length s)%nat
  && String.eqb (slice_from (String.length s - String.length suffix) s) suffix.

Definition endswith_any (s : string) (suffixes : list string) : bool :=
  existsb (endswith s) suffixes.

Definition image_extensions : list string :=
  [".jpg"; ".jpeg"; ".png"; ".gif"; ".bmp"; ".tiff"; ".webp"; ".avif"].

Definition audio_extensions : list string :=
  [".mp3"; ".wav"; ".ogg"; ".flac"].

(** What lines 124-138 leave in [user_input], [image_path] and
    [audio_path]. *)
Record parsed := Parsed {
  query : string;
  image_path : option string;
  audio_path : option string
}.

Definition parse_media (user_input : string) : parsed :=
  if contains user_input "[" && contains user_input "]" then
    match Agent.find user_input "[" 0 with
    | Some start =>
        match Agent.find user_input "]" start with
        | Some end_ =>
            let media_path :=
              strip (slice_to (end_ - S start) (slice_from (S start) user_input)) in
            let rest :=
              strip (slice_to start user_input +:+ slice_from (S end_) user_input) in
            if endswith_any (lower media_path) image_extensions
            then Parsed rest (Some media_path) None
            else if endswith_any (lower media_path) audio_extensions
            then Parsed rest None (Some media_path)
            else Parsed rest None None
        | None => Parsed user_input None None
        end
    | None => Parsed user_input None None
    end
  else Parsed user_input None None.

End Cli.

(* ===================================================================== *)
(** * src/agent.py: the long feedback *)
(* ===================================================================== *)

Module AgentRest.
Import PyStr.

Definition feedback_map : list (Z * Z * string) :=
  [ (1, 3, "Beginner level - Focus on basic techniques and hand positioning. Practice with simple straight lines.");
    (3, 5, "Developing skills - Work on consistency and tension control. Consider taking a basic tailoring course.");
    (5, 7, "Intermediate level - Good foundation! Focus on precision and finishing techniques.");
    (7, 9, "Advanced work - Professional quality emerging. Refine details for commercial standards.");
    (9, 11, "Expert level - Outstanding craftsmanship! This meets high-end commercial standards.") ].

Definition _get_professional_feedback (rating : Z) : string :=
  default "Continue practicing to develop your skills!"
    (Agent.first_in_range feedback_map rating).

End AgentRest.

(* ===================================================================== *)
(** * src/agents/multimodal_adk_agent.py *)
(* ===================================================================== *)

(** [_process_input_with_master_prompt] is an async generator that
    writes to [ctx.session.state] as it goes.  It is modelled by the
    list of the events it yields together with the state it leaves.
    The model and the JSON decoder are the two services it calls; they
    are the fields of [Genai]. *)
Module AdkAgent.
Import PyStr.

(** A value of the session's state dict. *)
Inductive pyval :=
| PNone
| PStr (s : string)
| PBool (b : bool)
| PContent (c : adk_content).

(** [ctx.session.state] *)
Abbreviation state := (gmap string pyval).

Definition stitching_keywords : list string :=
  ["stitch"; "sewing"; "tailor"; "fabric"; "thread"; "needle"; "seam"].

Definition _should_delegate_to_stitching_agent (text : string) : bool :=
  existsb (contains (lower text)) stitching_keywords.

Definition _create_text_event (name text : string) : adk_event :=
  Event name (Some (Content "assistant" [TextPart text])).

Definition _create_error_event (name error_message : string) : adk_event :=
  Event name (Some (Content "assistant" [TextPart error_message])).

(** The loop over [content.parts]: the first part that carries inline
    data or a non-empty text decides the kind of the input. *)
Inductive input :=
| AudioInput (mime_type data : string)
| TextInput (text : string).

Fixpoint first_input (parts : list part) : option input :=
  match parts with
  | [] => None
  | BlobPart mime_type data :: _ => Some (AudioInput mime_type data)
  | TextPart text :: rest =>
      if truthy text then Some (TextInput text) else first_input rest
  end.

Definition input_type_of (inp : input) : string :=
  match inp with
  | AudioInput _ _ => "audio"
  | TextInput _ => "text"
  end.

Definition dquote : string := String (ascii_of_N 34) EmptyString.

Definition placeholder : string := "{INPUT_PLACEHOLDER}".

Definition audio_instruction : string :=
  "The user has provided an audio recording for assessment. Transcribe and evaluate it following your role as a master job assessor.".

Definition text_instruction (text : string) : string :=
  "User message: " +:+ dquote +:+ text +:+ dquote +:+ nl +:+ nl
  +:+ "Analyze this message and provide appropriate guidance following your role as a master job assessor.".

Definition share_image : string :=
  "For detailed stitching skill evaluation, please also share an image of your work.".

(** [s.rfind(sub)]: the last index where [sub] occurs. *)
Fixpoint rfind_from (s sub : string) (at_ : nat) : option nat :=
  match s with
  | EmptyString => if String.prefix sub s then Some at_ else None
  | String _ r =>
      match rfind_from r sub (S at_) with
      | Some i => Some i
      | None => if String.prefix sub s then Some at_ else None
      end
  end.

Definition rfind (s sub : string) : option nat := rfind_from s sub 0.

(** What the agent hands to [client.models.generate_content]: the
    prompt, and the audio part when there is one. *)
Record request := Request {
  rq_prompt : string;
  rq_audio : option (string * string)
}.

(** [content_parts] for an input: the master prompt with its placeholder
    replaced, and the audio part of an audio input. *)
Definition content_parts (master_prompt : string) (inp : input) : request :=
  match inp with
  | AudioInput mime_type data =>
      Request (replace master_prompt placeholder audio_instruction)
              (Some (mime_type, data))
  | TextInput text =>
      Request (replace master_prompt placeholder (text_instruction text)) None
  end.

(** A value read from the model's JSON: a string, or a value of another
    type, of which only the name of the type matters. *)
Inductive json_value :=
| JStr (s : string)
| JOther (type_name : string).

(** The services the agent calls: the model, which answers with
    [response.text], [None] when the response carries no text, or
    raises; and [json.loads] followed by [.get('response_to_user')],
    which answers [Some] value, [None] when the key is missing, or
    raises. *)
Record Genai := {
  models_generate : request -> res (option string);
  response_to_user : string -> res (option json_value)
}.

(** Lines 260-274: a response that starts with a json fence is replaced
    by its [response_to_user], when that can be read. *)
Definition clean_response (g : Genai) (response_text : string) : json_value :=
  if startswith response_text "```json" then
    match Agent.find response_text "{" 0 with
    | Some json_start =>
        let json_end := match rfind response_text "}" with
                        | Some i => S i
                        | None => O
                        end in
        let json_str := slice_to (json_end - json_start)
                                 (slice_from json_start response_text) in
        match response_to_user g json_str with
        | Ok (Some r) => r
        | Ok None => JStr response_text
        | Raise _ => JStr response_text
        end
    | None => JStr response_text
    end
  else JStr response_text.

Definition no_attribute (type_name attribute : string) : exn :=
  Exn OtherError ("'" +:+ type_name +:+ "' object has no attribute '" +:+ attribute +:+ "'").

(** Lines 276-281: a value that is no string has no [lower]. *)
Definition final_response (response_text : json_value) : res string :=
  match response_text with
  | JStr text =>
      Ok (if _should_delegate_to_stitching_agent text
          then text +:+ nl +:+ nl +:+ share_image
          else text)
  | JOther type_name => Raise (no_attribute type_name "lower")
  end.

(** Lines 250-283: the answer made of what the model returned. *)
Definition answer_of (g : Genai) (response_text : option string) : res string :=
  match response_text with
  | Some text => final_response (clean_response g text)
  | None => Raise (no_attribute "NoneType" "startswith")
  end.

Definition response_value (response_text : option string) : pyval :=
  match response_text with
  | Some text => PStr text
  | None => PNone
  end.

(** [_process_input_with_master_prompt]: the events it yields and the
    state it leaves.  [master_prompt] is the prompt of lines 197-207
    with its placeholder. *)
Definition _process_input_with_master_prompt (g : Genai) (name master_prompt : string)
    (st : state) (content : adk_content) : list adk_event * state :=
  match first_input (ct_parts content) with
  | None => ([_create_error_event name "No valid input found"], st)
  | Some inp =>
      let st1 := <["input_type" := PStr (input_type_of inp)]> st in
      let st2 := match inp with
                 | AudioInput _ _ => st1
                 | TextInput text => <["user_input" := PStr text]> st1
                 end in
      let failed (e : exn) := _create_error_event name ("Error processing input: " +:+ exn_msg e) in
      match models_generate g (content_parts master_prompt inp) with
      | Raise e => ([failed e], st2)
      | Ok response_text =>
          let st3 := <["assessment_complete" := PBool true]>
                       (<[input_type_of inp +:+ "_response" := response_value response_text]> st2) in
          match answer_of g response_text with
          | Ok final => ([_create_text_event name final], st3)
          | Raise e => ([failed e], st3)
          end
      end
  end.

End AdkAgent.

(* ===================================================================== *)
(** * Sample worlds and requests *)
(* ===================================================================== *)

Module Samples.

Definition tailor_step : instruction :=
  Instruction (Some "StitchingAssessorAgent")
              (Some (TaskContext (Some "Tailor") (Some "Stitching") None)).

(** An instruction whose task context names no role. *)
Definition roleless_step : instruction :=
  Instruction (Some "StitchingAssessorAgent")
              (Some (TaskContext None (Some "Stitching") None)).

(** A world in which every service answers; the model replies with the
    plain sentence [model_says], which is not JSON, and the master agent
    plans [steps]. *)
Definition world (model_says : string) (steps : list instruction) : World := {|
  messages_create := fun _ _ _ _ => Ok "SM1";
  requests_get := fun _ _ => Ok (HttpResponse 200 "jpeg");
  image_open := fun _ => Ok tt;
  generate_content := fun _ _ _ => Ok model_says;
  json_loads := fun _ => Raise (Exn JSONDecodeError "Expecting value");
  get_plan := fun _ _ _ _ => Ok (Plan (Some "Let us assess your stitching.") (Some steps));
  get_final_verdict := fun _ _ _ => Ok (Verdict (Some "Well done.") (Some "PASS"));
  open_read := fun _ _ => Ok "jpeg";
  tempfile_write := fun _ _ => Ok "/tmp/voice.ogg";
  from_ogg := fun _ _ => Ok tt;
  audio_export := fun _ _ => Ok tt;
  path_exists := fun _ _ => true;
  unlink := fun _ _ => Ok tt;
  b64encode := fun b => b;
  session_fault := fun _ => None;
  runner_run := fun _ _ _ _ =>
    ([Event "GoogleAskAgent" (Some (Content "assistant" [TextPart "Welcome."]))], None)
|}.

(** A JSON answer of the model, as [json.loads] returns it. *)
Definition mocked_analysis : analysis := {|
  an_quality_rating := Some 8;
  an_stitch_type := Some "running stitch";
  an_technical_issues := Some ["loose tension"; "uneven spacing"; "frayed edge"];
  an_improvement_suggestions := Some [];
  an_professional_grade := Some "advanced";
  an_pass_fail := Some "Pass"
|}.

Definition mocked_assessment : Agent.StitchingAssessment := {|
  Agent.image_url := "https://api.twilio.com/m/1";
  Agent.quality_rating := 8;
  Agent.improvement_suggestions := [];
  Agent.stitch_type := "running stitch";
  Agent.technical_issues := ["loose tension"; "uneven spacing"; "frayed edge"];
  Agent.professional_grade := "advanced";
  Agent.pass_fail := "Pass";
  Agent.user_phone := "+447700900123"
|}.

(** The world of [world] in which the model's answer decodes to
    [mocked_analysis]. *)
Definition mocked_world : World :=
  let w := world "{...}" [] in {|
  messages_create := messages_create w;
  requests_get := requests_get w;
  image_open := image_open w;
  generate_content := generate_content w;
  json_loads := fun _ => Ok mocked_analysis;
  get_plan := get_plan w;
  get_final_verdict := get_final_verdict w;
  open_read := open_read w;
  tempfile_write := tempfile_write w;
  from_ogg := from_ogg w;
  audio_export := audio_export w;
  path_exists := path_exists w;
  unlink := unlink w;
  b64encode := b64encode w;
  session_fault := session_fault w;
  runner_run := runner_run w
|}.

(** The world of [world] in which no media can be fetched. *)
Definition offline : World :=
  let w := world "" [] in {|
  messages_create := messages_create w;
  requests_get := fun _ _ => Ok (HttpResponse 404 "");
  image_open := image_open w;
  generate_content := generate_content w;
  json_loads := json_loads w;
  get_plan := get_plan w;
  get_final_verdict := get_final_verdict w;
  open_read := open_read w;
  tempfile_write := tempfile_write w;
  from_ogg := from_ogg w;
  audio_export := audio_export w;
  path_exists := path_exists w;
  unlink := unlink w;
  b64encode := b64encode w;
  session_fault := session_fault w;
  runner_run := runner_run w
|}.

(** The world of [world] in which the Twilio client raises on every
    request. *)
Definition twilio_down : World :=
  let w := world "" [] in {|
  messages_create := fun _ _ _ _ => Raise (Exn OtherError "HTTP 503 error: Unable to create record");
  requests_get := requests_get w;
  image_open := image_open w;
  generate_content := generate_content w;
  json_loads := json_loads w;
  get_plan := get_plan w;
  get_final_verdict := get_final_verdict w;
  open_read := open_read w;
  tempfile_write := tempfile_write w;
  from_ogg := from_ogg w;
  audio_export := audio_export w;
  path_exists := path_exists w;
  unlink := unlink w;
  b64encode := b64encode w;
  session_fault := session_fault w;
  runner_run := runner_run w
|}.

Definition agent : Agent.MultimodalStitchingAgent := {|
  Agent.expert_prompt := "You are a tailor.";
  Agent.twilio_api := {| Agent.account_sid := "AC0";
                         Agent.auth_token := "secret";
                         Agent.from_number := Some "whatsapp:+14155238886" |}
|}.

Definition api : WhatsappApp.TwilioWhatsAppAPI := {|
  WhatsappApp.account_sid := "AC0";
  WhatsappApp.auth_token := "secret";
  WhatsappApp.from_number := "whatsapp:+14155238886"
|}.

Definition sender : string := "whatsapp:+447700900123".

Definition text_request : Agent.form :=
  Agent.Form (Some sender) (Some "hello") None None (Some "0").

Definition question_request : Agent.form :=
  Agent.Form (Some sender) (Some "what now?") None None (Some "0").

(** A video attachment. *)
Definition video_request : Agent.form :=
  Agent.Form (Some sender) (Some "my work") (Some "https://api.twilio.com/m/1")
             (Some "video/mp4") (Some "1").

(** A voice note. *)
Definition voice_request : Agent.form :=
  Agent.Form (Some sender) None (Some "https://api.twilio.com/m/2")
             (Some "audio/ogg") (Some "1").

(** A request whose [NumMedia] is not a number. *)
Definition garbled_request : Agent.form :=
  Agent.Form (Some sender) (Some "hello") None None (Some "abc").

Definition long_response : string :=
  string_of_list_ascii (repeat "a"%char 1601).

End Samples.

(* ===================================================================== *)
(** * Notions the statements use *)
(* ===================================================================== *)

(** [r] is a response the ADK agent gives in world [w]: the text
    [run_agent_and_collect_response] collects from some run of the
    runner. *)
Definition agent_response (w : World) (r : string) : Prop :=
  exists uid sid msg past σ,
    res_of (AdkWebhook.run_agent_and_collect_response uid sid msg w past σ) = Ok r.

(** Every character of [s] satisfies [p]. *)
Fixpoint all_chars (p : ascii -> bool) (s : string) : bool :=
  match s with
  | EmptyString => true
  | String c r => p c && all_chars p r
  end.

Definition starts_with (p : ascii -> bool) (s : string) : bool :=
  match s with
  | String c _ => p c
  | EmptyString => false
  end.

(** [text] has a match of [rating[:\s]*(\d+)] (ignoring case) at offset
    [i] whose group is [g]: the six letters, a run of colons and
    whitespace, then the digits [g], which end where [rest] begins. *)
Definition rating_match (text : string) (i : nat) (g : string) : Prop :=
  exists pre word seps rest,
    text = pre +:+ word +:+ seps +:+ g +:+ rest
    /\ String.length pre = i
    /\ PyStr.lower word = "rating"
    /\ all_chars Agent.is_sep seps = true
    /\ g <> EmptyString
    /\ all_chars PyStr.is_digit g = true
    /\ starts_with PyStr.is_digit rest = false.

(** Readings of the specification's wording that the code is compared
    with. *)
Module Claimed.
Import PyStr.

(** The rating as worded: the first integer that follows the first
    occurrence of the word rating, whatever lies between them; 5 when
    there is none. *)

Fixpoint after_rating (s : string) : option string :=
  if String.eqb (lower (slice_to 6 s)) "rating" then Some (slice_from 6 s)
  else match s with
       | EmptyString => None
       | String _ r => after_rating r
       end.

Definition first_integer (s : string) : option Z :=
  match Agent.take_while is_digit (Agent.skip_while (fun c => negb (is_digit c)) s) with
  | EmptyString => None
  | ds => int ds
  end.

Definition rating (text : string) : Z :=
  default 5 (after_rating text ≫= first_integer).

(** Relaying as worded: whatever [analyze_stitching] answers, its
    [pass_fail] is the one of the JSON object the model returned. *)
Definition relays_only (w : World) : Prop :=
  forall prompt image past σ a,
    res_of (Agent.analyze_stitching prompt image w past σ) = Ok a ->
    exists reply decoded,
      generate_content w (past ++ [ImageOpen image]) prompt image = Ok reply
      /\ json_loads w (Agent.json_text reply) = Ok decoded
      /\ an_pass_fail a = an_pass_fail decoded.

(** The classification as worded: image, audio, and text for everything
    else. *)
Definition route_of (num_media : Z) (media_url media_content_type : string)
  : WhatsappApp.route :=
  if (num_media >? 0) && truthy media_url then
    if startswith media_content_type "image/" then WhatsappApp.ToImage
    else if startswith media_content_type "audio/" then WhatsappApp.ToVoice
    else WhatsappApp.ToText
  else WhatsappApp.ToText.

End Claimed.

(** Projections of a trace: the planning calls, the instructions whose
    execution was entered, and the verdict calls, each in order. *)
Definition plan_calls (tr : trace) : list (option string * option bytes * option bytes) :=
  omap (fun c => match c with GetPlan q i a => Some (q, i, a) | _ => None end) tr.

Definition executed (tr : trace) : list instruction :=
  omap (fun c => match c with ExecuteSubAgent i _ => Some i | _ => None end) tr.

Definition verdict_calls (tr : trace) : list (string * list sub_agent_result) :=
  omap (fun c => match c with GetFinalVerdict r rs => Some (r, rs) | _ => None end) tr.

(** Calls that are none of the three. *)
Definition plain (c : call) : bool :=
  match c with
  | GetPlan _ _ _ | ExecuteSubAgent _ _ | GetFinalVerdict _ _ => false
  | _ => true
  end.

Definition is_plain (c : call) : Prop := plain c = true.

(** Every call [m] makes satisfies [P], in every world and state. *)
Definition only (P : call -> Prop) {A} (m : M A) : Prop :=
  forall w past σ, Forall P (calls_of (m w past σ)).

(** [m] neither reads nor writes the session store. *)
Definition stateless {A} (m : M A) : Prop :=
  forall w past σ,
    m w past σ = MkOut (res_of (m w past ∅)) (calls_of (m w past ∅)) σ.

(** The key under which the ADK webhook keeps the session of a request's
    sender: the user id and the session id made from it. *)
Definition key_of (request : Agent.form) : string * string :=
  (default "Unknown" (Agent.f_From request),
   AdkWebhook.session_id_of (default "Unknown" (Agent.f_From request))).

(** Calls that do not go to the session service. *)
Definition session_free (c : call) : Prop :=
  match c with
  | GetSession _ _ | CreateSession _ _ => False
  | _ => True
  end.

(* ===================================================================== *)
(** * Further notions and samples *)
(* ===================================================================== *)

(** The string made of the one character [c]. *)
Definition chr (c : ascii) : string := String c EmptyString.

(** [m] returns a value, in every world and state. *)
Definition returns {A} (m : M A) : Prop :=
  forall w past σ, exists a, res_of (m w past σ) = Ok a.

(** Calls that reach the model or the master agent. *)
Definition is_model_call (c : call) : Prop :=
  match c with
  | ImageOpen _ | GenerateContent _ _ | GetPlan _ _ _ | GetFinalVerdict _ _
  | RunnerRun _ _ _ | ExecuteSubAgent _ _ => True
  | _ => False
  end.

(** The backtick of a code fence. *)
Definition backtick : ascii := ascii_of_N 96.

Module Cases.

(** The world of [Samples.world] in which no file can be opened:
    [open] raises an exception of class [cls]. *)
Definition unreadable (cls : exn_class) : World :=
  let w := Samples.world "" [] in {|
  messages_create := messages_create w;
  requests_get := requests_get w;
  image_open := image_open w;
  generate_content := generate_content w;
  json_loads := json_loads w;
  get_plan := get_plan w;
  get_final_verdict := get_final_verdict w;
  open_read := fun _ path => Raise (Exn cls ("[Errno] cannot open: '" +:+ path +:+ "'"));
  tempfile_write := tempfile_write w;
  from_ogg := from_ogg w;
  audio_export := audio_export w;
  path_exists := path_exists w;
  unlink := unlink w;
  b64encode := b64encode w;
  session_fault := session_fault w;
  runner_run := runner_run w
|}.

(** The world of [Samples.mocked_world] in which the model's JSON
    decodes to [a]. *)
Definition decoding (a : analysis) : World :=
  let w := Samples.mocked_world in {|
  messages_create := messages_create w;
  requests_get := requests_get w;
  image_open := image_open w;
  generate_content := generate_content w;
  json_loads := fun _ => Ok a;
  get_plan := get_plan w;
  get_final_verdict := get_final_verdict w;
  open_read := open_read w;
  tempfile_write := tempfile_write w;
  from_ogg := from_ogg w;
  audio_export := audio_export w;
  path_exists := path_exists w;
  unlink := unlink w;
  b64encode := b64encode w;
  session_fault := session_fault w;
  runner_run := runner_run w
|}.

(** An answer of the model without its rating, and one without its
    verdict. *)
Definition unrated : analysis := {|
  an_quality_rating := None;
  an_stitch_type := Some "running stitch";
  an_technical_issues := Some [];
  an_improvement_suggestions := Some [];
  an_professional_grade := Some "advanced";
  an_pass_fail := Some "Pass"
|}.

Definition undecided : analysis := {|
  an_quality_rating := Some 9;
  an_stitch_type := Some "running stitch";
  an_technical_issues := Some [];
  an_improvement_suggestions := Some [];
  an_professional_grade := Some "expert";
  an_pass_fail := None
|}.

(** A model of the ADK agent that answers every request with [text],
    whose JSON, if any, says [said]. *)
Definition genai (text : string) (said : option AdkAgent.json_value) : AdkAgent.Genai := {|
  AdkAgent.models_generate := fun _ => Ok (Some text);
  AdkAgent.response_to_user := fun _ => Ok said
|}.

End Cases.

(** The calls of a clean-up: the check that a file is there, and its
    removal. *)
Definition is_cleanup (c : call) : Prop :=
  match c with
  | PathExists _ | Unlink _ => True
  | _ => False
  end.

(** An event the loop over the runner's events passes over: no content,
    or content without parts. *)
Definition contentless (ev : adk_event) : Prop :=
  match ev_content ev with
  | None => True
  | Some c => ct_parts c = []
  end.

(* ===================================================================== *)
(** * Strings: basic facts *)
(* ===================================================================== *)

Import PyStr.

Lemma app_cons (c : ascii) (s t : string) : String c s +:+ t = String c (s +:+ t).
Proof. reflexivity. Qed.

Lemma app_empty (t : string) : "" +:+ t = t.
Proof. reflexivity. Qed.

Lemma length_app (s t : string) :
  String.length (s +:+ t) = (String.length s + String.length t)%nat.
Proof.
  induction s as [|c s IH]; [reflexivity|].
  rewrite app_cons. simpl. now rewrite IH.
Qed.

Lemma length_slice_to (n : nat) (s : string) :
  String.length (slice_to n s) = Nat.min n (String.length s).
Proof.
  revert s; induction n as [|n IH]; intros [|c s]; simpl; try reflexivity.
  now rewrite IH.
Qed.

Lemma slice_to_from (n : nat) (s : string) :
  slice_to n s +:+ slice_from n s = s.
Proof.
  revert s; induction n as [|n IH]; intros [|c s]; simpl; try reflexivity.
  rewrite app_cons. f_equal. apply IH.
Qed.

Lemma prefix_app (p s : string) : String.prefix p (p +:+ s) = true.
Proof.
  induction p as [|c p IH].
  - rewrite app_empty. now destruct s.
  - rewrite app_cons. simpl. destruct (ascii_dec c c); [exact IH | congruence].
Qed.

Lemma replace_absent (old new s : string) :
  contains s old = false -> replace_from 0 old new s = s.
Proof.
  induction s as [|c s IH]; intros H; [reflexivity|].
  cbn [contains] in H. apply orb_false_iff in H as [Hp Hc].
  cbn [replace_from]. rewrite Hp. now rewrite IH.
Qed.

Lemma replace_skip (old new p s : string) :
  replace_from (String.length p) old new (p +:+ s) = replace_from 0 old new s.
Proof.
  induction p as [|c p IH]; [reflexivity|].
  rewrite app_cons. simpl. exact IH.
Qed.

(* ===================================================================== *)
(** * Computations: basic facts *)
(* ===================================================================== *)

(** A [try] block under a bare [except] whose handler returns [v]
    without calling out: the calls are those of the block. *)
Lemma try_except_const {A} (m : M A) (v : A) w past σ :
  try_except m None (fun _ => mret v) w past σ
  = MkOut (Ok (match res_of (m w past σ) with Ok a => a | Raise _ => v end))
          (calls_of (m w past σ)) (sessions_of (m w past σ)).
Proof.
  unfold try_except. destruct (m w past σ) as [[a|e] cs s]; cbn; [reflexivity|].
  unfold then_; cbn. now rewrite app_nil_r.
Qed.

Lemma bind_int_of {A} (s : string) (k : Z -> M A) w past σ :
  (n ← Agent.int_of s; k n) w past σ
  = match int s with
    | Some n => k n w past σ
    | None => MkOut (Raise (Exn ValueError
                 ("invalid literal for int() with base 10: '" +:+ s +:+ "'"))) [] σ
    end.
Proof.
  unfold mbind, M_bind, Agent.int_of.
  destruct (int s) as [n|]; cbn; [|reflexivity].
  unfold then_; cbn. rewrite app_nil_r. now destruct (k n w past σ).
Qed.

Lemma bind_then_ret {A B} (m : M A) (v : B) w past σ :
  (_ ← m; mret v) w past σ
  = MkOut (match res_of (m w past σ) with Ok _ => Ok v | Raise e => Raise e end)
          (calls_of (m w past σ)) (sessions_of (m w past σ)).
Proof.
  unfold mbind, M_bind. destruct (m w past σ) as [[a|e] cs s]; cbn; [|reflexivity].
  unfold then_; cbn. now rewrite app_nil_r.
Qed.


Lemma bind_out {A B} (m : M A) (f : A -> M B) w past σ :
  (m ≫= f) w past σ
  = match res_of (m w past σ) with
    | Ok a => then_ (m w past σ) (f a w) past
    | Raise e => MkOut (Raise e) (calls_of (m w past σ)) (sessions_of (m w past σ))
    end.
Proof. reflexivity. Qed.

(** ** Calls of a given kind *)

Section Only.
Context (P : call -> Prop).

Lemma only_ret {A} (a : A) : only P (mret a).
Proof. intros w past σ. constructor. Qed.

Lemma only_raise {A} (e : exn) : only P (@raise A e).
Proof. intros w past σ. constructor. Qed.

Lemma only_pure_call {A} (f : World -> res A) : only P (pure_call f).
Proof. intros w past σ. constructor. Qed.

Lemma only_ext {A} (c : call) (answer : World -> trace -> res A) :
  P c -> only P (ext c answer).
Proof. intros Hc w past σ. cbn. now repeat constructor. Qed.

Lemma only_bind {A B} (m : M A) (f : A -> M B) :
  only P m -> (forall a, only P (f a)) -> only P (m ≫= f).
Proof.
  intros Hm Hf w past σ. unfold mbind, M_bind.
  specialize (Hm w past σ). destruct (res_of (m w past σ)); cbn; [|exact Hm].
  apply Forall_app. split; [exact Hm | apply Hf].
Qed.

Lemma only_try_except {A} (m : M A) cls (h : exn -> M A) :
  only P m -> (forall e, only P (h e)) -> only P (try_except m cls h).
Proof.
  intros Hm Hh w past σ. unfold try_except.
  specialize (Hm w past σ). destruct (res_of (m w past σ)); [exact Hm|].
  destruct (caught cls e); [|exact Hm]. cbn.
  apply Forall_app. split; [exact Hm | apply Hh].
Qed.

Lemma only_try_finally {A} (m : M A) (f : M unit) :
  only P m -> only P f -> only P (try_finally m f).
Proof.
  intros Hm Hf w past σ. unfold try_finally. cbn.
  apply Forall_app. split; [apply Hm | apply Hf].
Qed.

Lemma only_attempt {A} (m : M A) : only P m -> only P (attempt m).
Proof. intros Hm w past σ. apply Hm. Qed.

Lemma only_for_each {A B} (body : A -> M B) (xs : list A) :
  (forall x, only P (body x)) -> only P (for_each body xs).
Proof.
  intros Hb. induction xs as [|x xs IH]; cbn [for_each].
  - apply only_ret.
  - apply only_bind; [apply Hb|]. intros b.
    apply only_bind; [exact IH|]. intros bs. apply only_ret.
Qed.

End Only.

Create HintDb only discriminated.
Ltac only_cases :=
  repeat match goal with
         | |- only _ (match ?x with _ => _ end) => destruct x
         | |- only _ (if ?x then _ else _) => destruct x
         | |- forall _, _ => intro
         end.

Ltac only_auto :=
  repeat (only_cases;
          first [ assumption
                | solve [auto with only nocore]
                | apply only_ret | apply only_raise | apply only_pure_call
                | apply only_ext; first [reflexivity | assumption | exact I]
                | apply only_bind | apply only_try_except | apply only_try_finally
                | apply only_attempt | apply only_for_each ]).

Lemma validate_plain data : only is_plain (StitchingAssessor.validate_image_data data).
Proof. unfold StitchingAssessor.validate_image_data. only_auto. Qed.

#[export] Hint Resolve validate_plain : only.

Lemma execute_plain data ctx : only is_plain (StitchingAssessor.execute data ctx).
Proof. unfold StitchingAssessor.execute. only_auto. Qed.

#[export] Hint Resolve execute_plain : only.

Lemma plain_projections (tr : trace) :
  Forall is_plain tr ->
  plan_calls tr = [] /\ executed tr = [] /\ verdict_calls tr = [].
Proof.
  induction 1 as [|c tr Hc Htr (H1 & H2 & H3)]; [easy|].
  unfold plan_calls, executed, verdict_calls in *. cbn [omap].
  destruct c; try discriminate Hc; cbn; auto.
Qed.

(** ** Computations that leave the session store alone *)

Section Stateless.

Lemma stateless_ret {A} (a : A) : stateless (mret a).
Proof. intros w past σ. reflexivity. Qed.

Lemma stateless_raise {A} (e : exn) : stateless (@raise A e).
Proof. intros w past σ. reflexivity. Qed.

Lemma stateless_pure_call {A} (f : World -> res A) : stateless (pure_call f).
Proof. intros w past σ. reflexivity. Qed.

Lemma stateless_ext {A} (c : call) (answer : World -> trace -> res A) :
  stateless (ext c answer).
Proof. intros w past σ. reflexivity. Qed.

Lemma stateless_bind {A B} (m : M A) (f : A -> M B) :
  stateless m -> (forall a, stateless (f a)) -> stateless (m ≫= f).
Proof.
  intros Hm Hf w past σ. rewrite !bind_out.
  rewrite (Hm w past σ). cbn [res_of calls_of sessions_of].
  destruct (res_of (m w past ∅)) as [a|e] eqn:Hr.
  - unfold then_. cbn [res_of calls_of sessions_of].
    rewrite (Hf a w _ σ). cbn [res_of calls_of sessions_of].
    rewrite (Hf a w _ (sessions_of (m w past ∅))). cbn [res_of calls_of sessions_of].
    reflexivity.
  - reflexivity.
Qed.

Lemma stateless_try_except {A} (m : M A) cls (h : exn -> M A) :
  stateless m -> (forall e, stateless (h e)) -> stateless (try_except m cls h).
Proof.
  intros Hm Hh w past σ. unfold try_except.
  rewrite (Hm w past σ). cbn [res_of calls_of sessions_of].
  destruct (res_of (m w past ∅)) as [a|e] eqn:Hr.
  - rewrite Hr. reflexivity.
  - destruct (caught cls e); [|rewrite Hr; reflexivity].
    unfold then_. cbn [res_of calls_of sessions_of].
    rewrite (Hh e w _ σ). cbn [res_of calls_of sessions_of].
    rewrite (Hh e w _ (sessions_of (m w past ∅))). cbn [res_of calls_of sessions_of].
    reflexivity.
Qed.

Lemma stateless_try_finally {A} (m : M A) (f : M unit) :
  stateless m -> stateless f -> stateless (try_finally m f).
Proof.
  intros Hm Hf w past σ. unfold try_finally.
  rewrite (Hm w past σ). cbn [res_of calls_of sessions_of].
  rewrite (Hf w _ σ). cbn [res_of calls_of sessions_of].
  rewrite (Hf w _ (sessions_of (m w past ∅))). cbn [res_of calls_of sessions_of].
  reflexivity.
Qed.

Lemma stateless_attempt {A} (m : M A) : stateless m -> stateless (attempt m).
Proof.
  intros Hm w past σ. unfold attempt.
  rewrite (Hm w past σ). reflexivity.
Qed.

Lemma stateless_for_each {A B} (body : A -> M B) (xs : list A) :
  (forall x, stateless (body x)) -> stateless (for_each body xs).
Proof.
  intros Hb. induction xs as [|x xs IH]; cbn [for_each].
  - apply stateless_ret.
  - apply stateless_bind; [apply Hb|]. intros b.
    apply stateless_bind; [exact IH|]. intros bs. apply stateless_ret.
Qed.

End Stateless.

Create HintDb stateless discriminated.

Ltac stateless_auto :=
  repeat (repeat match goal with
                 | |- stateless (match ?x with _ => _ end) => destruct x
                 | |- stateless (if ?x then _ else _) => destruct x
                 | |- forall _, _ => intro
                 end;
          first [ solve [auto with stateless nocore]
                | apply stateless_ret | apply stateless_raise | apply stateless_pure_call
                | apply stateless_ext | apply stateless_bind | apply stateless_try_except
                | apply stateless_try_finally | apply stateless_attempt
                | apply stateless_for_each | assumption ]).


(* ===================================================================== *)
(** * The recipient prefix (src/agent.py 168-185, src/whatsapp_app.py 151-176) *)
(* ===================================================================== *)

Lemma with_prefix_starts (to : string) :
  startswith (Agent.with_prefix to) Agent.whatsapp_prefix = true.
Proof.
  unfold Agent.with_prefix.
  destruct (startswith to Agent.whatsapp_prefix) eqn:E; simpl; [exact E|].
  unfold startswith. apply prefix_app.
Qed.

Lemma with_prefix_fixed (to : string) :
  startswith to Agent.whatsapp_prefix = true -> Agent.with_prefix to = to.
Proof. intros H. unfold Agent.with_prefix. now rewrite H. Qed.

Lemma strip_prefix_of_bare (n : string) :
  contains n Agent.whatsapp_prefix = false ->
  replace (Agent.with_prefix n) Agent.whatsapp_prefix "" = n.
Proof.
  intros H. unfold Agent.with_prefix.
  assert (Hs : startswith n Agent.whatsapp_prefix = false).
  { destruct n; cbn [contains] in H; apply orb_false_iff in H; apply H. }
  rewrite Hs. cbn [negb]. unfold replace.
  change (replace_from 0 Agent.whatsapp_prefix ""
            (String "w" ("hatsapp:" +:+ n)) = n).
  cbn [replace_from].
  change (String "w" ("hatsapp:" +:+ n)) with (Agent.whatsapp_prefix +:+ n).
  rewrite prefix_app.
  change (Nat.pred (String.length Agent.whatsapp_prefix)) with (String.length "hatsapp:").
  rewrite replace_skip. now apply replace_absent.
Qed.

(** C9.  Both [send_message] implementations hand the Twilio client
    exactly one request, whose recipient is the prefixed number and
    therefore begins with [whatsapp:].  Prefixing is idempotent and
    leaves a number that already has the prefix unchanged.  For a bare
    number [n] (one in which [whatsapp:] does not occur), prefixing and
    then stripping as the webhook does ([replace('whatsapp:', '')])
    gives [n] back. *)
Theorem C9_recipient_prefix
    (api1 : Agent.TwilioWhatsAppAPI) (api2 : WhatsappApp.TwilioWhatsAppAPI)
    (to message n : string) (w : World) (past : trace) (σ : store)
    (Hbare : contains n Agent.whatsapp_prefix = false) :
  calls_of (Agent.send_message api1 to message w past σ)
    = [MessagesCreate (Agent.from_number api1) message (Agent.with_prefix to)]
  /\ calls_of (WhatsappApp.send_message api2 to message w past σ)
    = [MessagesCreate (Some (Agent.with_prefix (WhatsappApp.from_number api2)))
                      message (Agent.with_prefix to)]
  /\ startswith (Agent.with_prefix to) "whatsapp:" = true
  /\ Agent.with_prefix (Agent.with_prefix to) = Agent.with_prefix to
  /\ (startswith to "whatsapp:" = true -> Agent.with_prefix to = to)
  /\ replace (Agent.with_prefix n) "whatsapp:" "" = n.
Proof.
  repeat split.
  - unfold Agent.send_message, try_except, ext, mbind, M_bind, then_; cbn.
    destruct (messages_create w past _ _ _); cbn; reflexivity.
  - unfold WhatsappApp.send_message, try_except, ext, mbind, M_bind, then_; cbn.
    destruct (messages_create w past _ _ _); cbn; reflexivity.
  - apply with_prefix_starts.
  - apply with_prefix_fixed, with_prefix_starts.
  - apply with_prefix_fixed.
  - now apply strip_prefix_of_bare.
Qed.

Lemma C9_recipient_prefix_witness :
  contains "+14155238886" Agent.whatsapp_prefix = false
  /\ replace (Agent.with_prefix "+14155238886") "whatsapp:" "" = "+14155238886".
Proof.
  split; [reflexivity|].
  apply (C9_recipient_prefix (Agent.twilio_api Samples.agent) Samples.api
           "+447700900123" "hello" "+14155238886" (Samples.world "" []) [] ∅).
  reflexivity.
Defined.

(* ===================================================================== *)
(** * Truncation of the reply (src/agents/master_agent.py 160-166) *)
(* ===================================================================== *)

Lemma reply_with_truncates uid sid msg w past σ :
  match res_of (AdkWebhook.run_agent_and_collect_response uid sid msg w past σ) with
  | Ok r => res_of (AdkWebhook.reply_with uid sid msg w past σ)
            = Ok (Agent.Twiml [AdkWebhook.truncate r])
  | Raise e => res_of (AdkWebhook.reply_with uid sid msg w past σ) = Raise e
  end.
Proof.
  unfold AdkWebhook.reply_with, mbind, M_bind.
  destruct (res_of (AdkWebhook.run_agent_and_collect_response uid sid msg w past σ));
    reflexivity.
Qed.

Ltac reply_with_case :=
  match goal with
  | |- context [AdkWebhook.reply_with ?u ?s ?msg ?w ?p ?st] =>
      let H := fresh "Hreply" in
      let Hr := fresh "Hrun" in
      pose proof (reply_with_truncates u s msg w p st) as H;
      destruct (res_of (AdkWebhook.run_agent_and_collect_response u s msg w p st)) eqn:Hr;
      intros Hm; [right; eexists; split; [do 5 eexists; exact Hr | congruence] | congruence]
  end.

(** What the [try] block of the ADK webhook answers when it does not
    raise: the default greeting, or an agent response after truncation. *)
Lemma webhook_body_reply request w past σ m :
  res_of (AdkWebhook.webhook_body request w past σ) = Ok m ->
  m = Agent.Twiml [AdkWebhook.default_message]
  \/ exists r, agent_response w r /\ m = Agent.Twiml [AdkWebhook.truncate r].
Proof.
  unfold AdkWebhook.webhook_body, AdkWebhook.process_message.
  unfold mbind at 1. unfold M_bind at 1.
  destruct (res_of (AdkWebhook.get_or_create_session _ _ w past σ)) eqn:Hs; [|discriminate].
  unfold then_. cbn [res_of].
  set (past1 := past ++ _). set (σ1 := sessions_of _).
  assert (Htext :
    res_of ((if truthy (strip (default "" (Agent.f_Body request)))
             then AdkWebhook.reply_with (default "Unknown" (Agent.f_From request))
                    (AdkWebhook.session_id_of (default "Unknown" (Agent.f_From request)))
                    (Content "user" [TextPart (strip (default "" (Agent.f_Body request)))])
             else mret (Agent.Twiml [AdkWebhook.default_message])) w past1 σ1) = Ok m ->
    m = Agent.Twiml [AdkWebhook.default_message]
    \/ exists r, agent_response w r /\ m = Agent.Twiml [AdkWebhook.truncate r]).
  { destruct (truthy _).
    - reply_with_case.
    - intros Hm. left. cbn in Hm. congruence. }
  destruct (some_text (Agent.f_MediaUrl0 request)) as [url|];
    [destruct (some_text (Agent.f_MediaContentType0 request)) as [ty|]|];
    [|exact Htext|exact Htext].
  clear Htext.
  unfold mbind, M_bind, then_, ext, pure_call, AdkWebhook.raise_for_status;
    cbn [res_of calls_of sessions_of].
  destruct (requests_get w past1 url) as [resp|e]; [|discriminate].
  destruct (_ && _); cbn [res_of calls_of sessions_of raise mret M_ret]; [discriminate|].
  reply_with_case.
Qed.

(** The ADK webhook always answers with a one-message TwiML reply: the
    apology, the default greeting, or an agent response after
    truncation. *)
Lemma adk_webhook_reply request w past σ :
  exists m, res_of (AdkWebhook.twilio_webhook request w past σ) = Ok (Agent.Twiml [m])
    /\ (m = AdkWebhook.apology \/ m = AdkWebhook.default_message
        \/ exists r, agent_response w r /\ m = AdkWebhook.truncate r).
Proof.
  unfold AdkWebhook.twilio_webhook, try_except.
  destruct (res_of (AdkWebhook.webhook_body request w past σ)) as [m|e] eqn:Hb.
  - destruct (webhook_body_reply _ _ _ _ _ Hb) as [->|(r & Hr & ->)]; eexists; split;
      try exact Hb; eauto.
  - cbn. eexists; split; [reflexivity|]. now left.
Qed.



(* ===================================================================== *)
(** * The fallback parser (src/agent.py 141-155) *)
(* ===================================================================== *)

Example fallback_reads_rating :
  an_quality_rating (Agent._parse_fallback_response "Overall RATING:  10/10") = Some 10
  /\ an_pass_fail (Agent._parse_fallback_response "Overall RATING:  10/10") = Some "pass"
  /\ an_quality_rating (Agent._parse_fallback_response "rating 6, rating 9") = Some 6
  /\ an_quality_rating (Agent._parse_fallback_response "no score given") = Some 5.
Proof. repeat split; reflexivity. Qed.

Lemma digit_not_sep (c : ascii) : is_digit c = true -> Agent.is_sep c = false.
Proof.
  destruct c as [[] [] [] [] [] [] [] []]; vm_compute; congruence.
Qed.

Lemma digit_not_space (c : ascii) : is_digit c = true -> is_space c = false.
Proof.
  destruct c as [[] [] [] [] [] [] [] []]; vm_compute; congruence.
Qed.

Lemma take_skip_while (p : ascii -> bool) (s : string) :
  Agent.take_while p s +:+ Agent.skip_while p s = s.
Proof.
  induction s as [|c s IH]; [reflexivity|].
  simpl. destruct (p c); [|reflexivity].
  rewrite app_cons. now rewrite IH.
Qed.

Lemma all_take_while (p : ascii -> bool) (s : string) :
  all_chars p (Agent.take_while p s) = true.
Proof.
  induction s as [|c s IH]; [reflexivity|].
  simpl. destruct (p c) eqn:E; [|reflexivity]. simpl. now rewrite E.
Qed.

Lemma skip_while_stops (p : ascii -> bool) (s : string) :
  starts_with p (Agent.skip_while p s) = false.
Proof.
  induction s as [|c s IH]; [reflexivity|].
  simpl. destruct (p c) eqn:E; [exact IH|]. simpl. exact E.
Qed.

Lemma skip_while_app (p : ascii -> bool) (s t : string) :
  all_chars p s = true -> starts_with p t = false ->
  Agent.skip_while p (s +:+ t) = t.
Proof.
  induction s as [|c s IH]; intros Hs Ht.
  - rewrite app_empty. destruct t as [|d t]; [reflexivity|].
    simpl in *. now rewrite Ht.
  - rewrite app_cons. simpl in *. apply andb_true_iff in Hs as [Hc Hs].
    rewrite Hc. now apply IH.
Qed.

Lemma take_while_app (p : ascii -> bool) (s t : string) :
  all_chars p s = true -> starts_with p t = false ->
  Agent.take_while p (s +:+ t) = s.
Proof.
  induction s as [|c s IH]; intros Hs Ht.
  - rewrite app_empty. destruct t as [|d t]; [reflexivity|].
    simpl in *. now rewrite Ht.
  - rewrite app_cons. simpl in *. apply andb_true_iff in Hs as [Hc Hs].
    rewrite Hc. f_equal. now apply IH.
Qed.

Lemma length_map_chars f s : String.length (map_chars f s) = String.length s.
Proof. induction s; simpl; congruence. Qed.

Lemma slice_to_app (s t : string) : slice_to (String.length s) (s +:+ t) = s.
Proof.
  induction s as [|c s IH]; [now destruct t|].
  rewrite app_cons. simpl. now rewrite IH.
Qed.

Lemma slice_from_app (s t : string) : slice_from (String.length s) (s +:+ t) = t.
Proof.
  induction s as [|c s IH]; [reflexivity|].
  rewrite app_cons. simpl. exact IH.
Qed.

Lemma app_assoc_str (s t u : string) : (s +:+ t) +:+ u = s +:+ t +:+ u.
Proof. induction s as [|c s IH]; [reflexivity|]. rewrite !app_cons. now rewrite IH. Qed.

Lemma match_at_iff (s g : string) :
  Agent.rating_match_at s = Some g <-> rating_match s 0 g.
Proof.
  unfold Agent.rating_match_at. split.
  - destruct (String.eqb_spec (lower (slice_to 6 s)) "rating") as [Hw|]; [|discriminate].
    destruct (Agent.take_while is_digit _) as [|d ds] eqn:Hg; [discriminate|].
    intros [= <-].
    exists "", (slice_to 6 s), (Agent.take_while Agent.is_sep (slice_from 6 s)),
      (Agent.skip_while is_digit (Agent.skip_while Agent.is_sep (slice_from 6 s))).
    rewrite <- Hg.
    repeat split.
    + rewrite app_empty, take_skip_while, take_skip_while, slice_to_from. reflexivity.
    + exact Hw.
    + apply all_take_while.
    + rewrite Hg. discriminate.
    + apply all_take_while.
    + apply skip_while_stops.
  - intros (pre & word & seps & rest & -> & Hpre & Hw & Hseps & Hne & Hg & Hrest).
    destruct pre; [|discriminate]. rewrite app_empty.
    assert (Hlen : String.length word = 6%nat).
    { unfold lower in Hw. rewrite <- (length_map_chars lower_char), Hw. reflexivity. }
    rewrite <- Hlen at 1. rewrite slice_to_app, Hw. simpl String.eqb.
    rewrite <- Hlen. rewrite slice_from_app.
    assert (Hstart : starts_with Agent.is_sep (g +:+ rest) = false).
    { destruct g as [|d g]; [congruence|]. rewrite app_cons. simpl in *.
      apply andb_true_iff in Hg as [Hd _]. now apply digit_not_sep. }
    rewrite (skip_while_app _ _ _ Hseps Hstart).
    rewrite (take_while_app _ _ _ Hg Hrest).
    destruct g; [congruence | reflexivity].
Qed.

Lemma rating_match_shift (s : string) (i : nat) (g : string) :
  rating_match s i g <->
  (i <= String.length s)%nat /\ rating_match (slice_from i s) 0 g.
Proof.
  split.
  - intros (pre & word & seps & rest & -> & Hpre & Hrest). subst i. split.
    + rewrite length_app. lia.
    + rewrite slice_from_app. exists "", word, seps, rest. now rewrite app_empty.
  - intros (Hi & pre & word & seps & rest & Hs & Hpre & Hrest).
    destruct pre; [|discriminate]. rewrite app_empty in Hs.
    exists (slice_to i s), word, seps, rest. split; [|split; [|exact Hrest]].
    + rewrite <- Hs. symmetry. apply slice_to_from.
    + rewrite length_slice_to. lia.
Qed.

Lemma slice_from_empty (i : nat) : slice_from i "" = "".
Proof. now destruct i. Qed.

Lemma search_spec (s : string) :
  match Agent.rating_search s with
  | Some g =>
      exists i, Agent.rating_match_at (slice_from i s) = Some g
        /\ forall j, (j < i)%nat -> Agent.rating_match_at (slice_from j s) = None
  | None => forall i, Agent.rating_match_at (slice_from i s) = None
  end.
Proof.
  induction s as [|c s IH].
  - cbn. intros i. now rewrite slice_from_empty.
  - cbn [Agent.rating_search].
    destruct (Agent.rating_match_at (String c s)) as [g|] eqn:E.
    + exists 0%nat. split; [exact E|]. intros j Hj. lia.
    + destruct (Agent.rating_search s) as [g|].
      * destruct IH as (i & Hi & Hmin). exists (S i). split; [exact Hi|].
        intros [|j] Hj; [exact E|]. apply Hmin. lia.
      * intros [|i]; [exact E | apply IH].
Qed.

Lemma digits_value_some (g : string) :
  all_chars is_digit g = true ->
  forall acc b, g <> "" \/ b = true -> exists v, digits_value acc b g = Some v.
Proof.
  induction g as [|c g IH]; intros Hg acc b Hb.
  - destruct Hb as [Hb | ->]; [congruence|]. now exists acc.
  - simpl in Hg. apply andb_true_iff in Hg as [Hc Hg].
    cbn [digits_value]. rewrite Hc. apply IH; [exact Hg | now right].
Qed.

Lemma rstrip_fixed (s : string) :
  all_chars (fun c => negb (is_space c)) s = true -> rstrip s = s.
Proof.
  induction s as [|c s IH]; [reflexivity|].
  simpl. intros H. apply andb_true_iff in H as [Hc Hs].
  rewrite (IH Hs). destruct s; [|reflexivity].
  now destruct (is_space c).
Qed.

Lemma all_chars_impl (p q : ascii -> bool) (s : string) :
  (forall c, p c = true -> q c = true) ->
  all_chars p s = true -> all_chars q s = true.
Proof.
  intros Hpq. induction s as [|c s IH]; [reflexivity|].
  simpl. intros H. apply andb_true_iff in H as [Hc Hs].
  now rewrite (Hpq _ Hc), IH.
Qed.

Lemma int_of_digits (g : string) :
  g <> "" -> all_chars is_digit g = true -> exists v, int g = Some v.
Proof.
  intros Hne Hg. unfold int, strip.
  assert (Hns : all_chars (fun c => negb (is_space c)) g = true).
  { apply (all_chars_impl is_digit); [|exact Hg].
    intros c Hc. now rewrite (digit_not_space c Hc). }
  destruct g as [|d g]; [congruence|].
  assert (Hd : is_digit d = true) by (simpl in Hg; now apply andb_true_iff in Hg).
  cbn [lstrip]. rewrite (digit_not_space d Hd). rewrite (rstrip_fixed _ Hns).
  destruct (digits_value_some (String d g) Hg 0 false) as [v Hv]; [now left|].
  exists v. rewrite <- Hv.
  destruct d as [[] [] [] [] [] [] [] []]; try discriminate Hd; reflexivity.
Qed.




(* ===================================================================== *)
(** * The assessment report (src/agent.py 328-376) *)
(* ===================================================================== *)

Lemma send_message_out api to message w past σ :
  exists sent : bool,
    Agent.send_message api to message w past σ
    = MkOut (Ok sent) [MessagesCreate (Agent.from_number api) message (Agent.with_prefix to)] σ.
Proof.
  unfold Agent.send_message, try_except, ext, mbind, M_bind, then_; cbn.
  destruct (messages_create w past _ _ _); cbn; eauto.
Qed.

Ltac send_step :=
  match goal with
  | |- context [Agent.send_message ?api ?to ?msg ?w ?p ?s] =>
      let b := fresh "sent" in
      let H := fresh "Hsend" in
      destruct (send_message_out api to msg w p s) as [b H]; rewrite H; clear H;
      cbn [res_of calls_of sessions_of]
  end.

Lemma send_assessment_report_out agent phone a w past σ :
  Agent.send_assessment_report agent phone a w past σ
  = MkOut (Ok tt)
      [MessagesCreate (Agent.from_number (Agent.twilio_api agent)) (Agent.report_of a)
                      (Agent.with_prefix phone);
       MessagesCreate (Agent.from_number (Agent.twilio_api agent))
                      (Agent.follow_up (Agent.quality_rating a)) (Agent.with_prefix phone)]
      σ.
Proof.
  unfold Agent.send_assessment_report, mbind, M_bind, then_.
  send_step. send_step. reflexivity.
Qed.


(** The relay on a mocked analysis: the image handler downloads the
    picture, asks the model, and forwards the formatted report. *)
Example mocked_analysis_is_relayed :
  calls_of (Agent.handle_twilio_image_message Samples.agent "+447700900123"
              "https://api.twilio.com/m/1" Samples.mocked_world [] ∅)
  = [ MessagesCreate (Some "whatsapp:+14155238886") Agent.analyzing_notice
                     "whatsapp:+447700900123";
      RequestsGet "https://api.twilio.com/m/1";
      ImageOpen "jpeg";
      GenerateContent "You are a tailor." "jpeg";
      MessagesCreate (Some "whatsapp:+14155238886")
                     (Agent.report_of Samples.mocked_assessment) "whatsapp:+447700900123";
      MessagesCreate (Some "whatsapp:+14155238886")
                     (Agent.follow_up 8) "whatsapp:+447700900123" ]
  /\ Agent.pass_fail_emoji_of (Agent.pass_fail Samples.mocked_assessment) = Agent.pass_emoji
  /\ Agent._format_list_compact (Agent.technical_issues Samples.mocked_assessment)
     = "loose tension | uneven spacing".
Proof. repeat split; vm_compute; reflexivity. Qed.

(* ===================================================================== *)
(** * Dispatch of a webhook request (src/whatsapp_app.py 230-268,
      src/agent.py 222-245) *)
(* ===================================================================== *)

Lemma whatsapp_webhook_out api request w past σ :
  let from_number := default "" (Agent.f_From request) in
  let body := default "" (Agent.f_Body request) in
  let media_url := default "" (Agent.f_MediaUrl0 request) in
  let media_content_type := default "" (Agent.f_MediaContentType0 request) in
  let phone_number := replace from_number "whatsapp:" "" in
  res_of (WhatsappApp.handle_twilio_webhook api request w past σ) = Ok (Agent.Twiml [])
  /\ calls_of (WhatsappApp.handle_twilio_webhook api request w past σ)
     = match int (default "0" (Agent.f_NumMedia request)) with
       | Some n =>
           calls_of (WhatsappApp.dispatch api
                       (WhatsappApp.route_of n media_url media_content_type)
                       phone_number media_url body w past σ)
       | None => []
       end.
Proof.
  intros. unfold WhatsappApp.handle_twilio_webhook.
  rewrite try_except_const. cbn [res_of calls_of].
  unfold WhatsappApp.webhook_body. rewrite bind_int_of.
  destruct (int _) as [n|]; cbn [res_of calls_of].
  - rewrite bind_then_ret. cbn [res_of calls_of].
    split; [|reflexivity]. now destruct (res_of _).
  - split; reflexivity.
Qed.

Lemma agent_webhook_out agent request w past σ :
  let from_number := default "" (Agent.f_From request) in
  let body := default "" (Agent.f_Body request) in
  let media_url := default "" (Agent.f_MediaUrl0 request) in
  let phone_number := replace from_number "whatsapp:" "" in
  res_of (Agent.handle_twilio_webhook agent request w past σ) = Ok (Agent.Twiml [])
  /\ calls_of (Agent.handle_twilio_webhook agent request w past σ)
     = match int (default "0" (Agent.f_NumMedia request)) with
       | Some n =>
           if (n >? 0) && truthy media_url
           then calls_of (Agent.handle_twilio_image_message agent phone_number media_url w past σ)
           else calls_of (Agent.handle_text_message agent phone_number body w past σ)
       | None => []
       end.
Proof.
  intros. unfold Agent.handle_twilio_webhook.
  rewrite try_except_const. cbn [res_of calls_of].
  unfold Agent.webhook_body. rewrite bind_int_of.
  destruct (int _) as [n|]; cbn [res_of calls_of].
  - rewrite bind_then_ret. cbn [res_of calls_of].
    split; [now destruct (res_of _)|]. now destruct (_ && _).
  - split; reflexivity.
Qed.

Lemma route_of_cases (n : Z) (url ty : string) :
  let media := n > 0 /\ url <> "" in
  (WhatsappApp.route_of n url ty = WhatsappApp.ToImage
     <-> media /\ startswith ty "image/" = true)
  /\ (WhatsappApp.route_of n url ty = WhatsappApp.ToVoice
     <-> media /\ startswith ty "image/" = false /\ startswith ty "audio/" = true)
  /\ (WhatsappApp.route_of n url ty = WhatsappApp.Unsupported
     <-> media /\ startswith ty "image/" = false /\ startswith ty "audio/" = false)
  /\ (WhatsappApp.route_of n url ty = WhatsappApp.ToText <-> ~ media).
Proof.
  intros media. unfold WhatsappApp.route_of, truthy, media.
  destruct (Z.gtb_spec n 0) as [Hn|Hn];
    destruct (String.eqb_spec url "") as [Hu|Hu];
    destruct (startswith ty "image/"); destruct (startswith ty "audio/");
    cbn; repeat split; intros; try discriminate; try tauto; try lia;
    try (exfalso; tauto); try (exfalso; lia).
  all: exfalso; apply H; split; [lia | assumption].
Qed.



(* ===================================================================== *)
(** * Exceptions in the webhooks (src/agents/master_agent.py 169-176,
      src/agent.py 242-245, src/whatsapp_app.py 330-332) *)
(* ===================================================================== *)

Lemma say_out api phone message w past σ :
  WhatsappApp.say api phone message w past σ
  = MkOut (Ok tt)
      [MessagesCreate (Some (Agent.with_prefix (WhatsappApp.from_number api))) message
                      (Agent.with_prefix phone)] σ.
Proof.
  unfold WhatsappApp.say, WhatsappApp.send_message, try_except, ext, mbind, M_bind, then_; cbn.
  destruct (messages_create w past _ _ _); cbn; reflexivity.
Qed.

Lemma adk_apology request w past σ e :
  res_of (AdkWebhook.webhook_body request w past σ) = Raise e ->
  res_of (AdkWebhook.twilio_webhook request w past σ)
  = Ok (Agent.Twiml [AdkWebhook.apology]).
Proof.
  intros H. unfold AdkWebhook.twilio_webhook. rewrite try_except_const.
  cbn [res_of]. now rewrite H.
Qed.

Lemma voice_error_sent api phone url w past σ paths e :
  res_of (WhatsappApp.voice_try api phone url w past σ) = Ok (paths, Raise e) ->
  In (MessagesCreate (Some (Agent.with_prefix (WhatsappApp.from_number api)))
                     (WhatsappApp.voice_error e) (Agent.with_prefix phone))
     (calls_of (WhatsappApp.handle_voice_message api phone url w past σ)).
Proof.
  intros H. unfold WhatsappApp.handle_voice_message, mbind, M_bind.
  rewrite H. unfold then_. cbn [calls_of snd fst].
  apply in_or_app. right.
  unfold try_finally. cbn [calls_of]. apply in_or_app. left.
  rewrite say_out. cbn. now left.
Qed.




(* ===================================================================== *)
(** * The assessment pipeline (src/main.py 60-98) *)
(* ===================================================================== *)

Lemma print_out text w past σ : Main.print text w past σ = MkOut (Ok tt) [Print text] σ.
Proof. reflexivity. Qed.

Lemma execute_instruction_calls instr img w past σ :
  exists l, calls_of (Main.execute_sub_agent_instruction instr img w past σ)
            = ExecuteSubAgent instr img :: l
            /\ Forall is_plain l.
Proof.
  unfold Main.execute_sub_agent_instruction.
  unfold mbind at 1. unfold M_bind at 1. cbn [ext res_of calls_of sessions_of then_].
  eexists. split; [reflexivity|].
  match goal with |- Forall _ (calls_of (?m _ _ _)) => assert (H : only is_plain m) end.
  { unfold Main.print. only_auto. }
  apply H.
Qed.


Lemma assess_calls img instr w past σ :
  exists text l,
    calls_of (Main.assess img instr w past σ) = Print text :: ExecuteSubAgent instr img :: l
    /\ Forall is_plain l.
Proof.
  unfold Main.assess. unfold mbind at 1. unfold M_bind at 1.
  rewrite print_out. cbn [res_of calls_of sessions_of then_].
  set (past1 := past ++ _).
  destruct (execute_instruction_calls instr img w past1 σ) as (l & Hl & Hplain).
  unfold mbind, M_bind.
  destruct (res_of (Main.execute_sub_agent_instruction instr img w past1 σ));
    cbn [res_of calls_of sessions_of then_ mret M_ret]; rewrite Hl, ?app_nil_r;
    do 2 eexists; (split; [reflexivity | exact Hplain]).
Qed.

Lemma assess_result img instr w past σ r :
  res_of (Main.assess img instr w past σ) = Ok r ->
  sr_agent_name r = in_agent_name instr
  /\ sr_skill_assessed r = tc_skill_to_assess (Main.context_of instr).
Proof.
  unfold Main.assess, mbind, M_bind. rewrite print_out.
  cbn [res_of calls_of sessions_of then_].
  destruct (res_of (Main.execute_sub_agent_instruction _ _ _ _ _));
    cbn [res_of then_ mret M_ret]; intros [= <-]. now split.
Qed.

Lemma executed_app (l1 l2 : trace) : executed (l1 ++ l2) = executed l1 ++ executed l2.
Proof. apply omap_app. Qed.
Lemma plan_calls_app (l1 l2 : trace) : plan_calls (l1 ++ l2) = plan_calls l1 ++ plan_calls l2.
Proof. apply omap_app. Qed.
Lemma verdict_calls_app (l1 l2 : trace) :
  verdict_calls (l1 ++ l2) = verdict_calls l1 ++ verdict_calls l2.
Proof. apply omap_app. Qed.

Lemma assess_projections img instr w past σ :
  let l := calls_of (Main.assess img instr w past σ) in
  plan_calls l = [] /\ executed l = [instr] /\ verdict_calls l = [].
Proof.
  destruct (assess_calls img instr w past σ) as (text & l & Hl & Hplain).
  destruct (plain_projections l Hplain) as (H1 & H2 & H3).
  cbn zeta. rewrite Hl.
  change (Print text :: ExecuteSubAgent instr img :: l)
    with ([Print text; ExecuteSubAgent instr img] ++ l).
  rewrite plan_calls_app, executed_app, verdict_calls_app, H1, H2, H3.
  repeat split.
Qed.

(** The loop of step 2: the instructions are entered in list order, one
    entry each; when the loop completes, all of them were, and there is
    one result per instruction, in the same order. *)
Lemma loop_projections img (instrs : list instruction) w past σ :
  let o := for_each (Main.assess img) instrs w past σ in
  plan_calls (calls_of o) = []
  /\ verdict_calls (calls_of o) = []
  /\ executed (calls_of o) `prefix_of` instrs
  /\ forall results, res_of o = Ok results ->
        executed (calls_of o) = instrs
        /\ map sr_agent_name results = map in_agent_name instrs
        /\ map sr_skill_assessed results
           = map (fun i => tc_skill_to_assess (Main.context_of i)) instrs.
Proof.
  revert past σ. induction instrs as [|x rest IH]; intros past σ.
  - cbn. split; [reflexivity|]. split; [reflexivity|]. split; [apply prefix_nil|].
    intros results [= <-]. repeat split.
  - cbn [for_each]. rewrite bind_out.
    destruct (assess_projections img x w past σ) as (H1 & H2 & H3).
    pose proof (assess_result img x w past σ) as Hres.
    destruct (res_of (Main.assess img x w past σ)) as [r|e].
    + unfold then_. rewrite bind_out. cbn [res_of calls_of sessions_of].
      set (past1 := past ++ _). set (σ1 := sessions_of _).
      specialize (IH past1 σ1). cbn zeta in IH.
      destruct IH as (I1 & I2 & I3 & I4).
      destruct (res_of (for_each (Main.assess img) rest w past1 σ1)) as [rs|e] eqn:Hrs;
        cbn [res_of calls_of sessions_of then_ mret M_ret];
        rewrite ?app_nil_r, plan_calls_app, verdict_calls_app, executed_app,
          H1, H2, H3, I1, I2; cbn [app].
      * split; [reflexivity|]. split; [reflexivity|].
        destruct (I4 rs eq_refl) as (E1 & E2 & E3). rewrite E1.
        split; [reflexivity|]. intros results [= <-].
        destruct (Hres r eq_refl) as [R1 R2].
        cbn [map]. now rewrite R1, R2, E2, E3.
      * split; [reflexivity|]. split; [reflexivity|].
        split; [now apply prefix_cons|]. intros results [=].
    + cbn [res_of calls_of]. rewrite H1, H2, H3.
      split; [reflexivity|]. split; [reflexivity|].
      split; [apply prefix_cons, prefix_nil|]. intros results [=].
Qed.

Lemma run_full_assessment_shape uq img aud w past σ :
  let o := Main.run_full_assessment uq img aud w past σ in
  match get_plan w past uq img aud with
  | Raise e => calls_of o = [GetPlan uq img aud] /\ res_of o = Raise e
  | Ok p =>
      exists line,
        let c0 := [GetPlan uq img aud; Print line] in
        match pl_sub_agent_instructions p with
        | None | Some [] => calls_of o = c0 /\ res_of o = Ok tt
        | Some ((first :: _) as instrs) =>
            let loop := for_each (Main.assess img) instrs w (past ++ c0) σ in
            match res_of loop with
            | Raise e => calls_of o = c0 ++ calls_of loop /\ res_of o = Raise e
            | Ok results =>
                match some_text (tc_role (Main.context_of first)) with
                | None =>
                    exists line', calls_of o = c0 ++ calls_of loop ++ [Print line']
                                  /\ res_of o = Ok tt
                | Some role =>
                    exists line' after,
                      calls_of o = c0 ++ calls_of loop
                                   ++ Print line' :: GetFinalVerdict role results :: after
                      /\ Forall is_plain after
                end
            end
        end
  end.
Proof.
  cbn zeta. unfold Main.run_full_assessment. rewrite bind_out.
  cbn [ext res_of calls_of sessions_of].
  destruct (get_plan w past uq img aud) as [p|e]; [|now split].
  unfold then_. cbn [res_of calls_of sessions_of]. rewrite bind_out, print_out.
  cbn [res_of calls_of sessions_of then_].
  eexists.
  destruct (pl_sub_agent_instructions p) as [[|first rest]|]; cbn [mret M_ret calls_of res_of].
  - split; reflexivity.
  - rewrite <- app_assoc. cbn [app].
    rewrite bind_out.
    set (loop := for_each _ _ _ _ _).
    destruct (res_of loop) as [results|e]; cbn [res_of calls_of sessions_of then_].
    + destruct (some_text _) as [role|].
      * rewrite bind_out, print_out. cbn [res_of calls_of sessions_of then_].
        rewrite bind_out. cbn [ext res_of calls_of sessions_of].
        destruct (get_final_verdict w _ role results) as [v|e];
          cbn [res_of calls_of sessions_of then_]; do 2 eexists.
        -- rewrite print_out. cbn [calls_of app]. split; [reflexivity|].
           repeat constructor.
        -- cbn [app]. split; [reflexivity|]. constructor.
      * rewrite print_out. cbn [res_of calls_of]. eexists. split; reflexivity.
    + split; reflexivity.
  - split; reflexivity.
Qed.

Lemma projections_cons_plain (c : call) (l : trace) :
  is_plain c ->
  plan_calls (c :: l) = plan_calls l /\ executed (c :: l) = executed l
  /\ verdict_calls (c :: l) = verdict_calls l.
Proof. intros Hc. destruct c; try discriminate Hc; repeat split. Qed.

(** ** The same pipeline behind WhatsApp (src/whatsapp_app.py 373-406) *)

Lemma wa_assess_calls api phone instr w past σ :
  exists c l,
    calls_of (WhatsappApp.assess api phone instr w past σ) = c :: ExecuteSubAgent instr None :: l
    /\ is_plain c /\ Forall is_plain l.
Proof.
  unfold WhatsappApp.assess. rewrite bind_out, say_out.
  cbn [res_of calls_of sessions_of then_].
  set (past1 := past ++ _).
  destruct (execute_instruction_calls instr None w past1 σ) as (l & Hl & Hplain).
  rewrite bind_out.
  destruct (res_of (Main.execute_sub_agent_instruction instr None w past1 σ));
    cbn [res_of calls_of sessions_of then_ mret M_ret]; rewrite Hl, ?app_nil_r;
    do 2 eexists; (split; [reflexivity | split; [reflexivity | exact Hplain]]).
Qed.

Lemma wa_assess_result api phone instr w past σ r :
  res_of (WhatsappApp.assess api phone instr w past σ) = Ok r ->
  sr_agent_name r = Some (default "Unknown" (in_agent_name instr)).
Proof.
  unfold WhatsappApp.assess. rewrite bind_out, say_out.
  cbn [res_of calls_of sessions_of then_]. rewrite bind_out.
  destruct (res_of (Main.execute_sub_agent_instruction _ _ _ _ _));
    cbn [res_of then_ mret M_ret]; intros [= <-]. reflexivity.
Qed.

Lemma wa_assess_projections api phone instr w past σ :
  let l := calls_of (WhatsappApp.assess api phone instr w past σ) in
  plan_calls l = [] /\ executed l = [instr] /\ verdict_calls l = [].
Proof.
  destruct (wa_assess_calls api phone instr w past σ) as (c & l & Hl & Hc & Hplain).
  destruct (plain_projections l Hplain) as (H1 & H2 & H3).
  destruct (projections_cons_plain c (ExecuteSubAgent instr None :: l) Hc) as (C1 & C2 & C3).
  cbn zeta. rewrite Hl, C1, C2, C3.
  change (ExecuteSubAgent instr None :: l) with ([ExecuteSubAgent instr None] ++ l).
  rewrite plan_calls_app, executed_app, verdict_calls_app, H1, H2, H3.
  repeat split.
Qed.

Lemma wa_loop_projections api phone (instrs : list instruction) w past σ :
  let o := for_each (WhatsappApp.assess api phone) instrs w past σ in
  plan_calls (calls_of o) = []
  /\ verdict_calls (calls_of o) = []
  /\ executed (calls_of o) `prefix_of` instrs
  /\ forall results, res_of o = Ok results ->
        executed (calls_of o) = instrs
        /\ map sr_agent_name results
           = map (fun i => Some (default "Unknown" (in_agent_name i))) instrs.
Proof.
  revert past σ. induction instrs as [|x rest IH]; intros past σ.
  - cbn. split; [reflexivity|]. split; [reflexivity|]. split; [apply prefix_nil|].
    intros results [= <-]. repeat split.
  - cbn [for_each]. rewrite bind_out.
    destruct (wa_assess_projections api phone x w past σ) as (H1 & H2 & H3).
    pose proof (wa_assess_result api phone x w past σ) as Hres.
    destruct (res_of (WhatsappApp.assess api phone x w past σ)) as [r|e].
    + unfold then_. rewrite bind_out. cbn [res_of calls_of sessions_of].
      set (past1 := past ++ _). set (σ1 := sessions_of _).
      specialize (IH past1 σ1). cbn zeta in IH.
      destruct IH as (I1 & I2 & I3 & I4).
      destruct (res_of (for_each (WhatsappApp.assess api phone) rest w past1 σ1))
        as [rs|e] eqn:Hrs;
        cbn [res_of calls_of sessions_of then_ mret M_ret];
        rewrite ?app_nil_r, plan_calls_app, verdict_calls_app, executed_app,
          H1, H2, H3, I1, I2; cbn [app].
      * split; [reflexivity|]. split; [reflexivity|].
        destruct (I4 rs eq_refl) as (E1 & E2). rewrite E1.
        split; [reflexivity|]. intros results [= <-].
        cbn [map]. now rewrite (Hres r eq_refl), E2.
      * split; [reflexivity|]. split; [reflexivity|].
        split; [now apply prefix_cons|]. intros results [=].
    + cbn [res_of calls_of]. rewrite H1, H2, H3.
      split; [reflexivity|]. split; [reflexivity|].
      split; [apply prefix_cons, prefix_nil|]. intros results [=].
Qed.

Lemma send_agent_results_plain api phone results v :
  only is_plain (WhatsappApp._send_agent_results api phone results v).
Proof.
  unfold WhatsappApp._send_agent_results, WhatsappApp._send_detailed_assessment,
    WhatsappApp.say, WhatsappApp.send_message.
  only_auto.
Qed.

Lemma try_except_unit (m : M unit) (h : exn -> M unit) w past σ :
  (forall e p s, res_of (h e w p s) = Ok tt) ->
  res_of (try_except m None h w past σ) = Ok tt.
Proof.
  intros Hh. unfold try_except. cbn [caught].
  destruct (res_of (m w past σ)) as [[]|e] eqn:Hm; [exact Hm|].
  unfold then_. cbn [res_of]. apply Hh.
Qed.

Ltac norm :=
  repeat (progress (rewrite ?bind_out, ?say_out; unfold then_;
                    cbn [res_of calls_of sessions_of ext raise mret M_ret caught app])).

Lemma plan_calls_cons c l :
  plan_calls (c :: l)
  = match c with GetPlan q i a => [(q, i, a)] | _ => [] end ++ plan_calls l.
Proof. now destruct c. Qed.

Lemma executed_cons c l :
  executed (c :: l) = match c with ExecuteSubAgent i _ => [i] | _ => [] end ++ executed l.
Proof. now destruct c. Qed.

Lemma verdict_calls_cons c l :
  verdict_calls (c :: l)
  = match c with GetFinalVerdict r rs => [(r, rs)] | _ => [] end ++ verdict_calls l.
Proof. now destruct c. Qed.

Lemma projections_nil : plan_calls [] = [] /\ executed [] = [] /\ verdict_calls [] = [].
Proof. repeat split. Qed.

Ltac proj :=
  repeat (progress (rewrite ?plan_calls_app, ?verdict_calls_app, ?executed_app,
                      ?plan_calls_cons, ?verdict_calls_cons, ?executed_cons,
                      ?(proj1 projections_nil), ?(proj1 (proj2 projections_nil)),
                      ?(proj2 (proj2 projections_nil));
                    cbn [app])).

Lemma wa_pipeline api phone (instrs : list instruction) w past σ :
  let o := WhatsappApp._execute_sub_agents_and_respond api phone instrs w past σ in
  res_of o = Ok tt
  /\ plan_calls (calls_of o) = []
  /\ executed (calls_of o) `prefix_of` instrs
  /\ (verdict_calls (calls_of o) = []
      \/ exists first results,
           head instrs = Some first
           /\ verdict_calls (calls_of o)
              = [(default "Unknown" (tc_role (Main.context_of first)), results)]
           /\ executed (calls_of o) = instrs
           /\ map sr_agent_name results
              = map (fun i => Some (default "Unknown" (in_agent_name i))) instrs).
Proof.
  cbn zeta. unfold WhatsappApp._execute_sub_agents_and_respond, try_except.
  cbn [caught]. norm.
  match goal with |- context [for_each _ _ _ ?p _] =>
    pose proof (wa_loop_projections api phone instrs w p σ) as L end.
  cbn zeta in L. destruct L as (L1 & L2 & L3 & L4).
  set (loop := for_each _ _ _ _ _) in *.
  destruct (res_of loop) as [results|e] eqn:Hloop; norm.
  2:{ proj. rewrite L1, L2. cbn [app]. rewrite app_nil_r.
      split; [reflexivity|]. split; [reflexivity|]. split; [exact L3 | now left]. }
  destruct (L4 results eq_refl) as (E1 & E2).
  destruct instrs as [|first rest]; norm.
  - proj. rewrite L1, L2, E1. cbn [app].
    split; [reflexivity|]. split; [reflexivity|]. split; [apply prefix_nil | now left].
  - set (role := default "Unknown" _).
    destruct (get_final_verdict w _ role results) as [v|e]; norm.
    + set (tail := WhatsappApp._send_agent_results _ _ _ _ _ _ _).
      assert (Htail : Forall is_plain (calls_of tail)) by apply send_agent_results_plain.
      destruct (plain_projections _ Htail) as (T1 & T2 & T3).
      assert (Hres : res_of tail = Ok tt).
      { unfold tail, WhatsappApp._send_agent_results. apply try_except_unit.
        intros e0 p s. now rewrite say_out. }
      rewrite Hres. cbn [res_of calls_of sessions_of]. proj.
      rewrite L1, L2, E1, T1, T2, T3. cbn [app]. rewrite ?app_nil_r.
      split; [reflexivity|]. split; [reflexivity|]. split; [reflexivity|].
      right. exists first, results. repeat split; assumption.
    + proj. rewrite L1, L2, E1. cbn [app]. rewrite ?app_nil_r.
      split; [reflexivity|]. split; [reflexivity|]. split; [reflexivity|].
      right. exists first, results. repeat split; assumption.
Qed.

(** The host-driven pipeline of [run_full_assessment]. *)
Lemma main_pipeline (uq : option string) (img aud : option bytes)
    (w : World) (past : trace) (σ : store) :
  let o := Main.run_full_assessment uq img aud w past σ in
  plan_calls (calls_of o) = [(uq, img, aud)]
  /\ head (calls_of o) = Some (GetPlan uq img aud)
  /\ (length (verdict_calls (calls_of o)) <= 1)%nat
  /\ (forall p, get_plan w past uq img aud = Ok p ->
       let instrs := default [] (pl_sub_agent_instructions p) in
       executed (calls_of o) `prefix_of` instrs
       /\ (instrs = [] ->
             res_of o = Ok tt /\ length (calls_of o) = 2%nat
             /\ verdict_calls (calls_of o) = [])
       /\ (res_of o = Ok tt ->
             executed (calls_of o) = instrs
             /\ match instrs with
                | [] => verdict_calls (calls_of o) = []
                | first :: _ =>
                    match some_text (tc_role (Main.context_of first)) with
                    | None => verdict_calls (calls_of o) = []
                    | Some role =>
                        exists before results after,
                          calls_of o = GetPlan uq img aud :: before
                                       ++ GetFinalVerdict role results :: after
                          /\ executed before = instrs
                          /\ plan_calls before = []
                          /\ verdict_calls before = []
                          /\ Forall is_plain after
                          /\ map sr_agent_name results = map in_agent_name instrs
                          /\ map sr_skill_assessed results
                             = map (fun i => tc_skill_to_assess (Main.context_of i)) instrs
                    end
                end)).
Proof.
  intros o. pose proof (run_full_assessment_shape uq img aud w past σ) as S.
  cbn zeta in S. fold o in S.
  destruct (get_plan w past uq img aud) as [p|e].
  2:{ destruct S as [Hc Hr]. rewrite Hc. cbn.
      split; [reflexivity|]. split; [reflexivity|]. split; [lia|]. intros p [=]. }
  destruct S as (line & S).
  destruct (pl_sub_agent_instructions p) as [[|first rest]|] eqn:Hp.
  - destruct S as [Hc Hr]. rewrite Hc, Hr. cbn.
    split; [reflexivity|]. split; [reflexivity|]. split; [lia|].
    intros q [= <-]. rewrite Hp. cbn.
    split; [apply prefix_nil|]. split; [intros _|intros _]; repeat split.
  - set (instrs := first :: rest) in *.
    pose proof (loop_projections img instrs w (past ++ [GetPlan uq img aud; Print line]) σ) as L.
    cbn zeta in L. destruct L as (L1 & L2 & L3 & L4).
    set (loop := for_each _ _ _ _ _) in *.
    destruct (res_of loop) as [results|e] eqn:Hloop.
    + destruct (L4 results eq_refl) as (E1 & E2 & E3).
      destruct (some_text (tc_role (Main.context_of first))) as [role|] eqn:Hrole.
      * destruct S as (line' & after & Hc & Hafter).
        destruct (plain_projections after Hafter) as (A1 & A2 & A3).
        rewrite Hc.
        change ([GetPlan uq img aud; Print line] ++ calls_of loop
                ++ Print line' :: GetFinalVerdict role results :: after)
          with ([GetPlan uq img aud; Print line] ++ calls_of loop
                ++ [Print line'; GetFinalVerdict role results] ++ after).
        rewrite !plan_calls_app, !verdict_calls_app, !executed_app, L1, L2, E1, A1, A2, A3.
        cbn. rewrite app_nil_r.
        split; [reflexivity|]. split; [reflexivity|]. split; [lia|].
        intros q [= <-]. rewrite Hp. cbn [default from_option id]. fold instrs.
        split; [reflexivity|]. split; [discriminate|]. intros _.
        split; [reflexivity|]. unfold instrs at 1. rewrite Hrole.
        exists (Print line :: calls_of loop ++ [Print line']), results, after.
        split.
        { cbn [app]. rewrite <- app_assoc. reflexivity. }
        change (Print line :: calls_of loop ++ [Print line'])
          with ([Print line] ++ calls_of loop ++ [Print line']).
        rewrite !plan_calls_app, !verdict_calls_app, !executed_app, L1, L2, E1.
        cbn. rewrite app_nil_r. repeat split; assumption.
      * destruct S as (line' & Hc & Hr). rewrite Hc.
        rewrite !plan_calls_app, !verdict_calls_app, !executed_app, L1, L2, E1.
        cbn. rewrite app_nil_r.
        split; [reflexivity|]. split; [reflexivity|]. split; [lia|].
        intros q [= <-]. rewrite Hp. cbn [default from_option id]. fold instrs.
        split; [reflexivity|]. split; [discriminate|]. intros _.
        split; [reflexivity|]. unfold instrs. now rewrite Hrole.
    + destruct S as [Hc Hr]. rewrite Hc, Hr.
      rewrite !plan_calls_app, !verdict_calls_app, !executed_app, L1, L2.
      cbn. split; [reflexivity|]. split; [reflexivity|]. split; [lia|].
      intros q [= <-]. rewrite Hp. cbn [default from_option id]. fold instrs.
      split; [exact L3|]. split; [discriminate|]. intros [=].
  - destruct S as [Hc Hr]. rewrite Hc, Hr. cbn.
    split; [reflexivity|]. split; [reflexivity|]. split; [lia|].
    intros q [= <-]. rewrite Hp. cbn.
    split; [apply prefix_nil|]. split; [intros _|intros _]; repeat split.
Qed.




(* ===================================================================== *)
(** * Where pass/fail comes from (src/agent.py 104-155) *)
(* ===================================================================== *)

Lemma analyze_stitching_out prompt image w past σ :
  Agent.analyze_stitching prompt image w past σ
  = match image_open w image with
    | Raise _ => MkOut (Ok Agent.analysis_failed) [ImageOpen image] σ
    | Ok _ =>
        MkOut
          (Ok match generate_content w (past ++ [ImageOpen image]) prompt image with
              | Raise _ => Agent.analysis_failed
              | Ok text =>
                  match json_loads w (Agent.json_text text) with
                  | Ok decoded => decoded
                  | Raise e =>
                      if is_a (exn_cls e) JSONDecodeError
                      then Agent._parse_fallback_response text
                      else Agent.analysis_failed
                  end
              end)
          [ImageOpen image; GenerateContent prompt image] σ
    end.
Proof.
  unfold Agent.analyze_stitching. rewrite try_except_const, bind_out.
  cbn [ext res_of calls_of sessions_of].
  destruct (image_open w image) as [[]|e]; cbn [res_of calls_of sessions_of then_]; [|reflexivity].
  rewrite bind_out. cbn [ext res_of calls_of sessions_of].
  destruct (generate_content w _ prompt image) as [text|e];
    cbn [res_of calls_of sessions_of then_ app]; [|reflexivity].
  unfold try_except, pure_call. cbn [res_of calls_of sessions_of].
  destruct (json_loads w (Agent.json_text text)) as [decoded|e];
    cbn [res_of calls_of sessions_of caught]; [reflexivity|].
  destruct (is_a (exn_cls e) JSONDecodeError); reflexivity.
Qed.




(* ===================================================================== *)
(** * State between requests (src/agents/master_agent.py 32-37, 56-134) *)
(* ===================================================================== *)

Lemma agent_webhook_stateless agent request :
  stateless (Agent.handle_twilio_webhook agent request).
Proof.
  unfold Agent.handle_twilio_webhook, Agent.webhook_body, Agent.int_of,
    Agent.handle_twilio_image_message, Agent.handle_text_message,
    Agent.send_assessment_report, Agent.analyze_stitching, Agent.item, Agent.send_message.
  stateless_auto.
Qed.

Lemma execute_instruction_stateless instr img :
  stateless (Main.execute_sub_agent_instruction instr img).
Proof.
  unfold Main.execute_sub_agent_instruction, Main.print, StitchingAssessor.execute,
    StitchingAssessor.validate_image_data.
  stateless_auto.
Qed.

#[export] Hint Resolve execute_instruction_stateless : stateless.

Lemma whatsapp_webhook_stateless api request :
  stateless (WhatsappApp.handle_twilio_webhook api request).
Proof.
  unfold WhatsappApp.handle_twilio_webhook, WhatsappApp.webhook_body, Agent.int_of,
    WhatsappApp.dispatch, WhatsappApp.handle_image_message, WhatsappApp.handle_voice_message,
    WhatsappApp.handle_text_message, WhatsappApp.voice_try, WhatsappApp.relay_plan,
    WhatsappApp._execute_sub_agents_and_respond, WhatsappApp.assess,
    WhatsappApp._send_agent_results,
    WhatsappApp._send_detailed_assessment, WhatsappApp.cleanup_temp_files,
    WhatsappApp.cleanup_temp_file, WhatsappApp.download_audio_from_twilio,
    WhatsappApp.convert_ogg_to_wav, WhatsappApp.say, WhatsappApp.send_message.
  stateless_auto.
Qed.

Lemma create_session_out uid sid s w past σ :
  AdkWebhook.create_session uid sid s w past σ
  = match session_fault w past with
    | Some e => MkOut (Raise e) [CreateSession uid sid] σ
    | None => MkOut (Ok s) [CreateSession uid sid] (<[(uid, sid) := s]> σ)
    end.
Proof. reflexivity. Qed.

Lemma get_session_out uid sid w past σ :
  AdkWebhook.get_session uid sid w past σ
  = MkOut (match session_fault w past with
           | Some e => Raise e
           | None => Ok (σ !! (uid, sid))
           end) [GetSession uid sid] σ.
Proof. reflexivity. Qed.

(** What [get_or_create_session] does to the store and which session
    calls it makes, when the session service does not fail. *)
Lemma get_or_create_out uid sid w past σ :
  let o := AdkWebhook.get_or_create_session uid sid w past σ in
  (sessions_of o = σ \/ sessions_of o = <[(uid, sid) := AdkWebhook.new_state]> σ)
  /\ ((forall tr, session_fault w tr = None) ->
        match σ !! (uid, sid) with
        | Some s => o = MkOut (Ok s) [GetSession uid sid] σ
        | None => o = MkOut (Ok AdkWebhook.new_state)
                        [GetSession uid sid; CreateSession uid sid]
                        (<[(uid, sid) := AdkWebhook.new_state]> σ)
        end).
Proof.
  cbn zeta. unfold AdkWebhook.get_or_create_session, try_except.
  rewrite bind_out, !get_session_out. cbn [res_of calls_of sessions_of].
  split.
  - destruct (session_fault w past) as [e|] eqn:F0;
      cbn [res_of calls_of sessions_of caught then_].
    + rewrite create_session_out.
      destruct (session_fault w (past ++ [GetSession uid sid]));
        cbn [res_of calls_of sessions_of];
        first [left; reflexivity | right; reflexivity].
    + destruct (σ !! (uid, sid)) as [s|]; cbn [res_of calls_of sessions_of then_ mret M_ret].
      * now left.
      * rewrite !create_session_out.
        destruct (session_fault w (past ++ [GetSession uid sid])) as [e|] eqn:F1;
          cbn [res_of calls_of sessions_of caught then_].
        -- rewrite !create_session_out, !F1. cbn [res_of calls_of sessions_of].
           match goal with
           | |- context [session_fault w ?t] => destruct (session_fault w t)
           end; cbn [res_of calls_of sessions_of];
             first [left; reflexivity | right; reflexivity].
        -- rewrite create_session_out, F1. now right.
  - intros Hok. rewrite Hok. cbn [res_of calls_of sessions_of then_].
    destruct (σ !! (uid, sid)) as [s|]; cbn [res_of calls_of sessions_of then_ mret M_ret].
    + reflexivity.
    + unfold then_. rewrite !create_session_out, !Hok.
      cbn [res_of calls_of sessions_of app]. reflexivity.
Qed.

Lemma first_response_stateless events ended : stateless (AdkWebhook.first_response events ended).
Proof.
  induction events as [|ev rest IH]; cbn [AdkWebhook.first_response]; stateless_auto.
Qed.

Lemma first_response_only P events ended :
  only P (AdkWebhook.first_response events ended).
Proof.
  induction events as [|ev rest IH]; cbn [AdkWebhook.first_response]; only_auto.
Qed.

#[export] Hint Resolve first_response_stateless : stateless.
#[export] Hint Resolve first_response_only : only.

Lemma process_message_stateless request uid sid :
  stateless (AdkWebhook.process_message request uid sid).
Proof.
  unfold AdkWebhook.process_message, AdkWebhook.reply_with, AdkWebhook.run_agent_and_collect_response,
    AdkWebhook.raise_for_status.
  stateless_auto.
Qed.

Lemma process_message_only request uid sid :
  only session_free (AdkWebhook.process_message request uid sid).
Proof.
  unfold AdkWebhook.process_message, AdkWebhook.reply_with, AdkWebhook.run_agent_and_collect_response,
    AdkWebhook.raise_for_status.
  only_auto.
Qed.

Lemma sessions_after_bind {A B} (m : M A) (f : A -> M B) w past σ :
  (forall a, stateless (f a)) ->
  sessions_of ((m ≫= f) w past σ) = sessions_of (m w past σ).
Proof.
  intros Hf. rewrite bind_out. destruct (res_of (m w past σ)) as [a|e]; [|reflexivity].
  unfold then_. cbn [sessions_of]. now rewrite (Hf a w _ _).
Qed.

Lemma adk_webhook_sessions request w past σ :
  sessions_of (AdkWebhook.twilio_webhook request w past σ)
  = sessions_of (AdkWebhook.get_or_create_session (fst (key_of request))
                   (snd (key_of request)) w past σ).
Proof.
  unfold AdkWebhook.twilio_webhook. rewrite try_except_const. cbn [sessions_of].
  unfold AdkWebhook.webhook_body. apply sessions_after_bind.
  intros _. apply process_message_stateless.
Qed.

Lemma adk_webhook_calls request w past σ :
  exists rest,
    calls_of (AdkWebhook.twilio_webhook request w past σ)
    = calls_of (AdkWebhook.get_or_create_session (fst (key_of request))
                  (snd (key_of request)) w past σ) ++ rest
    /\ Forall session_free rest.
Proof.
  unfold AdkWebhook.twilio_webhook. rewrite try_except_const. cbn [calls_of].
  unfold AdkWebhook.webhook_body. rewrite bind_out.
  destruct (res_of (AdkWebhook.get_or_create_session _ _ w past σ)) as [s|e].
  - unfold then_. cbn [calls_of]. eexists. split; [reflexivity|].
    apply process_message_only.
  - exists []. cbn [calls_of]. rewrite app_nil_r. split; [reflexivity | constructor].
Qed.




(* ===================================================================== *)
(** * Searching and replacing in strings *)
(* ===================================================================== *)

Lemma prefix_cons (c d : ascii) (s t : string) :
  String.prefix (String c s) (String d t)
  = if ascii_dec c d then String.prefix s t else false.
Proof. reflexivity. Qed.

Lemma prefix_empty (s : string) : String.prefix "" s = true.
Proof. now destruct s. Qed.

Lemma contains_cons (s : string) (d : ascii) (sub : string) :
  contains (String d s) sub = String.prefix sub (String d s) || contains s sub.
Proof. reflexivity. Qed.

Lemma contains_app_sub (pre sub rest : string) :
  contains (pre +:+ sub +:+ rest) sub = true.
Proof.
  induction pre as [|d pre IH].
  - rewrite app_empty. destruct (sub +:+ rest) eqn:E.
    + destruct sub; [reflexivity | discriminate].
    + rewrite contains_cons, <- E, prefix_app. reflexivity.
  - rewrite app_cons, contains_cons, IH. apply orb_true_r.
Qed.

(** A string without the character [c] has no occurrence of a pattern
    that starts with [c]. *)
Lemma contains_first (c : ascii) (sub s : string) :
  contains s (chr c) = false -> contains s (String c sub) = false.
Proof.
  induction s as [|d s IH]; intros H; [reflexivity|].
  rewrite contains_cons in *. apply orb_false_iff in H as [Hp Hc].
  unfold chr in Hp. rewrite prefix_cons in *.
  destruct (ascii_dec c d); [now rewrite prefix_empty in Hp|].
  now apply IH.
Qed.

Lemma contains_chr_app (c : ascii) (s t : string) :
  contains (s +:+ t) (chr c) = contains s (chr c) || contains t (chr c).
Proof.
  induction s as [|d s IH].
  - rewrite app_empty. reflexivity.
  - rewrite app_cons, !contains_cons, IH. unfold chr. rewrite !prefix_cons.
    destruct (ascii_dec c d); [now rewrite !prefix_empty|reflexivity].
Qed.

(** The first occurrence of a pattern lies right behind a prefix that
    does not have the pattern's first character. *)
Lemma find_here_first (c : ascii) (sub pre rest : string) (k : nat) :
  contains pre (chr c) = false ->
  Agent.find_here (pre +:+ String c sub +:+ rest) (String c sub) k
  = Some (k + String.length pre)%nat.
Proof.
  revert k. induction pre as [|d pre IH]; intros k H.
  - rewrite app_empty. destruct (String c sub +:+ rest) eqn:E; [discriminate|].
    cbn [Agent.find_here]. rewrite <- E, prefix_app. cbn. f_equal. lia.
  - rewrite contains_cons in H. apply orb_false_iff in H as [Hp Hc].
    unfold chr in Hp. rewrite prefix_cons in Hp.
    rewrite app_cons. cbn [Agent.find_here]. rewrite prefix_cons.
    destruct (ascii_dec c d); [now rewrite prefix_empty in Hp|].
    rewrite IH by assumption. cbn. f_equal. lia.
Qed.

Lemma find_here_none (sub s : string) (k : nat) :
  contains s sub = false -> Agent.find_here s sub k = None.
Proof.
  revert k. induction s as [|d s IH]; intros k H.
  - cbn in *. apply orb_false_iff in H as [H _]. now rewrite H.
  - rewrite contains_cons in H. apply orb_false_iff in H as [Hp Hc].
    cbn [Agent.find_here]. rewrite Hp. now apply IH.
Qed.

Lemma find_at (s sub : string) (start : nat) :
  (start <= String.length s)%nat ->
  Agent.find s sub start = Agent.find_here (slice_from start s) sub start.
Proof.
  intros H. unfold Agent.find.
  destruct (Nat.ltb_spec (String.length s) start); [lia | reflexivity].
Qed.

(** [find] from the end of a known prefix. *)
Lemma find_behind (c : ascii) (sub before pre rest : string) :
  contains pre (chr c) = false ->
  Agent.find (before +:+ pre +:+ String c sub +:+ rest) (String c sub) (String.length before)
  = Some (String.length before + String.length pre)%nat.
Proof.
  intros H. rewrite find_at by (rewrite length_app; lia).
  rewrite slice_from_app. now apply find_here_first.
Qed.

Lemma find_behind_none (sub before rest : string) :
  contains rest sub = false ->
  Agent.find (before +:+ rest) sub (String.length before) = None.
Proof.
  intros H. rewrite find_at by (rewrite length_app; lia).
  rewrite slice_from_app. now apply find_here_none.
Qed.

Lemma replace_chr_gone (c : ascii) (new s : string) :
  contains new (chr c) = false ->
  contains (replace_from 0 (chr c) new s) (chr c) = false.
Proof.
  intros Hnew. induction s as [|d s IH]; [reflexivity|].
  cbn [replace_from]. unfold chr at 1. rewrite prefix_cons.
  destruct (ascii_dec c d).
  - rewrite prefix_empty. cbn [String.length Nat.pred].
    rewrite contains_chr_app, Hnew. exact IH.
  - rewrite contains_cons. unfold chr at 1. rewrite prefix_cons.
    destruct (ascii_dec c d); [contradiction|]. exact IH.
Qed.

Lemma replace_chr_absent (c d : ascii) (new s : string) :
  contains new (chr d) = false -> contains s (chr d) = false ->
  contains (replace_from 0 (chr c) new s) (chr d) = false.
Proof.
  intros Hnew. induction s as [|e s IH]; intros H; [reflexivity|].
  rewrite contains_cons in H. apply orb_false_iff in H as [Hp Hc].
  cbn [replace_from]. destruct (String.prefix (chr c) (String e s)).
  - cbn [chr String.length Nat.pred]. rewrite contains_chr_app, Hnew. now apply IH.
  - rewrite contains_cons. unfold chr in Hp |- *. rewrite prefix_cons in *.
    destruct (ascii_dec d e); [now rewrite prefix_empty in Hp|]. now apply IH.
Qed.

Lemma replace_behind (c : ascii) (sub new pre rest : string) :
  contains pre (chr c) = false ->
  replace_from 0 (String c sub) new (pre +:+ rest)
  = pre +:+ replace_from 0 (String c sub) new rest.
Proof.
  induction pre as [|d pre IH]; intros H; [reflexivity|].
  rewrite contains_cons in H. apply orb_false_iff in H as [Hp Hc].
  unfold chr in Hp. rewrite prefix_cons in Hp.
  rewrite !app_cons. cbn [replace_from]. rewrite prefix_cons.
  destruct (ascii_dec c d); [now rewrite prefix_empty in Hp|].
  now rewrite IH.
Qed.

Lemma map_chars_app (f : ascii -> ascii) (s t : string) :
  map_chars f (s +:+ t) = map_chars f s +:+ map_chars f t.
Proof.
  induction s as [|c s IH]; [reflexivity|].
  rewrite app_cons. cbn [map_chars]. now rewrite IH, app_cons.
Qed.

(* ===================================================================== *)
(** * The media reference of the command line (src/main.py 124-138) *)
(* ===================================================================== *)



(** X2.  An opening bracket that is never closed behind it leaves the
    command-line input as it is: when no closing bracket follows the
    first opening one (one before it does not count), the input goes on
    unchanged, brackets included, and no image or audio path is set. *)
Theorem X2_parse_media_unclosed (pre rest : string) :
  contains pre "[" = false ->
  contains rest "]" = false ->
  Cli.parse_media (pre +:+ "[" +:+ rest) = Cli.Parsed (pre +:+ "[" +:+ rest) None None.
Proof.
  intros Hpre Hrest. unfold Cli.parse_media.
  destruct (contains (pre +:+ "[" +:+ rest) "[" && contains (pre +:+ "[" +:+ rest) "]");
    [|reflexivity].
  assert (Hstart : Agent.find (pre +:+ "[" +:+ rest) "[" 0 = Some (String.length pre)).
  { exact (find_behind "[" "" "" pre rest Hpre). }
  rewrite Hstart.
  assert (Hend : Agent.find (pre +:+ "[" +:+ rest) "]" (String.length pre) = None).
  { apply find_behind_none. rewrite app_cons, app_empty, contains_cons. now rewrite Hrest. }
  now rewrite Hend.
Qed.

Lemma X2_parse_media_unclosed_witness :
  contains "a] b " "[" = false
  /\ contains "c.jpg" "]" = false
  /\ Cli.parse_media "a] b [c.jpg" = Cli.Parsed "a] b [c.jpg" None None.
Proof.
  split; [reflexivity|]. split; [reflexivity|].
  exact (X2_parse_media_unclosed "a] b " "c.jpg" eq_refl eq_refl).
Defined.

(* ===================================================================== *)
(** * The JSON fence of the model's answer (src/agent.py 117-123) *)
(* ===================================================================== *)



(** X4.  When the json fence of the model's response is never closed,
    [analyze_stitching] hands the whole response to [json.loads], the
    text before the fence and the fence itself included.  (Stated for a
    response without backticks outside its opening fence.) *)
Theorem X4_json_text_unclosed (pre body : string) :
  contains pre (chr backtick) = false ->
  contains body (chr backtick) = false ->
  Agent.json_text (pre +:+ Agent.json_fence +:+ body) = pre +:+ Agent.json_fence +:+ body.
Proof.
  intros Hpre Hbody. unfold Agent.json_text.
  destruct (contains (pre +:+ Agent.json_fence +:+ body) Agent.json_fence); [|reflexivity].
  assert (Hstart : Agent.find (pre +:+ Agent.json_fence +:+ body) Agent.json_fence 0
                   = Some (String.length pre)).
  { exact (find_behind backtick "``json" "" pre body Hpre). }
  rewrite Hstart.
  assert (Hend : Agent.find (pre +:+ Agent.json_fence +:+ body) Agent.fence
                   (String.length pre + 7) = None).
  { replace (pre +:+ Agent.json_fence +:+ body) with ((pre +:+ Agent.json_fence) +:+ body)
      by now rewrite !app_assoc_str.
    replace (String.length pre + 7)%nat with (String.length (pre +:+ Agent.json_fence))
      by (rewrite length_app; reflexivity).
    apply find_behind_none. now apply (contains_first backtick "``"). }
  now rewrite Hend.
Qed.

Lemma X4_json_text_unclosed_witness :
  contains "" (chr backtick) = false
  /\ contains (nl +:+ "{}") (chr backtick) = false
  /\ Agent.json_text (Agent.json_fence +:+ nl +:+ "{}") = Agent.json_fence +:+ nl +:+ "{}".
Proof.
  split; [reflexivity|]. split; [reflexivity|].
  exact (X4_json_text_unclosed "" (nl +:+ "{}") eq_refl eq_refl).
Defined.

(* ===================================================================== *)
(** * Names made from other names
      (src/agents/master_agent.py 58, src/whatsapp_app.py 96-125) *)
(* ===================================================================== *)

(** X5.  The session id the ADK webhook makes from a sender's number
    starts with [twilio_] and holds neither a colon nor a plus sign,
    whatever the number is. *)
Theorem X5_session_id_plain (sender_number : string) :
  startswith (AdkWebhook.session_id_of sender_number) "twilio_" = true
  /\ contains (AdkWebhook.session_id_of sender_number) ":" = false
  /\ contains (AdkWebhook.session_id_of sender_number) "+" = false.
Proof.
  unfold AdkWebhook.session_id_of, replace.
  split; [apply prefix_app|].
  split.
  - rewrite (contains_chr_app ":"). apply orb_false_iff. split; [reflexivity|].
    apply (replace_chr_absent "+" ":" ""); [reflexivity|].
    now apply (replace_chr_gone ":" "_").
  - rewrite (contains_chr_app "+"). apply orb_false_iff. split; [reflexivity|].
    now apply (replace_chr_gone "+" "").
Qed.

(** X6.  [convert_ogg_to_wav] on a path [stem.ogg] whose stem has no
    dot: when it returns, it returns [stem.wav], having loaded the ogg
    file and then exported to [stem.wav], and made no other call. *)
Theorem X6_convert_ogg_to_wav_path (stem p : string) (w : World) (past : trace) (σ : store) :
  contains stem "." = false ->
  res_of (WhatsappApp.convert_ogg_to_wav (stem +:+ ".ogg") w past σ) = Ok p ->
  p = stem +:+ ".wav"
  /\ calls_of (WhatsappApp.convert_ogg_to_wav (stem +:+ ".ogg") w past σ)
     = [FromOgg (stem +:+ ".ogg"); AudioExport (stem +:+ ".wav")].
Proof.
  intros Hstem. unfold WhatsappApp.convert_ogg_to_wav.
  assert (Hpath : replace (stem +:+ ".ogg") ".ogg" ".wav" = stem +:+ ".wav").
  { unfold replace. now rewrite (replace_behind "." "ogg" ".wav" stem ".ogg" Hstem). }
  rewrite Hpath. norm.
  destruct (from_ogg w past (stem +:+ ".ogg")); [|discriminate].
  norm. destruct (audio_export w _ (stem +:+ ".wav")); [|discriminate].
  norm. intros [= <-]. split; reflexivity.
Qed.

Lemma X6_convert_ogg_to_wav_path_witness :
  contains "/tmp/voice" "." = false
  /\ res_of (WhatsappApp.convert_ogg_to_wav "/tmp/voice.ogg" (Samples.world "" []) [] ∅)
     = Ok "/tmp/voice.wav"
  /\ calls_of (WhatsappApp.convert_ogg_to_wav "/tmp/voice.ogg" (Samples.world "" []) [] ∅)
     = [FromOgg "/tmp/voice.ogg"; AudioExport "/tmp/voice.wav"].
Proof.
  split; [reflexivity|]. split; [reflexivity|].
  exact (proj2 (X6_convert_ogg_to_wav_path "/tmp/voice" "/tmp/voice.wav"
                  (Samples.world "" []) [] ∅ eq_refl eq_refl)).
Defined.

(* ===================================================================== *)
(** * Rating bands (src/agent.py 329-341, 378-406) *)
(* ===================================================================== *)

Ltac bands :=
  unfold Agent.in_py_range;
  repeat match goal with
         | |- context [(?a <=? ?b)] => destruct (Z.leb_spec a b)
         | |- context [(?a <? ?b)] => destruct (Z.ltb_spec a b)
         end;
  cbn [andb default from_option id];
  try lia; try reflexivity; split; intros; try lia; try discriminate; try congruence.

(** X7.  The rating tables of src/agent.py cover the ratings 1 to 10
    and nothing else: [_get_professional_feedback] answers its fallback
    sentence exactly for the ratings outside 1..10, and so does
    [_get_professional_feedback_short].  The emoji of the report has no
    look of its own for those ratings: a rating outside 1..10 is shown
    with the emoji of the ratings 5 and 6. *)
Theorem X7_feedback_bands (rating : Z) :
  (1 <= rating <= 10
   <-> AgentRest._get_professional_feedback rating
       <> "Continue practicing to develop your skills!")
  /\ (1 <= rating <= 10
      <-> Agent._get_professional_feedback_short rating <> "Keep practicing!")
  /\ Agent.emoji_of rating
     = Agent.emoji_of (if (1 <=? rating) && (rating <=? 10) then rating else 5).
Proof.
  unfold AgentRest._get_professional_feedback, AgentRest.feedback_map,
    Agent._get_professional_feedback_short, Agent.emoji_of, Agent.rating_emoji,
    Agent.default_emoji.
  cbn [Agent.first_in_range].
  split; [|split]; [bands | bands |].
  destruct (Z.leb_spec 1 rating), (Z.leb_spec rating 10); cbn [andb]; try reflexivity;
    unfold Agent.in_py_range;
    repeat match goal with
           | |- context [(?a <=? ?b)] => destruct (Z.leb_spec a b); try lia
           | |- context [(?a <? ?b)] => destruct (Z.ltb_spec a b); try lia
           end; reflexivity.
Qed.

(* ===================================================================== *)
(** * Text messages (src/agent.py 250-281) *)
(* ===================================================================== *)

(** X8.  [handle_text_message] of src/agent.py looks for its greeting
    words as substrings and without regard to case: a text in which one
    of hi, hello, start and help occurs anywhere, in any mix of upper
    and lower case, also inside a longer word, is answered with the
    welcome message, and with that message alone. *)
Theorem X8_text_message_greeting (agent : Agent.MultimodalStitchingAgent)
    (phone_number before word after : string) (w : World) (past : trace) (σ : store) :
  In (lower word) Agent.greetings ->
  calls_of (Agent.handle_text_message agent phone_number (before +:+ word +:+ after) w past σ)
  = [MessagesCreate (Agent.from_number (Agent.twilio_api agent)) Agent.welcome_msg
                    (Agent.with_prefix phone_number)].
Proof.
  intros Hin. unfold Agent.handle_text_message.
  assert (Hg : existsb (contains (lower (before +:+ word +:+ after))) Agent.greetings = true).
  { apply existsb_exists. exists (lower word). split; [exact Hin|].
    unfold lower. rewrite !map_chars_app. apply contains_app_sub. }
  rewrite Hg. rewrite bind_then_ret. cbn [calls_of]. send_step. reflexivity.
Qed.

Lemma X8_text_message_greeting_witness :
  In (lower "HI") Agent.greetings
  /\ calls_of (Agent.handle_text_message Samples.agent "+447700900123" "WHICH thread?"
                 (Samples.world "" []) [] ∅)
     = [MessagesCreate (Some "whatsapp:+14155238886") Agent.welcome_msg
                       "whatsapp:+447700900123"].
Proof.
  split; [now left|].
  exact (X8_text_message_greeting Samples.agent "+447700900123" "W" "HI" "CH thread?"
           (Samples.world "" []) [] ∅ (or_introl eq_refl)).
Defined.

(* ===================================================================== *)
(** * Image messages (src/agent.py 283-325) *)
(* ===================================================================== *)

Lemma analyze_stitching_total prompt image w past σ :
  exists a cs, Agent.analyze_stitching prompt image w past σ = MkOut (Ok a) cs σ.
Proof.
  rewrite analyze_stitching_out. destruct (image_open w image); eauto.
Qed.

Section AgentImageMessage.
Context (agent : Agent.MultimodalStitchingAgent) (phone_number media_url : string).
Context (w : World) (past : trace) (σ : store).

Let from_ := Agent.from_number (Agent.twilio_api agent).
Let to := Agent.with_prefix phone_number.
Let notice := MessagesCreate from_ Agent.analyzing_notice to.
Let fetched := [notice; RequestsGet media_url].

(** What the handler sends when its [try] block raises [e] after the
    calls [cs]. *)
Lemma image_message_caught (body : M unit) (e : exn) (cs : trace) :
  body w past σ = MkOut (Raise e) cs σ ->
  try_except body None
    (fun e => _ ← Agent.send_message (Agent.twilio_api agent) phone_number
                    ("âŒ Error analyzing your stitching: " +:+ exn_msg e +:+ ". Please try again.");
              mret tt) w past σ
  = MkOut (Ok tt)
      (cs ++ [MessagesCreate from_ ("âŒ Error analyzing your stitching: " +:+ exn_msg e +:+ ". Please try again.") to]) σ.
Proof.
  intros H. unfold try_except. rewrite H. cbn [res_of calls_of sessions_of caught].
  unfold then_. rewrite bind_then_ret. send_step. reflexivity.
Qed.

Lemma image_message_done (body : M unit) (cs : trace) :
  body w past σ = MkOut (Ok tt) cs σ ->
  try_except body None
    (fun e => _ ← Agent.send_message (Agent.twilio_api agent) phone_number
                    ("âŒ Error analyzing your stitching: " +:+ exn_msg e +:+ ". Please try again.");
              mret tt) w past σ
  = MkOut (Ok tt) cs σ.
Proof. intros H. unfold try_except. now rewrite H. Qed.

(** The [try] block up to the analysis. *)
Lemma image_message_analysed (response : http_response) (a : analysis) (k : analysis -> M unit) :
  requests_get w (past ++ [notice]) media_url = Ok response ->
  status_code response = 200 ->
  res_of (Agent.analyze_stitching (Agent.expert_prompt agent) (content response)
            w (past ++ fetched) σ) = Ok a ->
  let analysed :=
    calls_of (Agent.analyze_stitching (Agent.expert_prompt agent) (content response)
                w (past ++ fetched) σ) in
  (_ ← Agent.send_message (Agent.twilio_api agent) phone_number Agent.analyzing_notice;
   response ← ext (RequestsGet media_url) (fun w tr => requests_get w tr media_url);
   if negb (status_code response =? 200) then
     _ ← Agent.send_message (Agent.twilio_api agent) phone_number "âŒ Sorry, I couldn't download your image. Please try again.";
     mret tt
   else
     analysis ← Agent.analyze_stitching (Agent.expert_prompt agent) (content response);
     k analysis) w past σ
  = MkOut (res_of (k a w (past ++ fetched ++ analysed) σ))
          (fetched ++ analysed ++ calls_of (k a w (past ++ fetched ++ analysed) σ))
          (sessions_of (k a w (past ++ fetched ++ analysed) σ)).
Proof.
  intros Hget Hstatus Han analysed. subst analysed.
  rewrite bind_out. send_step. unfold then_. cbn [res_of calls_of sessions_of].
  rewrite bind_out. cbn [ext res_of calls_of sessions_of].
  fold from_ to notice. rewrite Hget. unfold then_. cbn [res_of calls_of sessions_of].
  rewrite Hstatus. cbn [Z.eqb Pos.eqb negb].
  rewrite bind_out. cbn [ext res_of calls_of sessions_of].
  rewrite <- (app_assoc past [notice] [RequestsGet media_url]). cbn [app]. fold fetched.
  destruct (analyze_stitching_total (Agent.expert_prompt agent) (content response)
              w (past ++ fetched) σ) as (a' & cs & Heq).
  rewrite Heq in Han |- *. cbn [res_of calls_of sessions_of] in Han |- *.
  injection Han as ->. unfold then_. cbn [res_of calls_of sessions_of].
  rewrite <- !app_assoc. reflexivity.
Qed.

(** X9.  When the download of the image answers with a status other
    than 200, [handle_twilio_image_message] makes exactly three calls:
    the notice that the analysis starts, the download, and the message
    that the image could not be downloaded.  The image is not opened
    and the model is not asked; the handler returns normally. *)
Theorem X9_image_download_refused (response : http_response) :
  requests_get w (past ++ [notice]) media_url = Ok response ->
  status_code response <> 200 ->
  Agent.handle_twilio_image_message agent phone_number media_url w past σ
  = MkOut (Ok tt)
      [notice; RequestsGet media_url;
       MessagesCreate from_ "âŒ Sorry, I couldn't download your image. Please try again." to] σ.
Proof.
  intros Hget Hstatus. unfold Agent.handle_twilio_image_message.
  apply image_message_done.
  rewrite bind_out. send_step. unfold then_. cbn [res_of calls_of sessions_of].
  rewrite bind_out. cbn [ext res_of calls_of sessions_of].
  fold from_ to notice. rewrite Hget. unfold then_. cbn [res_of calls_of sessions_of].
  destruct (Z.eqb_spec (status_code response) 200) as [|_]; [contradiction|].
  cbn [negb]. rewrite bind_then_ret. send_step. reflexivity.
Qed.

(** X10.  When the analysis of a downloaded image has no
    [quality_rating], [handle_twilio_image_message] sends no report:
    after the notice, the download and the calls of the analysis, its
    one further call is the error message, which quotes the missing
    key as ['quality_rating'].  The handler returns normally. *)
Theorem X10_image_unrated (response : http_response) (a : analysis) :
  requests_get w (past ++ [notice]) media_url = Ok response ->
  status_code response = 200 ->
  res_of (Agent.analyze_stitching (Agent.expert_prompt agent) (content response)
            w (past ++ fetched) σ) = Ok a ->
  an_quality_rating a = None ->
  Agent.handle_twilio_image_message agent phone_number media_url w past σ
  = MkOut (Ok tt)
      (fetched
       ++ calls_of (Agent.analyze_stitching (Agent.expert_prompt agent) (content response)
                      w (past ++ fetched) σ)
       ++ [MessagesCreate from_ ("âŒ Error analyzing your stitching: " +:+ "'quality_rating'" +:+ ". Please try again.") to]) σ.
Proof.
  intros Hget Hstatus Han Hq. unfold Agent.handle_twilio_image_message.
  rewrite app_assoc.
  apply (image_message_caught _ (Exn OtherError "'quality_rating'")).
  rewrite (image_message_analysed response a _ Hget Hstatus Han).
  rewrite Hq. cbn [Agent.item]. rewrite bind_out.
  cbn [raise res_of calls_of sessions_of]. now rewrite !app_nil_r.
Qed.


End AgentImageMessage.

Lemma X9_image_download_refused_witness :
  requests_get Samples.offline
    [MessagesCreate (Some "whatsapp:+14155238886") Agent.analyzing_notice
                    "whatsapp:+447700900123"]
    "https://api.twilio.com/m/1" = Ok (HttpResponse 404 "")
  /\ Agent.handle_twilio_image_message Samples.agent "+447700900123"
       "https://api.twilio.com/m/1" Samples.offline [] ∅
     = MkOut (Ok tt)
         [MessagesCreate (Some "whatsapp:+14155238886") Agent.analyzing_notice
                         "whatsapp:+447700900123";
          RequestsGet "https://api.twilio.com/m/1";
          MessagesCreate (Some "whatsapp:+14155238886")
            "âŒ Sorry, I couldn't download your image. Please try again." "whatsapp:+447700900123"] ∅.
Proof.
  split; [reflexivity|].
  apply (X9_image_download_refused Samples.agent "+447700900123"
           "https://api.twilio.com/m/1" Samples.offline [] ∅ (HttpResponse 404 ""));
    [reflexivity | cbn; lia].
Defined.

Lemma X10_image_unrated_witness :
  res_of (Agent.analyze_stitching "You are a tailor." "jpeg" (Cases.decoding Cases.unrated)
            [MessagesCreate (Some "whatsapp:+14155238886") Agent.analyzing_notice
                            "whatsapp:+447700900123";
             RequestsGet "https://api.twilio.com/m/1"] ∅) = Ok Cases.unrated
  /\ calls_of (Agent.handle_twilio_image_message Samples.agent "+447700900123"
                 "https://api.twilio.com/m/1" (Cases.decoding Cases.unrated) [] ∅)
     = [MessagesCreate (Some "whatsapp:+14155238886") Agent.analyzing_notice
                       "whatsapp:+447700900123";
        RequestsGet "https://api.twilio.com/m/1";
        ImageOpen "jpeg";
        GenerateContent "You are a tailor." "jpeg";
        MessagesCreate (Some "whatsapp:+14155238886")
          ("âŒ Error analyzing your stitching: " +:+ "'quality_rating'" +:+ ". Please try again.") "whatsapp:+447700900123"].
Proof.
  split; [reflexivity|].
  rewrite (X10_image_unrated Samples.agent "+447700900123" "https://api.twilio.com/m/1"
             (Cases.decoding Cases.unrated) [] ∅ (HttpResponse 200 "jpeg") Cases.unrated
             eq_refl eq_refl eq_refl eq_refl).
  reflexivity.
Defined.


(* ===================================================================== *)
(** * The stitching sub-agent
      (src/agents/sub_agents/stitching_assessor_agent.py 42-82, 122-203) *)
(* ===================================================================== *)

Lemma validate_image_data_out data w past σ :
  StitchingAssessor.validate_image_data data w past σ
  = if String.eqb data "" then MkOut (Ok (Some "No image data provided")) [] σ
    else MkOut (Ok match image_open w data with
                   | Ok _ => None
                   | Raise e => Some (exn_msg e)
                   end) [ImageOpen data] σ.
Proof.
  unfold StitchingAssessor.validate_image_data, try_except.
  destruct (String.eqb data ""); [reflexivity|].
  rewrite bind_then_ret. cbn [ext res_of calls_of sessions_of].
  destruct (image_open w data); cbn [res_of caught then_ calls_of sessions_of mret M_ret];
    now rewrite ?app_nil_r.
Qed.

(** The result of [execute] when the task context has no image path. *)
Lemma execute_pathless_result image_data ctx w past σ :
  some_text (tc_image_path ctx) = None ->
  res_of (StitchingAssessor.execute image_data ctx w past σ)
  = Ok (if String.eqb image_data "" then Error "No image data provided"
        else match image_open w image_data with
             | Ok _ => Success (StitchingAssessor._simulate_basic_assessment ctx)
             | Raise e => Error ("Invalid image: " +:+ exn_msg e)
             end).
Proof.
  intros Hpath. unfold StitchingAssessor.execute, try_except. rewrite Hpath.
  destruct (String.eqb image_data "") eqn:Hempty; [reflexivity|].
  rewrite bind_out, validate_image_data_out, Hempty.
  cbn [res_of calls_of sessions_of]. unfold then_.
  destruct (image_open w image_data); reflexivity.
Qed.



(** X13.  [StitchingAssessorAgent.execute] always returns, and what a
    successful assessment says does not depend on the image: its
    [pass_fail_raw] is [Pass] exactly when the role of the task context
    is the string [Tailor] or is absent, and [Fail] otherwise, and its
    rating is 7 when the context carries an image path and 6 when it
    does not. *)
Theorem X13_execute_verdict (image_data : bytes) (ctx : task_context)
    (w : World) (past : trace) (σ : store) :
  exists reply,
    res_of (StitchingAssessor.execute image_data ctx w past σ) = Ok reply
    /\ forall d, reply = Success d ->
         (ad_pass_fail_raw d = "Pass" <-> default "Tailor" (tc_role ctx) = "Tailor")
         /\ (ad_pass_fail_raw d = "Fail" <-> default "Tailor" (tc_role ctx) <> "Tailor")
         /\ (ad_quality_rating d
             = match some_text (tc_image_path ctx) with Some _ => 7 | None => 6 end).
Proof.
  assert (Hrole : forall d,
    d = StitchingAssessor._simulate_basic_assessment ctx
    \/ (exists p, d = StitchingAssessor._simulate_enhanced_assessment ctx p) ->
    (ad_pass_fail_raw d = "Pass" <-> default "Tailor" (tc_role ctx) = "Tailor")
    /\ (ad_pass_fail_raw d = "Fail" <-> default "Tailor" (tc_role ctx) <> "Tailor")).
  { intros d [-> | [p ->]]; cbn;
      destruct (String.eqb_spec (default "Tailor" (tc_role ctx)) "Tailor");
      (split; split; intros; congruence). }
  destruct (some_text (tc_image_path ctx)) as [p|] eqn:Hpath.
  - unfold StitchingAssessor.execute, try_except. rewrite Hpath.
    cbn [mret M_ret res_of]. eexists; split; [reflexivity|].
    intros d [= <-]. destruct (Hrole (StitchingAssessor._simulate_enhanced_assessment ctx p))
      as [H1 H2]; eauto.
  - rewrite execute_pathless_result by assumption. eexists; split; [reflexivity|].
    destruct (String.eqb image_data ""); [discriminate|].
    destruct (image_open w image_data); intros d [= <-].
    destruct (Hrole (StitchingAssessor._simulate_basic_assessment ctx)) as [H1 H2]; eauto.
Qed.

(* ===================================================================== *)
(** * Running an instruction (src/main.py 31-58) *)
(* ===================================================================== *)

Lemma execute_returns data ctx w past σ :
  exists reply, res_of (StitchingAssessor.execute data ctx w past σ) = Ok reply.
Proof.
  destruct (some_text (tc_image_path ctx)) as [p|] eqn:Hpath.
  - unfold StitchingAssessor.execute, try_except. rewrite Hpath. cbn. eauto.
  - rewrite execute_pathless_result by assumption. eauto.
Qed.

Ltac run_ :=
  repeat (progress (rewrite ?bind_out, ?print_out; unfold then_;
                    cbn [res_of calls_of sessions_of ext raise mret M_ret caught app])).

Ltac executed_ :=
  match goal with
  | |- context [StitchingAssessor.execute ?b ?c ?w ?p ?s] =>
      let reply := fresh "reply" in
      let H := fresh "Hreply" in
      destruct (execute_returns b c w p s) as (reply & H);
      rewrite H; cbn [res_of]; rewrite ?H
  end.

Section Instruction.
Context (instr : instruction) (image_data : option bytes).
Context (w : World) (past : trace) (σ : store).

Let ctx := Main.context_of instr.
Let asked :=
  [ ExecuteSubAgent instr image_data;
    Print (nl +:+ "📸 Please provide an image for the '" +:+ default "Unknown" (tc_skill_to_assess ctx) +:+ "' assessment.");
    Print "   (Using default test image...)" ].


(** X15.  When an instruction for an agent of the library comes without
    image data and the default test image is not found,
    [execute_sub_agent_instruction] returns an error result whose
    message is [Image file not found: ] followed by the exception's
    text.  It has entered the instruction, printed its two lines and
    tried to open the file; the sub-agent is not run. *)
Theorem X15_instruction_missing_file (e : exn) :
  Main.in_library (in_agent_name instr) = true ->
  some_text image_data = None ->
  open_read w (past ++ asked) "test_stitch.jpg" = Raise e ->
  is_a (exn_cls e) FileNotFoundError = true ->
  Main.execute_sub_agent_instruction instr image_data w past σ
  = MkOut (Ok (Error ("Image file not found: " +:+ exn_msg e)))
          (asked ++ [OpenRead "test_stitch.jpg"]) σ.
Proof.
  intros Hlib Himg Hopen Hcls.
  unfold Main.execute_sub_agent_instruction. run_. fold ctx.
  rewrite Hlib, Himg. cbn [negb]. unfold try_except.
  run_. rewrite <- !app_assoc. cbn [app]. fold asked. rewrite Hopen.
  cbn [res_of calls_of sessions_of caught]. rewrite Hcls.
  run_. reflexivity.
Qed.

End Instruction.


Lemma X15_instruction_missing_file_witness :
  is_a FileNotFoundError FileNotFoundError = true
  /\ res_of (Main.execute_sub_agent_instruction Samples.tailor_step None
               (Cases.unreadable FileNotFoundError) [] ∅)
     = Ok (Error "Image file not found: [Errno] cannot open: 'test_stitch.jpg'").
Proof.
  split; [reflexivity|].
  rewrite (X15_instruction_missing_file Samples.tailor_step None
             (Cases.unreadable FileNotFoundError) [] ∅
             (Exn FileNotFoundError "[Errno] cannot open: 'test_stitch.jpg'")
             eq_refl eq_refl eq_refl eq_refl).
  reflexivity.
Defined.

(* ===================================================================== *)
(** * The handlers of src/whatsapp_app.py (274-371) *)
(* ===================================================================== *)

Lemma relay_plan_quiet api phone announce default_response p w past σ :
  res_of (WhatsappApp.relay_plan api phone announce default_response p w past σ) = Ok tt
  /\ plan_calls (calls_of (WhatsappApp.relay_plan api phone announce default_response p
                             w past σ)) = [].
Proof.
  unfold WhatsappApp.relay_plan. norm.
  destruct (default [] (pl_sub_agent_instructions p)) as [|first rest].
  - norm. proj. now split.
  - match goal with |- context [WhatsappApp._execute_sub_agents_and_respond ?a ?b ?c ?d ?e ?f] =>
      destruct (wa_pipeline a b c d e f) as (Hres & Hplan & _) end.
    proj. rewrite Hplan. now split.
Qed.

(** X16.  [handle_text_message] of src/whatsapp_app.py never raises.
    Its first call asks the master agent for a plan, with the text as
    the query and neither image nor audio, and it asks for no other
    plan, whatever the plan holds and whatever fails later. *)
Theorem X16_text_plan_query (api : WhatsappApp.TwilioWhatsAppAPI) (phone_number text : string)
    (w : World) (past : trace) (σ : store) :
  let o := WhatsappApp.handle_text_message api phone_number text w past σ in
  res_of o = Ok tt
  /\ head (calls_of o) = Some (GetPlan (Some text) None None)
  /\ plan_calls (calls_of o) = [(Some text, None, None)].
Proof.
  cbn zeta. unfold WhatsappApp.handle_text_message, try_except. norm.
  destruct (get_plan w past (Some text) None None) as [p|e]; norm.
  - match goal with |- context [WhatsappApp.relay_plan ?a ?b ?c ?d ?e ?f ?g ?h] =>
      destruct (relay_plan_quiet a b c d e f g h) as (Hres & Hplan) end.
    rewrite Hres. cbn [res_of calls_of sessions_of]. proj. rewrite Hplan. auto.
  - proj. auto.
Qed.

Section WhatsappImageMessage.
Context (api : WhatsappApp.TwilioWhatsAppAPI) (phone_number media_url caption : string).
Context (w : World) (past : trace) (σ : store).

Let from_ := Some (Agent.with_prefix (WhatsappApp.from_number api)).
Let to := Agent.with_prefix phone_number.
Let notice := MessagesCreate from_ "ğŸ“¥ Downloading your image..." to.


End WhatsappImageMessage.


(* ===================================================================== *)
(** * Voice messages and their temporary files
      (src/whatsapp_app.py 62-135, 294-332) *)
(* ===================================================================== *)

Lemma cleanup_temp_file_only (p : option string) :
  only is_cleanup (WhatsappApp.cleanup_temp_file p).
Proof. unfold WhatsappApp.cleanup_temp_file. only_auto. Qed.

Lemma cleanup_temp_files_only (paths : list (option string)) :
  only is_cleanup (WhatsappApp.cleanup_temp_files paths).
Proof.
  unfold WhatsappApp.cleanup_temp_files.
  apply only_bind; [|intros; apply only_ret].
  apply only_for_each. exact cleanup_temp_file_only.
Qed.

Lemma cleanup_named (p : string) w past σ :
  truthy p = true ->
  exists r tail,
    WhatsappApp.cleanup_temp_file (Some p) w past σ = MkOut r (PathExists p :: tail) σ
    /\ (path_exists w past p = true -> head tail = Some (Unlink p)).
Proof.
  intros Hp. unfold WhatsappApp.cleanup_temp_file, some_text, try_except. rewrite Hp. norm.
  destruct (path_exists w past p); norm.
  - destruct (unlink w (past ++ [PathExists p]) p) as [[]|e]; norm.
    + eauto.
    + destruct (is_a (exn_cls e) OSError); norm; eauto.
  - eexists _, []. split; [reflexivity | discriminate].
Qed.

(** The clean-up of a named file starts with the check that it is
    there, and removes it when it is. *)
Lemma cleanup_temp_files_head (p : string) (rest : list (option string)) w past σ :
  truthy p = true ->
  exists after,
    calls_of (WhatsappApp.cleanup_temp_files (Some p :: rest) w past σ)
    = PathExists p :: after
    /\ Forall is_cleanup after
    /\ (path_exists w past p = true -> head after = Some (Unlink p)).
Proof.
  intros Hp.
  pose proof (cleanup_temp_files_only (Some p :: rest) w past σ) as Hall.
  destruct (cleanup_named p w past σ Hp) as (r & tail & Hfile & Hunlink).
  assert (Hc : exists more,
    calls_of (WhatsappApp.cleanup_temp_files (Some p :: rest) w past σ)
    = PathExists p :: tail ++ more).
  { unfold WhatsappApp.cleanup_temp_files. cbn [for_each].
    rewrite bind_then_ret. cbn [calls_of]. rewrite bind_out, Hfile.
    cbn [res_of calls_of sessions_of]. destruct r as [[]|e].
    - unfold then_. cbn [calls_of app]. eauto.
    - exists []. now rewrite app_nil_r. }
  destruct Hc as [more Hc]. rewrite Hc in Hall |- *.
  exists (tail ++ more). split; [reflexivity|]. split; [now inversion Hall|].
  intros Hex. specialize (Hunlink Hex). destruct tail; [discriminate | exact Hunlink].
Qed.

Lemma attempt_out {A} (m : M A) w past σ :
  attempt m w past σ
  = MkOut (Ok (res_of (m w past σ))) (calls_of (m w past σ)) (sessions_of (m w past σ)).
Proof. reflexivity. Qed.

Section VoiceMessage.
Context (api : WhatsappApp.TwilioWhatsAppAPI) (phone_number media_url : string).
Context (w : World) (past : trace) (σ : store).

Let from_ := Some (Agent.with_prefix (WhatsappApp.from_number api)).
Let to := Agent.with_prefix phone_number.
Let notice := MessagesCreate from_ "ğŸ¤ Processing your voice message with native audio analysis..." to.

Lemma voice_try_returns :
  exists paths ended,
    res_of (WhatsappApp.voice_try api phone_number media_url w past σ) = Ok (paths, ended).
Proof.
  unfold WhatsappApp.voice_try. rewrite bind_out, attempt_out.
  cbn [res_of calls_of sessions_of]. unfold then_ at 1. cbn [res_of calls_of sessions_of].
  match goal with |- context [match res_of ?d with _ => _ end] => destruct (res_of d) end;
    [|cbn; eauto].
  rewrite bind_out, attempt_out.
  cbn [res_of calls_of sessions_of]. unfold then_ at 1. cbn [res_of calls_of sessions_of].
  match goal with |- context [match res_of ?d with _ => _ end] => destruct (res_of d) end;
    [|cbn; eauto].
  rewrite bind_out, attempt_out. cbn. eauto.
Qed.

(** X18.  When the download of a voice note answers with a status
    other than 200, [handle_voice_message] makes exactly three calls:
    its notice, the download, and the error message, which quotes
    [Failed to download audio. Status: ] and the status.  No temporary
    file is written, nothing is converted, the master agent is not
    asked, and the clean-up has no file to look for. *)
Theorem X18_voice_download_refused (response : http_response) :
  requests_get w (past ++ [notice]) media_url = Ok response ->
  status_code response <> 200 ->
  WhatsappApp.handle_voice_message api phone_number media_url w past σ
  = MkOut (Ok tt)
      [notice; RequestsGet media_url;
       MessagesCreate from_
         ("âŒ An error occurred with native audio analysis: " +:+ "Failed to download audio. Status: "
          +:+ of_Z (status_code response) +:+ ". Please try again.") to] σ.
Proof.
  intros Hget Hstatus.
  unfold WhatsappApp.handle_voice_message, WhatsappApp.voice_try,
    WhatsappApp.download_audio_from_twilio.
  rewrite !bind_out, !attempt_out. norm. fold from_ to notice. rewrite Hget. norm.
  destruct (Z.eqb_spec (status_code response) 200) as [|_]; [contradiction|].
  cbn [negb]. norm. unfold try_finally. cbn [snd fst]. norm.
  unfold WhatsappApp.cleanup_temp_files, WhatsappApp.cleanup_temp_file, try_except.
  cbn [for_each some_text]. norm. unfold WhatsappApp.voice_error. cbn [exn_msg].
  reflexivity.
Qed.

(** X19.  Once the voice note is downloaded to a temporary file, that
    file is looked after however the handling goes on: whether the
    conversion, the reading, the master agent or the sub-agents fail or
    not, the calls of [handle_voice_message] end with the clean-up,
    which starts with the check that the downloaded file exists and
    removes it at once when it does; after that check only clean-up
    calls follow. *)
Theorem X19_voice_file_cleaned (response : http_response) (ogg_file_path : string) :
  requests_get w (past ++ [notice]) media_url = Ok response ->
  status_code response = 200 ->
  tempfile_write w (past ++ [notice; RequestsGet media_url]) (content response)
  = Ok ogg_file_path ->
  truthy ogg_file_path = true ->
  exists before after,
    calls_of (WhatsappApp.handle_voice_message api phone_number media_url w past σ)
    = [notice; RequestsGet media_url; TempFileWrite (content response)]
      ++ before ++ PathExists ogg_file_path :: after
    /\ Forall is_cleanup after
    /\ (path_exists w (past ++ [notice; RequestsGet media_url; TempFileWrite (content response)]
                         ++ before) ogg_file_path = true ->
        head after = Some (Unlink ogg_file_path)).
Proof.
  intros Hget Hstatus Hwrite Hpath.
  assert (Htry : exists before x ended,
    res_of (WhatsappApp.voice_try api phone_number media_url w past σ)
    = Ok (Some ogg_file_path :: x, ended)
    /\ calls_of (WhatsappApp.voice_try api phone_number media_url w past σ)
       = [notice; RequestsGet media_url; TempFileWrite (content response)] ++ before).
  { unfold WhatsappApp.voice_try, WhatsappApp.download_audio_from_twilio.
    rewrite bind_out, attempt_out. norm. fold from_ to notice. rewrite Hget. norm.
    rewrite Hstatus. cbn [Z.eqb Pos.eqb negb]. norm.
    rewrite <- !app_assoc. cbn [app]. rewrite Hwrite. norm.
    rewrite attempt_out. norm.
    match goal with |- context [match res_of ?d with _ => _ end] =>
      destruct (res_of d) as [wav|e] eqn:Hconv end; norm.
    - rewrite attempt_out. norm. eauto 6.
    - eauto 6. }
  destruct Htry as (before & x & ended & Hres & Hcalls).
  unfold WhatsappApp.handle_voice_message. rewrite bind_out, Hres.
  unfold then_, try_finally. cbn [res_of calls_of sessions_of fst snd]. rewrite Hcalls.
  set (handled := match ended with Ok _ => mret tt | Raise e => _ end).
  match goal with |- context [WhatsappApp.cleanup_temp_files ?l w ?p ?s] =>
    destruct (cleanup_temp_files_head ogg_file_path x w p s Hpath)
      as (after & Hc & Hall & Hunlink) end.
  rewrite Hc.
  exists (before ++ calls_of (handled w (past ++ [notice; RequestsGet media_url;
                                  TempFileWrite (content response)] ++ before)
                                (sessions_of (WhatsappApp.voice_try api phone_number media_url
                                                w past σ)))), after.
  split; [now rewrite <- !app_assoc|]. split; [exact Hall|].
  intros Hex. apply Hunlink. rewrite <- Hex. f_equal. now rewrite <- !app_assoc.
Qed.

(** X20.  [handle_voice_message] returns normally in every world in
    which removing a file fails with an [OSError] only: nothing raised
    by the download, the conversion, the reading, the master agent, the
    sub-agents or Twilio gets out of it. *)
Theorem X20_voice_message_returns :
  (forall tr path e, unlink w tr path = Raise e -> is_a (exn_cls e) OSError = true) ->
  res_of (WhatsappApp.handle_voice_message api phone_number media_url w past σ) = Ok tt.
Proof.
  intros Hunlink.
  assert (Hfile : forall p past' σ',
            exists cs, WhatsappApp.cleanup_temp_file p w past' σ' = MkOut (Ok tt) cs σ').
  { intros p past' σ'. unfold WhatsappApp.cleanup_temp_file, try_except.
    destruct (some_text p) as [q|]; norm; [|eauto].
    destruct (path_exists w past' q); norm; [|eauto].
    destruct (unlink w (past' ++ [PathExists q]) q) as [[]|e] eqn:Hu; norm; [eauto|].
    rewrite (Hunlink _ _ _ Hu). norm. eauto. }
  assert (Hfiles : forall paths past' σ',
            res_of (WhatsappApp.cleanup_temp_files paths w past' σ') = Ok tt).
  { intros paths past' σ'. unfold WhatsappApp.cleanup_temp_files.
    rewrite bind_then_ret. cbn [res_of].
    enough (exists bs, res_of (for_each WhatsappApp.cleanup_temp_file paths w past' σ') = Ok bs)
      as [bs ->] by reflexivity.
    revert past' σ'. induction paths as [|p paths IH]; intros past' σ'; cbn [for_each].
    - cbn. eauto.
    - rewrite bind_out. destruct (Hfile p past' σ') as [cs ->].
      cbn [res_of]. unfold then_. cbn [res_of calls_of sessions_of].
      rewrite bind_out. destruct (IH (past' ++ cs) σ') as [bs ->].
      cbn. eauto. }
  destruct voice_try_returns as (paths & ended & Hres).
  unfold WhatsappApp.handle_voice_message. rewrite bind_out, Hres.
  unfold then_, try_finally. cbn [res_of calls_of sessions_of fst snd].
  rewrite Hfiles. destruct ended as [[]|e]; [reflexivity|]. now rewrite say_out.
Qed.

End VoiceMessage.

Lemma X18_voice_download_refused_witness :
  requests_get Samples.offline
    [MessagesCreate (Some "whatsapp:+14155238886") "ğŸ¤ Processing your voice message with native audio analysis..." "whatsapp:+447700900123"]
    "https://api.twilio.com/m/2" = Ok (HttpResponse 404 "")
  /\ calls_of (WhatsappApp.handle_voice_message Samples.api "+447700900123"
                 "https://api.twilio.com/m/2" Samples.offline [] ∅)
     = [MessagesCreate (Some "whatsapp:+14155238886") "ğŸ¤ Processing your voice message with native audio analysis..." "whatsapp:+447700900123";
        RequestsGet "https://api.twilio.com/m/2";
        MessagesCreate (Some "whatsapp:+14155238886")
          ("âŒ An error occurred with native audio analysis: " +:+ "Failed to download audio. Status: 404" +:+ ". Please try again.")
          "whatsapp:+447700900123"].
Proof.
  split; [reflexivity|].
  rewrite (X18_voice_download_refused Samples.api "+447700900123"
             "https://api.twilio.com/m/2" Samples.offline [] ∅ (HttpResponse 404 "")
             eq_refl ltac:(cbn; lia)).
  reflexivity.
Defined.

Lemma X19_voice_file_cleaned_witness :
  tempfile_write (Samples.world "" [])
    [MessagesCreate (Some "whatsapp:+14155238886") "ğŸ¤ Processing your voice message with native audio analysis..." "whatsapp:+447700900123";
     RequestsGet "https://api.twilio.com/m/2"] "jpeg" = Ok "/tmp/voice.ogg"
  /\ In (Unlink "/tmp/voice.ogg")
        (calls_of (WhatsappApp.handle_voice_message Samples.api "+447700900123"
                     "https://api.twilio.com/m/2" (Samples.world "" []) [] ∅)).
Proof.
  split; [reflexivity|].
  destruct (X19_voice_file_cleaned Samples.api "+447700900123" "https://api.twilio.com/m/2"
              (Samples.world "" []) [] ∅ (HttpResponse 200 "jpeg") "/tmp/voice.ogg"
              eq_refl eq_refl eq_refl eq_refl) as (before & after & Hcalls & _ & Hunlink).
  rewrite Hcalls. specialize (Hunlink eq_refl).
  destruct after as [|c after]; [discriminate|]. injection Hunlink as ->.
  apply in_or_app. right. apply in_or_app. right. right. now left.
Defined.

Lemma X20_voice_message_returns_witness :
  (forall tr path e, unlink (Samples.world "" []) tr path = Raise e ->
     is_a (exn_cls e) OSError = true)
  /\ res_of (WhatsappApp.handle_voice_message Samples.api "+447700900123"
               "https://api.twilio.com/m/2" (Samples.world "" []) [] ∅) = Ok tt.
Proof.
  assert (H : forall tr path e, unlink (Samples.world "" []) tr path = Raise e ->
                is_a (exn_cls e) OSError = true) by (intros tr path e; discriminate).
  split; [exact H|].
  exact (X20_voice_message_returns Samples.api "+447700900123" "https://api.twilio.com/m/2"
           (Samples.world "" []) [] ∅ H).
Defined.

(* ===================================================================== *)
(** * The ADK webhook and its media (src/agents/master_agent.py 89-171) *)
(* ===================================================================== *)

Section AdkMedia.
Context (request : Agent.form) (w : World) (past : trace) (σ : store).

Let user_id := default "Unknown" (Agent.f_From request).
Let session_id := AdkWebhook.session_id_of user_id.
Let opened := AdkWebhook.get_or_create_session user_id session_id w past σ.

Lemma adk_webhook_opened (s : session) :
  res_of opened = Ok s ->
  AdkWebhook.twilio_webhook request w past σ
  = let o := AdkWebhook.process_message request user_id session_id w
               (past ++ calls_of opened) (sessions_of opened) in
    MkOut (Ok match res_of o with
              | Ok m => m
              | Raise _ => Agent.Twiml [AdkWebhook.apology]
              end)
          (calls_of opened ++ calls_of o) (sessions_of o).
Proof.
  intros Hs. unfold AdkWebhook.twilio_webhook. rewrite try_except_const.
  unfold AdkWebhook.webhook_body. rewrite bind_out. fold user_id session_id opened.
  rewrite Hs. unfold then_. reflexivity.
Qed.

(** X21.  In the ADK webhook, a media download that answers with a
    status from 400 to 599 ends the request with the apology: once the
    session is there, the download is the only further call, the agent
    is not run, and the reply carries the apology and nothing else. *)
Theorem X21_adk_media_refused (s : session) (url ty : string) (response : http_response) :
  res_of opened = Ok s ->
  some_text (Agent.f_MediaUrl0 request) = Some url ->
  some_text (Agent.f_MediaContentType0 request) = Some ty ->
  requests_get w (past ++ calls_of opened) url = Ok response ->
  400 <= status_code response < 600 ->
  res_of (AdkWebhook.twilio_webhook request w past σ) = Ok (Agent.Twiml [AdkWebhook.apology])
  /\ calls_of (AdkWebhook.twilio_webhook request w past σ)
     = calls_of opened ++ [RequestsGet url].
Proof.
  intros Hs Hurl Hty Hget Hstatus. rewrite (adk_webhook_opened s Hs). cbn zeta.
  unfold AdkWebhook.process_message. rewrite Hurl, Hty. norm. rewrite Hget. norm.
  unfold AdkWebhook.raise_for_status.
  destruct (Z.leb_spec 400 (status_code response)); [|lia].
  destruct (Z.ltb_spec (status_code response) 600); [|lia].
  cbn [andb]. norm. split; reflexivity.
Qed.


(** X23.  The ADK webhook takes a request as a media message only when
    it has both a media URL and a content type, each non-empty: with
    either of them missing or empty, the request is handled exactly as
    the same request without any media, by its text alone. *)
Theorem X23_adk_media_needs_type (uid sid : string) :
  some_text (Agent.f_MediaUrl0 request) = None
  \/ some_text (Agent.f_MediaContentType0 request) = None ->
  AdkWebhook.process_message request uid sid w past σ
  = AdkWebhook.process_message
      (Agent.Form (Agent.f_From request) (Agent.f_Body request) None None
                  (Agent.f_NumMedia request))
      uid sid w past σ.
Proof.
  intros H. unfold AdkWebhook.process_message. cbn [Agent.f_MediaUrl0
    Agent.f_MediaContentType0 Agent.f_Body some_text].
  destruct H as [-> | ->]; [reflexivity|].
  now destruct (some_text (Agent.f_MediaUrl0 request)).
Qed.

End AdkMedia.

Lemma X21_adk_media_refused_witness :
  res_of (AdkWebhook.get_or_create_session Samples.sender
            (AdkWebhook.session_id_of Samples.sender) Samples.offline [] ∅)
  = Ok AdkWebhook.new_state
  /\ res_of (AdkWebhook.twilio_webhook Samples.voice_request Samples.offline [] ∅)
     = Ok (Agent.Twiml [AdkWebhook.apology])
  /\ calls_of (AdkWebhook.twilio_webhook Samples.voice_request Samples.offline [] ∅)
     = [ GetSession Samples.sender "twilio_whatsapp_447700900123";
         CreateSession Samples.sender "twilio_whatsapp_447700900123";
         RequestsGet "https://api.twilio.com/m/2" ].
Proof.
  split; [reflexivity|].
  exact (X21_adk_media_refused Samples.voice_request Samples.offline [] ∅
           AdkWebhook.new_state "https://api.twilio.com/m/2" "audio/ogg"
           (HttpResponse 404 "") eq_refl eq_refl eq_refl eq_refl
           ltac:(cbn; lia)).
Defined.


Lemma X23_adk_media_needs_type_witness :
  some_text (Agent.f_MediaContentType0
               (Agent.Form (Some Samples.sender) (Some "hello")
                           (Some "https://api.twilio.com/m/1") None (Some "1"))) = None
  /\ calls_of (AdkWebhook.process_message
                 (Agent.Form (Some Samples.sender) (Some "hello")
                             (Some "https://api.twilio.com/m/1") None (Some "1"))
                 Samples.sender "s1" (Samples.world "" []) [] ∅)
     = [RunnerRun Samples.sender "s1" (Content "user" [TextPart "hello"])].
Proof.
  split; [reflexivity|].
  rewrite (X23_adk_media_needs_type
             (Agent.Form (Some Samples.sender) (Some "hello")
                         (Some "https://api.twilio.com/m/1") None (Some "1"))
             (Samples.world "" []) [] ∅ Samples.sender "s1" (or_intror eq_refl)).
  reflexivity.
Defined.

(* ===================================================================== *)
(** * Collecting the agent's response (src/agents/master_agent.py 145-156) *)
(* ===================================================================== *)

(** X24.  The loop that collects the agent's response passes over the
    events that have no content or whose content has no parts: such
    events in front of the others change nothing in what the loop
    does, and a run that yields only such events and ends without an
    exception is answered with [Processing complete.]. *)
Theorem X24_first_response_skips (skipped rest : list adk_event) (ended_by : option exn) :
  Forall contentless skipped ->
  AdkWebhook.first_response (skipped ++ rest) ended_by
  = AdkWebhook.first_response rest ended_by
  /\ AdkWebhook.first_response skipped None = mret "Processing complete.".
Proof.
  induction 1 as [|ev skipped Hev _ [IH1 IH2]]; [split; reflexivity|].
  cbn [app AdkWebhook.first_response]. unfold contentless in Hev.
  destruct (ev_content ev) as [[role parts]|]; [|now split].
  cbn in Hev. subst parts. now split.
Qed.

Lemma X24_first_response_skips_witness :
  Forall contentless [Event "agent" None; Event "agent" (Some (Content "assistant" []))]
  /\ AdkWebhook.first_response
       [Event "agent" None; Event "agent" (Some (Content "assistant" []));
        Event "agent" (Some (Content "assistant" [TextPart "Welcome."]))] None
     = mret "Welcome.".
Proof.
  assert (H : Forall contentless
                [Event "agent" None; Event "agent" (Some (Content "assistant" []))])
    by (repeat constructor).
  split; [exact H|].
  exact (proj1 (X24_first_response_skips _
                  [Event "agent" (Some (Content "assistant" [TextPart "Welcome."]))]
                  None H)).
Defined.

(* ===================================================================== *)
(** * The ADK agent (src/agents/multimodal_adk_agent.py 191-357) *)
(* ===================================================================== *)

Lemma first_input_none (parts : list part) :
  AdkAgent.first_input parts = None <-> Forall (fun p => p = TextPart "") parts.
Proof.
  induction parts as [|p parts IH]; [split; [constructor | reflexivity]|].
  cbn [AdkAgent.first_input]. destruct p as [text|mime data].
  - unfold truthy. destruct (String.eqb_spec text "") as [->|Hne]; cbn [negb].
    + rewrite IH. split; [now constructor | now inversion 1].
    + split; [discriminate|]. inversion 1; congruence.
  - split; [discriminate|]. inversion 1; discriminate.
Qed.

Section ProcessInput.
Context (g : AdkAgent.Genai) (name master_prompt : string).
Context (st : AdkAgent.state) (content : adk_content).

Let out := AdkAgent._process_input_with_master_prompt g name master_prompt st content.

(** X25.  [_process_input_with_master_prompt] yields exactly one event
    in every case: whether the content has a usable part or not,
    whether the model answers, answers without text or raises, and
    whatever the JSON of its answer holds.  The event is authored by
    the agent and its content is one text part under the role
    [assistant]; so the loop of the ADK webhook that collects the
    response takes that text as the response, and never falls back on
    [Processing complete.] or fails on a part without text. *)
Theorem X25_process_input_one_event :
  exists text,
    fst out = [Event name (Some (Content "assistant" [TextPart text]))]
    /\ forall w past σ,
         AdkWebhook.first_response (fst out) None w past σ = MkOut (Ok text) [] σ.
Proof.
  unfold out, AdkAgent._process_input_with_master_prompt.
  destruct (AdkAgent.first_input (ct_parts content)) as [inp|];
    [|eexists; split; reflexivity].
  destruct (AdkAgent.models_generate g _) as [response_text|e];
    [|eexists; split; reflexivity].
  destruct (AdkAgent.answer_of g response_text); eexists; split; reflexivity.
Qed.

(** X26.  When every part of the content is a text part with empty
    text (or there is no part at all), the agent answers [No valid
    input found], leaves the session state as it was and does not ask
    the model: the outcome is the same for every model. *)
Theorem X26_process_input_nothing :
  Forall (fun p => p = TextPart "") (ct_parts content) ->
  out = ([Event name (Some (Content "assistant" [TextPart "No valid input found"]))], st).
Proof.
  intros H. apply first_input_none in H.
  unfold out, AdkAgent._process_input_with_master_prompt. now rewrite H.
Qed.

(** X27.  [_process_input_with_master_prompt] writes to five keys of
    the session state at most: [input_type], [user_input],
    [audio_response], [text_response] and [assessment_complete].
    Every other key, the conversation history among them, holds
    afterwards what it held before. *)
Theorem X27_process_input_frame (key : string) :
  key ∉ ["input_type"; "user_input"; "audio_response"; "text_response";
         "assessment_complete"] ->
  snd out !! key = st !! key.
Proof.
  intros Hkey.
  assert (H1 : key <> "input_type") by (intros ->; apply Hkey; set_solver).
  assert (H2 : key <> "user_input") by (intros ->; apply Hkey; set_solver).
  assert (H3 : key <> "audio_response") by (intros ->; apply Hkey; set_solver).
  assert (H4 : key <> "text_response") by (intros ->; apply Hkey; set_solver).
  assert (H5 : key <> "assessment_complete") by (intros ->; apply Hkey; set_solver).
  unfold out, AdkAgent._process_input_with_master_prompt.
  destruct (AdkAgent.first_input (ct_parts content)) as [inp|]; [|reflexivity].
  destruct (AdkAgent.models_generate g _) as [response_text|e].
  - destruct (AdkAgent.answer_of g response_text); cbn [snd];
      destruct inp; cbn [AdkAgent.input_type_of]; rewrite ?app_cons, ?app_empty;
      repeat (rewrite lookup_insert_ne by (cbn; congruence)); reflexivity.
  - cbn [snd]. destruct inp; cbn [AdkAgent.input_type_of]; rewrite ?app_cons, ?app_empty;
      repeat (rewrite lookup_insert_ne by (cbn; congruence)); reflexivity.
Qed.

(** X28.  What the agent records for an input it found: the state's
    [input_type] is the kind of the input, and for a text input
    [user_input] is the text.  When the model answers, the state
    records the raw answer under [audio_response] or [text_response],
    before any JSON is taken out of it, and sets [assessment_complete];
    this also holds when turning the answer into a reply fails.  When
    the model raises, these two keys are left as they were. *)
Theorem X28_process_input_records (inp : AdkAgent.input) :
  AdkAgent.first_input (ct_parts content) = Some inp ->
  snd out !! "input_type" = Some (AdkAgent.PStr (AdkAgent.input_type_of inp))
  /\ (forall text, inp = AdkAgent.TextInput text ->
        snd out !! "user_input" = Some (AdkAgent.PStr text))
  /\ match AdkAgent.models_generate g (AdkAgent.content_parts master_prompt inp) with
     | Ok response_text =>
         snd out !! "assessment_complete" = Some (AdkAgent.PBool true)
         /\ snd out !! (AdkAgent.input_type_of inp +:+ "_response")
            = Some (AdkAgent.response_value response_text)
     | Raise _ =>
         snd out !! "assessment_complete" = st !! "assessment_complete"
         /\ snd out !! (AdkAgent.input_type_of inp +:+ "_response")
            = st !! (AdkAgent.input_type_of inp +:+ "_response")
     end.
Proof.
  intros Hinp. unfold out, AdkAgent._process_input_with_master_prompt. rewrite Hinp.
  destruct (AdkAgent.models_generate g _) as [response_text|e].
  - destruct (AdkAgent.answer_of g response_text); cbn [snd];
      destruct inp; cbn [AdkAgent.input_type_of]; rewrite ?app_cons, ?app_empty;
      (split; [|split; [intros text' [= <-] || (intros text' [=]) | split]]);
      repeat first [ rewrite lookup_insert_eq | rewrite lookup_insert_ne by (cbn; congruence) ];
      reflexivity.
  - cbn [snd]. destruct inp; cbn [AdkAgent.input_type_of]; rewrite ?app_cons, ?app_empty;
      (split; [|split; [intros text' [= <-] || (intros text' [=]) | split]]);
      repeat first [ rewrite lookup_insert_eq | rewrite lookup_insert_ne by (cbn; congruence) ];
      reflexivity.
Qed.

End ProcessInput.

Lemma X26_process_input_nothing_witness :
  Forall (fun p => p = TextPart "") (ct_parts (Content "user" [TextPart ""; TextPart ""]))
  /\ AdkAgent._process_input_with_master_prompt (Cases.genai "Welcome." None)
       "GoogleAskAgent" "{INPUT_PLACEHOLDER}" ∅ (Content "user" [TextPart ""; TextPart ""])
     = ([Event "GoogleAskAgent"
           (Some (Content "assistant" [TextPart "No valid input found"]))], ∅).
Proof.
  assert (H : Forall (fun p => p = TextPart "")
                (ct_parts (Content "user" [TextPart ""; TextPart ""])))
    by (repeat constructor).
  split; [exact H|].
  exact (X26_process_input_nothing (Cases.genai "Welcome." None) "GoogleAskAgent"
           "{INPUT_PLACEHOLDER}" ∅ (Content "user" [TextPart ""; TextPart ""]) H).
Defined.

Lemma X27_process_input_frame_witness :
  ("conversation_history" ∉ ["input_type"; "user_input"; "audio_response"; "text_response";
                             "assessment_complete"])
  /\ snd (AdkAgent._process_input_with_master_prompt (Cases.genai "Welcome." None)
            "GoogleAskAgent" "{INPUT_PLACEHOLDER}"
            (<["conversation_history" := AdkAgent.PStr "[]"]> ∅)
            (Content "user" [TextPart "hello"])) !! "conversation_history"
     = Some (AdkAgent.PStr "[]").
Proof.
  assert (H : "conversation_history" ∉ ["input_type"; "user_input"; "audio_response";
                                        "text_response"; "assessment_complete"]).
  { intros Hin. repeat (apply elem_of_cons in Hin as [Hin|Hin]; [discriminate Hin|]).
    inversion Hin. }
  split; [exact H|].
  rewrite (X27_process_input_frame (Cases.genai "Welcome." None) "GoogleAskAgent"
             "{INPUT_PLACEHOLDER}" (<["conversation_history" := AdkAgent.PStr "[]"]> ∅)
             (Content "user" [TextPart "hello"]) "conversation_history" H).
  apply lookup_insert_eq.
Defined.

Lemma X28_process_input_records_witness :
  AdkAgent.first_input (ct_parts (Content "user" [TextPart ""; TextPart "hello"]))
  = Some (AdkAgent.TextInput "hello")
  /\ snd (AdkAgent._process_input_with_master_prompt (Cases.genai "Welcome." None)
            "GoogleAskAgent" "{INPUT_PLACEHOLDER}" ∅
            (Content "user" [TextPart ""; TextPart "hello"])) !! "text_response"
     = Some (AdkAgent.PStr "Welcome.").
Proof.
  split; [reflexivity|].
  destruct (X28_process_input_records (Cases.genai "Welcome." None) "GoogleAskAgent"
              "{INPUT_PLACEHOLDER}" ∅ (Content "user" [TextPart ""; TextPart "hello"])
              (AdkAgent.TextInput "hello") eq_refl) as (_ & _ & H).
  exact (proj2 H).
Defined.

(* ===================================================================== *)
(** * The JSON of the agent's answer
      (src/agents/multimodal_adk_agent.py 260-293) *)
(* ===================================================================== *)

Lemma rfind_from_none (sub s : string) (k : nat) :
  contains s sub = false -> AdkAgent.rfind_from s sub k = None.
Proof.
  revert k. induction s as [|d s IH]; intros k H.
  - cbn in *. apply orb_false_iff in H as [H _]. now rewrite H.
  - rewrite contains_cons in H. apply orb_false_iff in H as [Hp Hc].
    cbn [AdkAgent.rfind_from]. now rewrite IH, Hp.
Qed.

Lemma rfind_from_last (c : ascii) (pre post : string) (k : nat) :
  contains post (chr c) = false ->
  AdkAgent.rfind_from (pre +:+ chr c +:+ post) (chr c) k = Some (k + String.length pre)%nat.
Proof.
  intros Hpost. revert k. induction pre as [|d pre IH]; intros k.
  - rewrite app_empty. unfold chr at 1. rewrite app_cons, app_empty.
    cbn [AdkAgent.rfind_from]. rewrite rfind_from_none by assumption.
    unfold chr. rewrite prefix_cons, prefix_empty.
    destruct (ascii_dec c c); [|congruence]. cbn. f_equal. lia.
  - rewrite app_cons. cbn [AdkAgent.rfind_from]. rewrite IH. cbn. f_equal. lia.
Qed.

(** X29.  When the model's answer starts with a json fence, the agent
    reads the text from the first opening brace to the last closing
    brace, both included, as JSON: whatever stands between the fence
    and the first brace and behind the last brace is left out, and
    what stands between the two braces is taken as it is, braces and
    fences included.  The reply is the [response_to_user] of that JSON;
    when the JSON has no such key or cannot be read, the reply is the
    whole answer, fences included. *)
Theorem X29_clean_response_fenced (g : AdkAgent.Genai) (pre inner post : string) :
  contains pre "{" = false ->
  contains post "}" = false ->
  let response_text := "```json" +:+ pre +:+ "{" +:+ inner +:+ "}" +:+ post in
  AdkAgent.clean_response g response_text
  = match AdkAgent.response_to_user g ("{" +:+ inner +:+ "}") with
    | Ok (Some value) => value
    | Ok None => AdkAgent.JStr response_text
    | Raise _ => AdkAgent.JStr response_text
    end.
Proof.
  intros Hpre Hpost response_text. unfold AdkAgent.clean_response.
  assert (Hstart : startswith response_text "```json" = true) by apply prefix_app.
  rewrite Hstart.
  assert (Hopen : Agent.find response_text "{" 0 = Some (7 + String.length pre)%nat).
  { assert (Hc : contains ("```json" +:+ pre) (chr "{") = false).
    { rewrite contains_chr_app. apply orb_false_iff. split; [reflexivity | exact Hpre]. }
    pose proof (find_behind "{" "" "" ("```json" +:+ pre) (inner +:+ "}" +:+ post) Hc) as F.
    rewrite length_app in F. cbn [String.length Nat.add] in F.
    rewrite app_empty, app_assoc_str in F. exact F. }
  rewrite Hopen.
  assert (Hclose : AdkAgent.rfind response_text "}"
                   = Some (7 + String.length pre + 1 + String.length inner)%nat).
  { unfold AdkAgent.rfind, response_text.
    replace ("```json" +:+ pre +:+ "{" +:+ inner +:+ "}" +:+ post)
      with (("```json" +:+ pre +:+ "{" +:+ inner) +:+ chr "}" +:+ post)
      by (now rewrite !app_assoc_str).
    rewrite (rfind_from_last "}" _ post 0 Hpost). f_equal.
    rewrite !length_app. cbn [String.length]. lia. }
  rewrite Hclose.
  assert (Hjson : slice_to (S (7 + String.length pre + 1 + String.length inner)
                            - (7 + String.length pre))
                    (slice_from (7 + String.length pre) response_text)
                  = "{" +:+ inner +:+ "}").
  { unfold response_text.
    replace ("```json" +:+ pre +:+ "{" +:+ inner +:+ "}" +:+ post)
      with (("```json" +:+ pre) +:+ ("{" +:+ inner +:+ "}") +:+ post)
      by (now rewrite !app_assoc_str).
    replace (7 + String.length pre)%nat with (String.length ("```json" +:+ pre))
      by (rewrite length_app; reflexivity).
    rewrite slice_from_app.
    replace (S (String.length ("```json" +:+ pre) + 1 + String.length inner)
             - String.length ("```json" +:+ pre))%nat
      with (String.length ("{" +:+ inner +:+ "}"))
      by (rewrite !length_app; cbn [String.length]; lia).
    apply slice_to_app. }
  rewrite Hjson. reflexivity.
Qed.

Lemma X29_clean_response_fenced_witness :
  contains nl "{" = false
  /\ contains (nl +:+ "```") "}" = false
  /\ AdkAgent.clean_response (Cases.genai "" (Some (AdkAgent.JStr "Well done.")))
       ("```json" +:+ nl +:+ "{" +:+ "a: {b}" +:+ "}" +:+ nl +:+ "```")
     = AdkAgent.JStr "Well done.".
Proof.
  split; [reflexivity|]. split; [reflexivity|].
  exact (X29_clean_response_fenced (Cases.genai "" (Some (AdkAgent.JStr "Well done.")))
           nl "a: {b}" (nl +:+ "```") eq_refl eq_refl).
Defined.

(** X30.  The agent appends its request for an image to every reply
    that mentions stitching: a reply in which one of the words stitch,
    sewing, tailor, fabric, thread, needle and seam occurs anywhere, in
    any mix of upper and lower case, also inside a longer word, is
    followed by a blank line and the sentence that asks for an image
    of the work. *)
Theorem X30_final_response_hint (before word after : string) :
  In (lower word) AdkAgent.stitching_keywords ->
  AdkAgent.final_response (AdkAgent.JStr (before +:+ word +:+ after))
  = Ok ((before +:+ word +:+ after) +:+ nl +:+ nl +:+ AdkAgent.share_image).
Proof.
  intros Hin. unfold AdkAgent.final_response, AdkAgent._should_delegate_to_stitching_agent.
  assert (Hk : existsb (contains (lower (before +:+ word +:+ after)))
                 AdkAgent.stitching_keywords = true).
  { apply existsb_exists. exists (lower word). split; [exact Hin|].
    unfold lower. rewrite !map_chars_app. apply contains_app_sub. }
  now rewrite Hk.
Qed.

Lemma X30_final_response_hint_witness :
  In (lower "Seam") AdkAgent.stitching_keywords
  /\ AdkAgent.final_response (AdkAgent.JStr "It Seams fine.")
     = Ok ("It Seams fine." +:+ nl +:+ nl +:+ AdkAgent.share_image).
Proof.
  assert (H : In (lower "Seam") AdkAgent.stitching_keywords)
    by (cbn; tauto).
  split; [exact H|].
  exact (X30_final_response_hint "It " "Seam" "s fine." H).
Defined.
